(** * GionCraft: [scripts/convert_gml_to_json.py]

    A shallow embedding of the CityGML-to-JSON mesh converter and the
    properties of its geometry pipeline: ring parsing, fan triangulation,
    solid extraction with its document-wide fallback, projection with the
    running bounding box, and the orchestration in [main].

    Python floats are IEEE-754 binary64 values; they are modelled by the
    Standard Library's [spec_float] at precision 53 and maximal exponent
    1024.  Exceptions are values of [PyError] threaded through an error
    monad, and the file-system effects of [main] are an explicit trace. *)

From Stdlib Require Import ZArith List String Ascii Bool Lia Arith.
From Stdlib Require Import Floats.SpecFloat.
Import ListNotations.

Local Open Scope Z_scope.
#[local] Set Warnings "-register-all".

(** ** Python exceptions and the error monad *)

Inductive PyError : Type :=
| ValueError_float (token : string)   (* could not convert string to float *)
| ValueError_unpack                   (* wrong number of values to unpack *)
| ValueError_math                     (* math domain error *)
| ValueError_range                    (* range() arg 3 must not be zero *)
| ZeroDivisionError
| SystemExit (message : string).

Inductive result (A : Type) : Type :=
| Ok (a : A)
| Error (e : PyError).
Arguments Ok {A} a.
Arguments Error {A} e.

Definition bind {A B : Type} (r : result A) (k : A -> result B) : result B :=
  match r with
  | Ok a => k a
  | Error e => Error e
  end.

Notation "x <- c1 ;; c2" := (bind c1 (fun x => c2))
  (at level 61, c1 at next level, right associativity).
Notation "' pat <- c1 ;; c2" := (bind c1 (fun x => match x with pat => c2 end))
  (at level 61, pat pattern, c1 at next level, right associativity).

(** A list comprehension whose body may raise: the first failure, left to
    right, is the one that propagates. *)
Fixpoint mapM {A B : Type} (f : A -> result B) (l : list A) : result (list B) :=
  match l with
  | [] => Ok []
  | a :: l' => b <- f a ;; bs <- mapM f l' ;; Ok (b :: bs)
  end.

(** A [for] loop that updates an accumulator and may raise. *)
Fixpoint foldM {A S : Type} (body : S -> A -> result S) (l : list A) (s : S)
  : result S :=
  match l with
  | [] => Ok s
  | a :: l' => s' <- body s a ;; foldM body l' s'
  end.

Definition is_ValueError (e : PyError) : bool :=
  match e with
  | ValueError_float _ | ValueError_unpack | ValueError_math | ValueError_range => true
  | ZeroDivisionError | SystemExit _ => false
  end.

(** ** Python floats *)

Module PyFloat.

Definition prec : Z := 53.
Definition emax : Z := 1024.

Definition float : Type := spec_float.

Definition add : float -> float -> float := SFadd prec emax.
Definition sub : float -> float -> float := SFsub prec emax.
Definition mul : float -> float -> float := SFmul prec emax.
Definition div : float -> float -> float := SFdiv prec emax.
Definition neg : float -> float := SFopp.

Definition eqb : float -> float -> bool := SFeqb.
Definition ltb : float -> float -> bool := SFltb.
Definition leb : float -> float -> bool := SFleb.
Definition gtb (x y : float) : bool :=
  match SFcompare x y with
  | Some Gt => true
  | _ => false
  end.

Definition pos_zero : float := S754_zero false.
Definition pos_inf : float := S754_infinity false.
Definition neg_inf : float := S754_infinity true.
Definition nan : float := S754_nan.

Definition is_nan (x : float) : bool :=
  match x with S754_nan => true | _ => false end.
Definition is_inf (x : float) : bool :=
  match x with S754_infinity _ => true | _ => false end.
Definition is_zero (x : float) : bool :=
  match x with S754_zero _ => true | _ => false end.
Definition is_finite (x : float) : bool :=
  match x with S754_zero _ | S754_finite _ _ _ => true | _ => false end.

(** [float(n)] for a Python int, rounded to nearest even. *)
Definition of_Z (n : Z) : float := binary_normalize prec emax n 0 false.

(** The value of the decimal [(-1)^s * m * 10^e10], correctly rounded. *)
Definition of_decimal (s : bool) (m : N) (e10 : Z) : float :=
  match m with
  | N0 => S754_zero s
  | Npos p =>
      if 0 <=? e10
      then binary_normalize prec emax (cond_Zopp s (Zpos p * 10 ^ e10)) 0 false
      else div (S754_finite s p 0) (S754_finite false (Z.to_pos (10 ^ (- e10))) 0)
  end.

(** *** The builtin [float(str)]

    Text is a sequence of code points below 256.  The literal grammar is
    the one of the language reference: an optional sign, then either a
    decimal number with an optional exponent, or [inf], [infinity] or
    [nan] in any letter case; single underscores may separate digits. *)

Definition code (c : ascii) : nat := nat_of_ascii c.

Definition is_digit (c : ascii) : bool :=
  (48 <=? code c)%nat && (code c <=? 57)%nat.

Definition digit_value (c : ascii) : N := N.of_nat (code c - 48).

Definition to_lower (c : ascii) : ascii :=
  if (65 <=? code c)%nat && (code c <=? 90)%nat
  then ascii_of_nat (code c + 32) else c.

(** [str.isspace] on code points below 256. *)
Definition is_space (c : ascii) : bool :=
  let n := code c in
  ((9 <=? n)%nat && (n <=? 13)%nat) || ((28 <=? n)%nat && (n <=? 32)%nat)
  || (n =? 133)%nat || (n =? 160)%nat.

(** The spaces [float] ignores around a literal: the C ones, and the
    spaces beyond ASCII. *)
Definition is_float_space (c : ascii) : bool :=
  let n := code c in
  ((9 <=? n)%nat && (n <=? 13)%nat) || (n =? 32)%nat
  || (n =? 133)%nat || (n =? 160)%nat.

Fixpoint drop_spaces (s : list ascii) : list ascii :=
  match s with
  | c :: s' => if is_float_space c then drop_spaces s' else s
  | [] => []
  end.

Definition strip (s : list ascii) : list ascii :=
  rev (drop_spaces (rev (drop_spaces s))).

(** Removal of the digit separators; [prev] is the character before. *)
Fixpoint strip_underscores (prev : option ascii) (s : list ascii)
  : option (list ascii) :=
  let prev_is_digit := match prev with Some p => is_digit p | None => false end in
  let prev_is_underscore :=
    match prev with Some p => Ascii.eqb p "_" | None => false end in
  match s with
  | [] => if prev_is_underscore then None else Some []
  | c :: s' =>
      if Ascii.eqb c "_"
      then if prev_is_digit then strip_underscores (Some c) s' else None
      else if prev_is_underscore && negb (is_digit c) then None
           else option_map (cons c) (strip_underscores (Some c) s')
  end.

Fixpoint span_digits (s : list ascii) : list ascii * list ascii :=
  match s with
  | c :: s' =>
      if is_digit c
      then let '(ds, rest) := span_digits s' in (c :: ds, rest)
      else ([], s)
  | [] => ([], [])
  end.

Definition digits_value (ds : list ascii) : N :=
  fold_left (fun acc c => (10 * acc + digit_value c)%N) ds 0%N.

Definition take_sign (s : list ascii) : bool * list ascii :=
  match s with
  | "-"%char :: s' => (true, s')
  | "+"%char :: s' => (false, s')
  | _ => (false, s)
  end.

(** Case-insensitive match of a lower-case [word] at the head of [s]. *)
Fixpoint match_word (word s : list ascii) : option (list ascii) :=
  match word, s with
  | [], _ => Some s
  | w :: word', c :: s' =>
      if Ascii.eqb (to_lower c) w then match_word word' s' else None
  | _ :: _, [] => None
  end.

(** The decimal number at the head of [s] and the text left after it;
    [None] when no number starts there. *)
Definition strtod (s : list ascii) : option (float * list ascii) :=
  let '(sgn, s1) := take_sign s in
  let '(int_part, s2) := span_digits s1 in
  let '(frac_part, s3) :=
    match s2 with
    | "."%char :: t => span_digits t
    | _ => ([], s2)
    end in
  match int_part ++ frac_part with
  | [] => None
  | ds =>
      let '(ex, s4) :=
        match s3 with
        | c :: t =>
            if Ascii.eqb (to_lower c) "e"
            then let '(esgn, t1) := take_sign t in
                 let '(eds, t2) := span_digits t1 in
                 match eds with
                 | [] => (0, s3)
                 | _ => (cond_Zopp esgn (Z.of_N (digits_value eds)), t2)
                 end
            else (0, s3)
        | [] => (0, s3)
        end in
      Some (of_decimal sgn (digits_value ds)
                       (ex - Z.of_nat (List.length frac_part)), s4)
  end.

Definition parse_inf_or_nan (s : list ascii) : option (float * list ascii) :=
  let '(sgn, s1) := take_sign s in
  match match_word (list_ascii_of_string "inf") s1 with
  | Some s2 =>
      match match_word (list_ascii_of_string "inity") s2 with
      | Some s3 => Some (S754_infinity sgn, s3)
      | None => Some (S754_infinity sgn, s2)
      end
  | None =>
      match match_word (list_ascii_of_string "nan") s1 with
      | Some s2 => Some (S754_nan, s2)
      | None => None
      end
  end.

(** [float(token)]: [None] is the [ValueError] of the builtin.  Spaces
    around the literal are ignored, and the whole of it has to be
    consumed. *)
Definition of_string (token : string) : option float :=
  match strip_underscores None (strip (list_ascii_of_string token)) with
  | None => None
  | Some s =>
      match strtod s with
      | Some (x, []) => Some x
      | Some (_, _ :: _) => None
      | None =>
          match parse_inf_or_nan s with
          | Some (x, []) => Some x
          | _ => None
          end
      end
  end.

(** A float literal of the source text. *)
Definition lit (s : string) : float :=
  match of_string s with Some x => x | None => S754_nan end.

(** *** Python's comparisons, [min], [max] and [sum] on floats *)

(** [min(a, b)] keeps [a] unless [b < a]; [max(a, b)] keeps [a] unless
    [b > a]. *)
Definition py_min (a b : float) : float := if ltb b a then b else a.
Definition py_max (a b : float) : float := if gtb b a then b else a.

(** *** The builtin [sum] on floats

    The start value is the integer zero, so the total starts as
    [0.0 + x] for the first item [x].  Up to CPython 3.11 the other items
    are added from the left.  From 3.12 on the rounding error of each
    addition is accumulated as well (Neumaier's method): the larger of
    the two operands, in magnitude, tells how to recover it; the
    accumulated error is added to the total at the end, when it is a
    finite number other than zero. *)
Inductive Summation : Type :=
| Plain          (* CPython up to 3.11 *)
| Compensated.   (* CPython from 3.12 on *)

Definition abs : float -> float := SFabs.

Definition plain_total (xs : list float) : float := fold_left add xs pos_zero.

(** One turn of the compensated loop, on the total and the error. *)
Definition compensated_step (st : float * float) (x : float) : float * float :=
  let '(total, c) := st in
  let t := add total x in
  if leb (abs x) (abs total)
  then (t, add c (add (sub total t) x))
  else (t, add c (add (sub x t) total)).

Definition compensated_total (xs : list float) : float :=
  match xs with
  | [] => pos_zero
  | x :: xs' =>
      let '(total, c) :=
        fold_left compensated_step xs' (add pos_zero x, pos_zero) in
      if negb (is_zero c) && is_finite c then add total c else total
  end.

Definition py_sum (summation : Summation) (xs : list float) : float :=
  match summation with
  | Plain => plain_total xs
  | Compensated => compensated_total xs
  end.

(** [a / b] raises on a zero divisor. *)
Definition truediv (a b : float) : result float :=
  if is_zero b then Error ZeroDivisionError else Ok (div a b).

End PyFloat.

Import PyFloat.

(** ** Text and the element tree *)

(** [text.split()]: the maximal runs of non-space characters.  [cur] is
    the run being read, in reverse. *)
Fixpoint split_ws (cur : list ascii) (s : list ascii) : list string :=
  let flush :=
    match cur with
    | [] => []
    | _ => [string_of_list_ascii (rev cur)]
    end in
  match s with
  | [] => flush
  | c :: s' =>
      if is_space c then flush ++ split_ws [] s' else split_ws (c :: cur) s'
  end.

Definition str_split (text : string) : list string :=
  split_ws [] (list_ascii_of_string text).

Module ET.

(** An [xml.etree.ElementTree.Element]: its qualified tag, the text before
    its first child, and its children in document order. *)
Inductive Element : Type :=
| Elem (tag : string) (text : option string) (children : list Element).

Definition tag (e : Element) : string := let 'Elem t _ _ := e in t.
Definition text (e : Element) : option string := let 'Elem _ t _ := e in t.
Definition children (e : Element) : list Element := let 'Elem _ _ c := e in c.

(** [e.iter()]: the element and its descendants, in document order. *)
Fixpoint iter (e : Element) : list Element :=
  match e with
  | Elem _ _ cs => e :: flat_map iter cs
  end.

Definition has_tag (t : string) (e : Element) : bool := String.eqb (tag e) t.

(** [e.findall(".//t")]: the proper descendants tagged [t]. *)
Definition findall_descendants (t : string) (e : Element) : list Element :=
  filter (has_tag t) (flat_map iter (children e)).

(** [e.find("t")]: the first child tagged [t]. *)
Definition find (t : string) (e : Element) : option Element :=
  List.find (has_tag t) (children e).

End ET.

Import ET.

Definition GML_NS : string := "http://www.opengis.net/gml".
Definition BLDG_NS : string := "http://www.opengis.net/citygml/building/2.0".

(** A prefixed name resolved through [NS], in ElementTree's [{uri}local]
    notation. *)
Definition qname (ns local : string) : string := ("{" ++ ns ++ "}" ++ local)%string.

Definition tag_posList : string := qname GML_NS "posList".
Definition tag_LinearRing : string := qname GML_NS "LinearRing".
Definition tag_lod1Solid : string := qname BLDG_NS "lod1Solid".

(** ** The geometry pipeline *)

(** A vertex is a Python tuple of floats: three components when the
    coordinate list is well formed, fewer for a trailing partial chunk. *)
Abbreviation Vertex := (list float) (only parsing).
(** A triangle is a Python list of three vertices. *)
Abbreviation Triangle := (list (list float)) (only parsing).

(** [range(0, n, step)] for a positive [step]. *)
Definition range_step (n step : nat) : list nat :=
  map (fun k => (k * step)%nat) (seq 0 ((n + step - 1) / step)).

(** [seq[lo:hi]] for [0 <= lo <= hi]. *)
Definition slice {A : Type} (l : list A) (lo hi : nat) : list A :=
  firstn (hi - lo) (skipn lo l).

Definition chunked {A : Type} (seq : list A) (size : nat)
  : result (list (list A)) :=
  match size with
  | O => Error ValueError_range
  | S _ =>
      Ok (map (fun idx => slice seq idx (idx + size))
              (range_step (List.length seq) size))
  end.

(** [t1 == t2] on tuples of floats that share no component object: equal
    lengths and component-wise [==]. *)
Fixpoint tuple_eqb (t1 t2 : Vertex) : bool :=
  match t1, t2 with
  | [], [] => true
  | x :: t1', y :: t2' => PyFloat.eqb x y && tuple_eqb t1' t2'
  | _, _ => false
  end.

Definition float_of_token (v : string) : result float :=
  match PyFloat.of_string v with
  | Some x => Ok x
  | None => Error (ValueError_float v)
  end.

Definition parse_linear_ring (ring : Element) : result (list Vertex) :=
  match ET.find tag_posList ring with
  | None => Ok []
  | Some pos_list =>
      match ET.text pos_list with
      | None => Ok []
      | Some EmptyString => Ok []
      | Some txt =>
          raw_values <- mapM float_of_token (str_split txt) ;;
          coords <- chunked raw_values 3 ;;
          if (1 <? List.length coords)%nat
             && tuple_eqb (nth 0 coords []) (last coords [])
          then Ok (removelast coords)
          else Ok coords
      end
  end.

Definition polygon_to_triangles (coords : list Vertex) : list Triangle :=
  if (List.length coords <? 3)%nat then []
  else
    let anchor := nth 0 coords [] in
    map (fun i => [anchor; nth i coords []; nth (i + 1) coords []])
        (seq 1 (List.length coords - 1 - 1)).

(** The body shared by the two ring loops of [extract_triangles]. *)
Definition extend_with_ring (triangles : list Triangle) (ring : Element)
  : result (list Triangle) :=
  coords <- parse_linear_ring ring ;;
  Ok (triangles ++ polygon_to_triangles coords).

(** The loop over the LoD1 solids and the rings below each of them. *)
Definition solid_triangles (root : Element) : result (list Triangle) :=
  foldM (fun triangles solid =>
           foldM extend_with_ring
                 (ET.findall_descendants tag_LinearRing solid) triangles)
        (ET.findall_descendants tag_lod1Solid root) [].

(** The fallback loop over every ring of the document. *)
Definition any_ring_triangles (root : Element) (triangles : list Triangle)
  : result (list Triangle) :=
  foldM extend_with_ring (ET.findall_descendants tag_LinearRing root) triangles.

(** [extract_triangles], from the root of the parsed document. *)
Definition extract_triangles (root : Element) : result (list Triangle) :=
  triangles <- solid_triangles root ;;
  match triangles with
  | [] => any_ring_triangles root triangles
  | _ :: _ => Ok triangles
  end.

(** ** Geodesy and projection *)

Definition Py_MATH_PI : float := Eval vm_compute in lit "3.14159265358979323846".
Definition degToRad : float := Eval vm_compute in div Py_MATH_PI (of_Z 180).

(** [math.radians]. *)
Definition radians (x : float) : float := mul x degToRad.

Definition c_111132_92 : float := Eval vm_compute in lit "111_132.92".
Definition c_559_82 : float := Eval vm_compute in lit "559.82".
Definition c_1_175 : float := Eval vm_compute in lit "1.175".
Definition c_111412_84 : float := Eval vm_compute in lit "111_412.84".
Definition c_93_5 : float := Eval vm_compute in lit "93.5".

Record Bounds : Type := mkBounds {
  bounds_min : list float;
  bounds_max : list float
}.

(** The six running extrema of [convert_coordinates]. *)
Record Extrema : Type := mkExtrema {
  min_x : float; min_y : float; min_z : float;
  max_x : float; max_y : float; max_z : float
}.

Definition initial_extrema : Extrema :=
  mkExtrema pos_inf pos_inf pos_inf neg_inf neg_inf neg_inf.

(** The projection of one unpacked vertex: [(x, y, z)]. *)
Definition project (lat0 lon0 lat_scale lon_scale lat lon height : float)
  : float * float * float :=
  let x := mul (sub lon lon0) lon_scale in
  let z := mul (neg (sub lat lat0)) lat_scale in
  let y := height in
  (x, y, z).

Definition update_extrema (b : Extrema) (p : float * float * float) : Extrema :=
  let '(x, y, z) := p in
  mkExtrema (py_min (min_x b) x) (py_min (min_y b) y) (py_min (min_z b) z)
            (py_max (max_x b) x) (py_max (max_y b) y) (py_max (max_z b) z).

(** The body of the inner loop: unpack, project, update, extend [flat]. *)
Definition convert_vertex (lat0 lon0 lat_scale lon_scale : float)
           (st : list float * Extrema) (v : Vertex)
  : result (list float * Extrema) :=
  let '(flat, b) := st in
  match v with
  | [lat; lon; height] =>
      let p := project lat0 lon0 lat_scale lon_scale lat lon height in
      let '(x, y, z) := p in
      Ok (flat ++ [x; y; z], update_extrema b p)
  | _ => Error ValueError_unpack
  end.

(** The body of the outer loop. *)
Definition convert_triangle (lat0 lon0 lat_scale lon_scale : float)
           (st : list (list float) * Extrema) (tri : Triangle)
  : result (list (list float) * Extrema) :=
  let '(converted, b) := st in
  '(flat, b') <- foldM (convert_vertex lat0 lon0 lat_scale lon_scale) tri ([], b) ;;
  Ok (converted ++ [flat], b').

(** The two loops of [convert_coordinates], for given scale factors. *)
Definition convert_with_scales (lat_scale lon_scale : float)
           (triangles : list Triangle) (lat0 lon0 : float)
  : result (list (list float) * Bounds) :=
  '(converted, b) <-
     foldM (convert_triangle lat0 lon0 lat_scale lon_scale) triangles
           ([], initial_extrema) ;;
  Ok (converted,
      mkBounds [min_x b; min_y b; min_z b] [max_x b; max_y b; max_z b]).

(** The output record; the JSON text itself is the serializer's. *)
Record MeshDocument : Type := mkMeshDocument {
  origin_lat : float;
  origin_lon : float;
  triangles : list (list float);
  bounds : Bounds;
  source_files : list string;
  lat_scale_m_per_deg : float;
  lon_scale_m_per_deg : float
}.

(** What [main] does to the file system, in order. *)
Inductive Effect : Type :=
| Mkdir_parent (dest : string)
| Open_write (dest : string)
| Json_dump (dest : string) (doc : MeshDocument).

Inductive Outcome : Type :=
| Returned
| Raised (e : PyError).

(** Effectful steps: an error monad over the trace written so far. *)
Definition IO (A : Type) : Type := list Effect -> result A * list Effect.

Definition lift {A : Type} (r : result A) : IO A := fun tr => (r, tr).
Definition emit (e : Effect) : IO unit := fun tr => (Ok tt, tr ++ [e]).
Definition bindIO {A B : Type} (m : IO A) (k : A -> IO B) : IO B :=
  fun tr =>
    match m tr with
    | (Ok a, tr') => k a tr'
    | (Error e, tr') => (Error e, tr')
    end.

Notation "x <~ c1 ;; c2" := (bindIO c1 (fun x => c2))
  (at level 61, c1 at next level, right associativity).
Notation "' pat <~ c1 ;; c2" := (bindIO c1 (fun x => match x with pat => c2 end))
  (at level 61, pat pattern, c1 at next level, right associativity).

Definition run (m : IO unit) : Outcome * list Effect :=
  match m [] with
  | (Ok _, tr) => (Returned, tr)
  | (Error e, tr) => (Raised e, tr)
  end.

(** [files[:limit]], also for a negative [limit]. *)
Definition slice_to {A : Type} (l : list A) (limit : Z) : list A :=
  if 0 <=? limit then firstn (Z.to_nat limit) l
  else firstn (Z.to_nat (Z.of_nat (List.length l) + limit)) l.

(** The files [main] processes: all of them when [limit] is zero. *)
Definition considered {A : Type} (gml_files : list A) (limit : Z) : list A :=
  if limit =? 0 then gml_files else slice_to gml_files limit.

(** The sample loop of [main] over the vertices of one file's triangles. *)
Definition collect_vertex (st : list float * list float) (v : Vertex)
  : result (list float * list float) :=
  let '(lats, lons) := st in
  match v with
  | [lat; lon; _] => Ok (lats ++ [lat], lons ++ [lon])
  | _ => Error ValueError_unpack
  end.

Definition collect_samples (tris : list Triangle) (st : list float * list float)
  : result (list float * list float) :=
  foldM (fun st tri => foldM collect_vertex tri st) tris st.

(** The body of the loop over the input files. *)
Definition collect_file (st : list Triangle * list float * list float)
           (gml_file : string * Element)
  : result (list Triangle * list float * list float) :=
  let '(all_triangles, lats, lons) := st in
  tris <- extract_triangles (snd gml_file) ;;
  match tris with
  | [] => Ok st
  | _ :: _ =>
      '(lats', lons') <- collect_samples tris (lats, lons) ;;
      Ok (all_triangles ++ tris, lats', lons')
  end.

Definition no_triangles_message : string :=
  "No triangles could be extracted from the provided GML files".

(** [sum(xs) / len(xs)], with the [sum] of the interpreter. *)
Definition mean (summation : Summation) (xs : list float) : result float :=
  truediv (py_sum summation xs) (of_Z (Z.of_nat (List.length xs))).

Section Libm.

(** The cosine of the C library, which [math.cos] wraps. *)
Variable libm_cos : float -> float.

(** How the interpreter's [sum] adds floats. *)
Variable summation : Summation.

(** [math.cos]: a NaN from a number, or an infinity from a finite number,
    is a domain error. *)
Definition math_cos (x : float) : result float :=
  let r := libm_cos x in
  if is_nan r && negb (is_nan x) then Error ValueError_math
  else if is_inf r && is_finite x then Error ValueError_math
  else Ok r.

Definition degrees_to_meters_converter (lat_deg : float) : result (float * float) :=
  let lat_rad := radians lat_deg in
  c2 <- math_cos (mul (of_Z 2) lat_rad) ;;
  c4 <- math_cos (mul (of_Z 4) lat_rad) ;;
  let meters_per_degree_lat :=
    add (sub c_111132_92 (mul c_559_82 c2)) (mul c_1_175 c4) in
  c1 <- math_cos lat_rad ;;
  c3 <- math_cos (mul (of_Z 3) lat_rad) ;;
  let meters_per_degree_lon := sub (mul c_111412_84 c1) (mul c_93_5 c3) in
  Ok (meters_per_degree_lat, meters_per_degree_lon).

Definition convert_coordinates (tris : list Triangle) (lat0 lon0 : float)
  : result (list (list float) * Bounds) :=
  '(lat_scale, lon_scale) <- degrees_to_meters_converter lat0 ;;
  convert_with_scales lat_scale lon_scale tris lat0 lon0.

(** [main], after argument parsing: [gml_files] is the sorted listing of
    the source directory, each file with its name and its parsed
    document; [dest] and [limit] are the two other arguments. *)
Definition main (gml_files : list (string * Element)) (dest : string) (limit : Z)
  : IO unit :=
  let gml_files := considered gml_files limit in
  '(all_triangles, lats, lons) <~ lift (foldM collect_file gml_files ([], [], [])) ;;
  _ <~ lift (match all_triangles with
             | [] => Error (SystemExit no_triangles_message)
             | _ :: _ => Ok tt
             end) ;;
  lat0 <~ lift (mean summation lats) ;;
  lon0 <~ lift (mean summation lons) ;;
  '(converted, bnds) <~ lift (convert_coordinates all_triangles lat0 lon0) ;;
  _ <~ emit (Mkdir_parent dest) ;;
  _ <~ emit (Open_write dest) ;;
  s_lat <~ lift (degrees_to_meters_converter lat0) ;;
  s_lon <~ lift (degrees_to_meters_converter lat0) ;;
  emit (Json_dump dest
          (mkMeshDocument lat0 lon0 converted bnds (map fst gml_files)
                          (fst s_lat) (snd s_lon))).

End Libm.

(** ** Definitions used to state the properties *)

(** The chunks of three, by structural recursion; [chunked _ 3] computes
    exactly these. *)
Fixpoint chunks3 {A : Type} (l : list A) : list (list A) :=
  match l with
  | a :: b :: c :: rest => [a; b; c] :: chunks3 rest
  | [] => []
  | short => [short]
  end.

(** The text of the ring's coordinate list, when it has one. *)
Definition posList_text (ring : Element) : option string :=
  match ET.find tag_posList ring with
  | Some pos_list => ET.text pos_list
  | None => None
  end.

(** The tokens ring parsing decodes: none without a coordinate list. *)
Definition ring_tokens (ring : Element) : list string :=
  match posList_text ring with
  | Some txt => str_split txt
  | None => []
  end.

(** Lines 32 to 34 of the source, on the decoded triples. *)
Definition drop_closing (coords : list Vertex) : list Vertex :=
  if (1 <? List.length coords)%nat && tuple_eqb (nth 0 coords []) (last coords [])
  then removelast coords else coords.

(** The spellings of the literals that are not decimal numbers, in lower
    case, each with the float it denotes. *)
Definition special_literals : list (string * float) :=
  [("nan", nan); ("+nan", nan); ("-nan", nan);
   ("inf", pos_inf); ("+inf", pos_inf); ("-inf", neg_inf);
   ("infinity", pos_inf); ("+infinity", pos_inf); ("-infinity", neg_inf)]%string.

(** The token in lower case. *)
Definition lower_case (token : string) : list ascii :=
  map to_lower (list_ascii_of_string token).

(** A token [float] accepts. *)
Definition accepted (token : string) : Prop := PyFloat.of_string token <> None.

(** A ring element whose coordinate list has the given text. *)
Definition ring_of_text (txt : string) : Element :=
  Elem tag_LinearRing None [Elem tag_posList (Some txt) []].

(** The rings the restricted search of [extract_triangles] visits, and
    the rings of the document-wide search, in the order visited. *)
Definition solid_rings (root : Element) : list Element :=
  flat_map (ET.findall_descendants tag_LinearRing)
           (ET.findall_descendants tag_lod1Solid root).
Definition all_rings (root : Element) : list Element :=
  ET.findall_descendants tag_LinearRing root.

(** The rings whose coordinate lists [extract_triangles] decodes: those
    below a target solid, and every ring of the document when the
    restricted search ends without a triangle. *)
Definition visited (root ring : Element) : Prop :=
  In ring (solid_rings root)
  \/ (solid_triangles root = Ok [] /\ In ring (all_rings root)).

(** Ring extraction followed by triangulation over a sequence of rings,
    as the specification words it. *)
Definition rings_to_triangles (rings : list Element) : result (list Triangle) :=
  ringss <- mapM parse_linear_ring rings ;;
  Ok (flat_map polygon_to_triangles ringss).

(** The latitude and longitude of a geographic vertex. *)
Definition vertex_lat (v : Vertex) : float := nth 0 v nan.
Definition vertex_lon (v : Vertex) : float := nth 1 v nan.

(** The total of a list of floats, told again by recursion on the list:
    [acc] is the running total and, for the compensated method, [err] the
    accumulated rounding error. *)
Fixpoint total_from_left (acc : float) (xs : list float) : float :=
  match xs with
  | [] => acc
  | x :: xs' => total_from_left (add acc x) xs'
  end.

Fixpoint total_with_error (acc err : float) (xs : list float) : float :=
  match xs with
  | [] =>
      match err with
      | S754_finite _ _ _ => add acc err
      | _ => acc
      end
  | x :: xs' =>
      let t := add acc x in
      let lost := if leb (abs x) (abs acc)
                  then add (sub acc t) x
                  else add (sub x t) acc in
      total_with_error t (add err lost) xs'
  end.

Definition float_total (summation : Summation) (xs : list float) : float :=
  match summation, xs with
  | Plain, _ => total_from_left pos_zero xs
  | Compensated, [] => pos_zero
  | Compensated, x :: xs' => total_with_error (add pos_zero x) pos_zero xs'
  end.

(** The arithmetic mean in floating point: the total of the values over
    their number. *)
Definition arithmetic_mean (summation : Summation) (xs : list float) : float :=
  div (float_total summation xs) (of_Z (Z.of_nat (List.length xs))).

(** The triangles of each file, in processing order. *)
Definition extract_each (files : list (string * Element))
  : result (list (list Triangle)) :=
  mapM (fun gml_file => extract_triangles (snd gml_file)) files.

(** The files that yield at least one triangle. *)
Definition yields_triangles (gml_file : string * Element) : bool :=
  match extract_triangles (snd gml_file) with
  | Ok (_ :: _) => true
  | _ => false
  end.

(** The documents a trace wrote, in order. *)
Definition dumped (trace : list Effect) : list MeshDocument :=
  flat_map (fun e => match e with Json_dump _ doc => [doc] | _ => [] end) trace.

(** ** Sample inputs *)

(** A cosine for runs whose origin lies on the equator: every argument
    [math.cos] then receives is zero, where the cosine is exactly one. *)
Definition cos_at_zero (x : float) : float :=
  if is_zero x then of_Z 1 else nan.

Definition solid_of (rings : list Element) : Element :=
  Elem tag_lod1Solid None rings.

Definition document_of (children : list Element) : Element :=
  Elem (qname "http://www.opengis.net/citygml/2.0" "CityModel") None children.

(** A closed ring of three vertices on the equator. *)
Definition equator_ring : Element := ring_of_text "0 0 0 0 1 0 0 2 5 0 0 0".

Definition file_without_rings : string * Element :=
  ("a.gml"%string, document_of [solid_of []]).
Definition file_with_triangle : string * Element :=
  ("b.gml"%string, document_of [solid_of [equator_ring]]).
(** The target solid has no ring, a ring lies elsewhere. *)
Definition file_with_stray_ring : string * Element :=
  ("c.gml"%string, document_of [solid_of []; equator_ring]).
Definition file_with_nan_heights : string * Element :=
  ("d.gml"%string,
   document_of [solid_of [ring_of_text "0 0 NaN 0 1 NaN 0 2 NaN"]]).
Definition file_with_bad_token : string * Element :=
  ("e.gml"%string, document_of [solid_of [ring_of_text "0 0 0 0 1 0 0 2 x5"]]).

(** The projected vertices a flattened record holds, and those of the
    whole converted list. *)
Fixpoint triples (flat : list float) : list (float * float * float) :=
  match flat with
  | x :: y :: z :: rest => (x, y, z) :: triples rest
  | _ => []
  end.

Definition projected_points (converted : list (list float))
  : list (float * float * float) :=
  flat_map triples converted.

Definition flatten (pts : list (float * float * float)) : list float :=
  flat_map (fun p => let '(x, y, z) := p in [x; y; z]) pts.

Definition px (p : float * float * float) : float := fst (fst p).
Definition py (p : float * float * float) : float := snd (fst p).
Definition pz (p : float * float * float) : float := snd p.

Definition file_with_one_nan_height : string * Element :=
  ("g.gml"%string, document_of [solid_of [ring_of_text "0 0 NaN 0 1 1 0 2 2"]]).
Definition file_with_infinite_longitude : string * Element :=
  ("h.gml"%string, document_of [solid_of [ring_of_text "0 inf 5 0 inf 6 0 inf 7"]]).
Definition file_with_infinite_latitude : string * Element :=
  ("i.gml"%string, document_of [solid_of [ring_of_text "inf 0 5 inf 1 6 inf 2 7"]]).

(** A square ring as the source format closes it, and its first vertex
    alone. *)
Definition square_ring : Element :=
  ring_of_text "0 0 0 0 0.001 0 0.001 0.001 10 0.001 0 10 0 0 0".
Definition single_vertex_ring : Element := ring_of_text "1 2 3".

(** ** Definitions used to state further properties *)

(** The three numbers [convert_coordinates] appends for a vertex of three
    components. *)
Definition project_vertex (lat0 lon0 lat_scale lon_scale : float) (v : Vertex)
  : list float :=
  let '(x, y, z) :=
    project lat0 lon0 lat_scale lon_scale (nth 0 v nan) (nth 1 v nan) (nth 2 v nan) in
  [x; y; z].



(** The proper descendants of an element, in document order. *)
Definition descendants (e : Element) : list Element :=
  flat_map ET.iter (ET.children e).

(** A coordinate list of spaces only, and rings with a [NaN] latitude. *)
Definition blank_ring : Element := ring_of_text "   ".
Definition nan_corner_ring : Element :=
  ring_of_text "NaN 0 0 0 1 0 0 2 5 NaN 0 0".

(** A document without any ring. *)
Definition ringless_document : Element :=
  document_of [solid_of []; Elem "note" (Some "1 2 3"%string) []].

(** * Properties *)

(** ** Loops in the error monad *)

Lemma bind_Ok_inv {A B : Type} (r : result A) (k : A -> result B) (b : B) :
  bind r k = Ok b -> exists a, r = Ok a /\ k a = Ok b.
Proof.
  destruct r as [a | e]; simpl; intros H; [eauto | discriminate].
Qed.

Lemma foldM_app {A S : Type} (body : S -> A -> result S) (l1 l2 : list A) (s : S) :
  foldM body (l1 ++ l2) s = (s' <- foldM body l1 s ;; foldM body l2 s').
Proof.
  revert s; induction l1 as [| a l1 IH]; intros s; simpl; [reflexivity |].
  destruct (body s a); simpl; auto.
Qed.

Lemma foldM_flat_map {A B S : Type} (body : S -> B -> result S)
      (f : A -> list B) (l : list A) (s : S) :
  foldM (fun acc a => foldM body (f a) acc) l s = foldM body (flat_map f l) s.
Proof.
  revert s; induction l as [| a l IH]; intros s; simpl; [reflexivity |].
  rewrite foldM_app. destruct (foldM body (f a) s); simpl; auto.
Qed.

Lemma mapM_Ok_length {A B : Type} (f : A -> result B) (l : list A) (bs : list B) :
  mapM f l = Ok bs -> List.length bs = List.length l.
Proof.
  revert bs; induction l as [| a l IH]; simpl; intros bs H.
  - inversion H; reflexivity.
  - destruct (f a); simpl in H; [| discriminate].
    destruct (mapM f l); simpl in H; [| discriminate].
    inversion H; subst; simpl; f_equal; auto.
Qed.

Lemma mapM_total {A B : Type} (f : A -> result B) (l : list A) :
  Forall (fun a => exists b, f a = Ok b) l -> exists bs, mapM f l = Ok bs.
Proof.
  induction 1 as [| a l [b Hb] _ [bs Hbs]]; simpl.
  - eauto.
  - rewrite Hb, Hbs; simpl; eauto.
Qed.

Lemma mapM_Error_of_In {A B : Type} (f : A -> result B) (l : list A) (a : A) :
  In a l -> (exists e, f a = Error e) -> exists e, mapM f l = Error e.
Proof.
  induction l as [| x l IH]; simpl; [tauto |].
  intros [-> | Hin] Ha.
  - destruct Ha as [e ->]; simpl; eauto.
  - destruct (f x); simpl; [| eauto].
    destruct (IH Hin Ha) as [e ->]; simpl; eauto.
Qed.

Lemma foldM_Error_of_In {A S : Type} (body : S -> A -> result S) (l : list A) (a : A) :
  In a l -> (forall s, exists e, body s a = Error e) ->
  forall s, exists e, foldM body l s = Error e.
Proof.
  induction l as [| x l IH]; simpl; [tauto |].
  intros [-> | Hin] Ha s.
  - destruct (Ha s) as [e ->]; simpl; eauto.
  - destruct (body s x); simpl; [| eauto]. auto.
Qed.

(** ** Fan triangulation *)

Lemma polygon_to_triangles_short (coords : list Vertex) :
  (List.length coords < 3)%nat -> polygon_to_triangles coords = [].
Proof.
  intros H. unfold polygon_to_triangles.
  destruct (Nat.ltb_spec (List.length coords) 3); [reflexivity | lia].
Qed.

Lemma polygon_to_triangles_length (coords : list Vertex) :
  (3 <= List.length coords)%nat ->
  List.length (polygon_to_triangles coords) = (List.length coords - 2)%nat.
Proof.
  intros H. unfold polygon_to_triangles.
  destruct (Nat.ltb_spec (List.length coords) 3); [lia |].
  rewrite length_map, length_seq. lia.
Qed.

Lemma polygon_to_triangles_nth (coords : list Vertex) (i : nat) :
  (3 <= List.length coords)%nat -> (1 <= i <= List.length coords - 2)%nat ->
  nth_error (polygon_to_triangles coords) (i - 1)
  = Some [nth 0 coords []; nth i coords []; nth (i + 1) coords []].
Proof.
  intros H Hi. unfold polygon_to_triangles.
  destruct (Nat.ltb_spec (List.length coords) 3); [lia |].
  rewrite nth_error_map.
  replace (nth_error (seq 1 (List.length coords - 1 - 1)) (i - 1)) with (Some i).
  - reflexivity.
  - symmetry. rewrite nth_error_nth' with (d := O) by (rewrite length_seq; lia).
    rewrite seq_nth by lia. f_equal; lia.
Qed.

(** C4.  A ring of fewer than three vertices yields no triangle; a ring
    of [N >= 3] vertices yields exactly [N - 2] triangles, the [i]-th of
    them (for [i] from 1 to [N - 2]) being
    [(ring[0], ring[i], ring[i+1])], so that every triangle starts with
    vertex 0. *)
Theorem C4_fan_triangulation (ring : list Vertex) :
  ((List.length ring < 3)%nat -> polygon_to_triangles ring = [])
  /\ ((3 <= List.length ring)%nat ->
      List.length (polygon_to_triangles ring) = (List.length ring - 2)%nat
      /\ forall i, (1 <= i <= List.length ring - 2)%nat ->
           exists v0 vi vi1,
             nth_error ring 0 = Some v0
             /\ nth_error ring i = Some vi
             /\ nth_error ring (i + 1) = Some vi1
             /\ nth_error (polygon_to_triangles ring) (i - 1) = Some [v0; vi; vi1]).
Proof.
  split; [apply polygon_to_triangles_short |].
  intros H; split; [apply polygon_to_triangles_length; assumption |].
  intros i Hi.
  exists (nth 0 ring []), (nth i ring []), (nth (i + 1) ring []).
  repeat split.
  - apply nth_error_nth'; lia.
  - apply nth_error_nth'; lia.
  - apply nth_error_nth'; lia.
  - apply polygon_to_triangles_nth; assumption.
Qed.

(** ** Chunking a flat list into triples *)


Lemma list_ind3 {A : Type} (P : list A -> Prop) :
  P [] -> (forall a, P [a]) -> (forall a b, P [a; b]) ->
  (forall a b c rest, P rest -> P (a :: b :: c :: rest)) ->
  forall l, P l.
Proof.
  intros H0 H1 H2 H3.
  fix IH 1. intros [| a [| b [| c rest]]];
    [apply H0 | apply H1 | apply H2 | apply H3; apply IH].
Qed.

Lemma range_step_3_next (n : nat) :
  range_step (S (S (S n))) 3 = O :: map (fun i => (i + 3)%nat) (range_step n 3).
Proof.
  unfold range_step.
  replace ((S (S (S n)) + 3 - 1) / 3)%nat with (S ((n + 3 - 1) / 3))%nat.
  - generalize ((n + 3 - 1) / 3)%nat. intros m.
    cbn [seq map]. rewrite <- seq_shift, !map_map. f_equal.
    apply map_ext. intros k. lia.
  - replace (S (S (S n)) + 3 - 1)%nat with ((n + 3 - 1) + 1 * 3)%nat by lia.
    rewrite Nat.div_add by lia. lia.
Qed.

Lemma chunked_3 {A : Type} (l : list A) : chunked l 3 = Ok (chunks3 l).
Proof.
  unfold chunked. f_equal.
  induction l as [| a | a b | a b c rest IH] using list_ind3; try reflexivity.
  cbn [List.length]. rewrite range_step_3_next. cbn [map chunks3].
  f_equal. rewrite map_map. rewrite <- IH. apply map_ext.
  intros idx. unfold slice.
  replace (idx + 3 + 3 - (idx + 3))%nat with 3%nat by lia.
  replace (idx + 3 - idx)%nat with 3%nat by lia.
  replace (idx + 3)%nat with (S (S (S idx))) by lia. reflexivity.
Qed.

Lemma concat_chunks3 {A : Type} (l : list A) : List.concat (chunks3 l) = l.
Proof.
  induction l as [| a | a b | a b c rest IH] using list_ind3; try reflexivity.
  cbn [chunks3 List.concat app]. rewrite IH. reflexivity.
Qed.

Lemma chunks3_nil_inv {A : Type} (l : list A) : chunks3 l = [] -> l = [].
Proof. destruct l as [| a [| b [| c rest]]]; simpl; congruence. Qed.

Lemma chunks3_length {A : Type} (l : list A) :
  List.length (chunks3 l) = ((List.length l + 2) / 3)%nat.
Proof.
  induction l as [| a | a b | a b c rest IH] using list_ind3; try reflexivity.
  cbn [chunks3 List.length]. rewrite IH.
  replace (S (S (S (List.length rest))) + 2)%nat
    with ((List.length rest + 2) + 1 * 3)%nat by lia.
  rewrite Nat.div_add by lia. lia.
Qed.

(** Every chunk but the last is a full triple. *)
Lemma chunks3_init_full {A : Type} (l : list A) :
  Forall (fun v => List.length v = 3%nat) (removelast (chunks3 l)).
Proof.
  induction l as [| a | a b | a b c rest IH] using list_ind3;
    try (simpl; constructor).
  cbn [chunks3]. destruct (chunks3 rest) as [| v vs] eqn:E.
  - simpl. constructor.
  - change (removelast ([a; b; c] :: v :: vs))
      with ([a; b; c] :: removelast (v :: vs)).
    constructor; [reflexivity | assumption].
Qed.

(** The last chunk holds the leftover values. *)
Lemma chunks3_last_length {A : Type} (l : list A) :
  l <> [] ->
  List.length (last (chunks3 l) [])
  = (if (List.length l mod 3 =? 0)%nat then 3 else List.length l mod 3)%nat.
Proof.
  induction l as [| a | a b | a b c rest IH] using list_ind3; intros Hne;
    try reflexivity; try congruence.
  cbn [chunks3 List.length].
  replace (S (S (S (List.length rest))))%nat
    with (List.length rest + 1 * 3)%nat by lia.
  rewrite Nat.Div0.mod_add.
  destruct rest as [| r rest'].
  - reflexivity.
  - rewrite <- IH by discriminate.
    destruct (chunks3 (r :: rest')) as [| v vs] eqn:E.
    + apply chunks3_nil_inv in E. discriminate.
    + reflexivity.
Qed.

Lemma chunks3_head_length {A : Type} (l : list A) :
  (1 < List.length (chunks3 l))%nat -> List.length (nth 0 (chunks3 l) []) = 3%nat.
Proof.
  destruct l as [| a [| b [| c rest]]]; simpl; intros H; lia || reflexivity.
Qed.

Lemma chunks3_full_iff {A : Type} (l : list A) :
  Forall (fun v => List.length v = 3%nat) (chunks3 l)
  <-> (List.length l mod 3 = 0)%nat.
Proof.
  induction l as [| a | a b | a b c rest IH] using list_ind3.
  - simpl. split; [reflexivity | constructor].
  - simpl. split; [intros H; inversion H; discriminate | discriminate].
  - simpl. split; [intros H; inversion H; discriminate | discriminate].
  - cbn [chunks3 List.length].
    replace (S (S (S (List.length rest))))%nat
      with (List.length rest + 1 * 3)%nat by lia.
    rewrite Nat.Div0.mod_add. rewrite <- IH. split.
    + intros H; inversion H; assumption.
    + intros H; constructor; [reflexivity | assumption].
Qed.

Lemma tuple_eqb_length (t1 t2 : Vertex) :
  tuple_eqb t1 t2 = true -> List.length t1 = List.length t2.
Proof.
  revert t2; induction t1 as [| x t1 IH]; intros [| y t2]; simpl;
    try discriminate; auto.
  intros H. apply andb_prop in H. f_equal. apply IH. tauto.
Qed.

(** ** Ring parsing *)


Lemma parse_linear_ring_tokens (ring : Element) :
  parse_linear_ring ring
  = (raw_values <- mapM float_of_token (ring_tokens ring) ;;
     Ok (drop_closing (chunks3 raw_values))).
Proof.
  unfold parse_linear_ring, ring_tokens, posList_text.
  destruct (ET.find tag_posList ring) as [pos_list |]; [| reflexivity].
  destruct (ET.text pos_list) as [txt |]; [| reflexivity].
  destruct txt as [| c txt]; [reflexivity |].
  destruct (mapM float_of_token (str_split (String c txt))) as [raw | e];
    [| reflexivity].
  cbn [bind]. rewrite chunked_3. cbn [bind]. unfold drop_closing.
  match goal with
  | |- (if ?b then Ok ?x else Ok ?y) = _ =>
      transitivity (Ok (if b then x else y)); [destruct b |]; reflexivity
  end.
Qed.

Lemma mapM_Error_inv {A B : Type} (f : A -> result B) (l : list A) (e : PyError) :
  mapM f l = Error e -> exists a, In a l /\ f a = Error e.
Proof.
  induction l as [| x l IH]; simpl; [discriminate |].
  destruct (f x) as [b | e'] eqn:Hx; simpl.
  - destruct (mapM f l) as [bs | e'']; simpl; [discriminate |].
    intros H; inversion H; subst. destruct IH as [a [Hin Ha]]; eauto.
  - intros H; inversion H; subst. eauto.
Qed.

Lemma foldM_Error_inv {A S : Type} (body : S -> A -> result S) (l : list A)
      (s : S) (e : PyError) :
  foldM body l s = Error e -> exists a s', In a l /\ body s' a = Error e.
Proof.
  revert s; induction l as [| x l IH]; simpl; intros s; [discriminate |].
  destruct (body s x) as [s1 | e'] eqn:Hx; simpl.
  - intros H. destruct (IH _ H) as [a [s' [Hin Ha]]]. eauto.
  - intros H; inversion H; subst. eauto.
Qed.

Lemma float_of_token_Error_inv (v : string) (e : PyError) :
  float_of_token v = Error e -> e = ValueError_float v /\ PyFloat.of_string v = None.
Proof.
  unfold float_of_token. destruct (PyFloat.of_string v); intros H; inversion H; auto.
Qed.

Lemma parse_linear_ring_Error_inv (ring : Element) (e : PyError) :
  parse_linear_ring ring = Error e ->
  exists bad, e = ValueError_float bad /\ In bad (ring_tokens ring)
              /\ PyFloat.of_string bad = None.
Proof.
  rewrite parse_linear_ring_tokens.
  destruct (mapM float_of_token (ring_tokens ring)) as [raw | e'] eqn:Hm; simpl;
    [discriminate |].
  intros H; inversion H; subst.
  apply mapM_Error_inv in Hm. destruct Hm as [bad [Hin Hbad]].
  apply float_of_token_Error_inv in Hbad. destruct Hbad; eauto.
Qed.

Lemma parse_linear_ring_bad_token (ring : Element) (tok : string) :
  In tok (ring_tokens ring) -> PyFloat.of_string tok = None ->
  exists bad, parse_linear_ring ring = Error (ValueError_float bad)
              /\ PyFloat.of_string bad = None.
Proof.
  intros Hin Hbad.
  destruct (parse_linear_ring ring) as [coords | e] eqn:Hp.
  - exfalso. rewrite parse_linear_ring_tokens in Hp.
    destruct (mapM_Error_of_In float_of_token (ring_tokens ring) tok Hin) as [e He].
    + unfold float_of_token. rewrite Hbad. eauto.
    + rewrite He in Hp. discriminate.
  - destruct (parse_linear_ring_Error_inv _ _ Hp) as [bad [-> [_ Hb]]]. eauto.
Qed.

(** C10.  When every token of a coordinate list is a float literal and
    their number is not a multiple of 3, ring parsing raises nothing: it
    returns a non-empty ring that holds all the decoded values in order,
    whose last element holds the leftover one or two values, every
    earlier element being a full triple.  The
    per-vertex loops unpack exactly three components and raise on such an
    element; all elements of a parsed ring have three components exactly
    when the number of tokens is divisible by 3. *)
Theorem C10_partial_trailing_tuple (ring : Element) :
  Forall (fun t => PyFloat.of_string t <> None) (ring_tokens ring) ->
  exists coords,
    parse_linear_ring ring = Ok coords
    /\ (Forall (fun v => List.length v = 3%nat) coords
        <-> (List.length (ring_tokens ring) mod 3 = 0)%nat)
    /\ ((List.length (ring_tokens ring) mod 3 <> 0)%nat ->
        coords <> []
        /\ mapM float_of_token (ring_tokens ring) = Ok (List.concat coords)
        /\ List.length (last coords []) = (List.length (ring_tokens ring) mod 3)%nat
        /\ (List.length (last coords []) < 3)%nat
        /\ Forall (fun v => List.length v = 3%nat) (removelast coords)
        /\ (forall st, collect_vertex st (last coords []) = Error ValueError_unpack)
        /\ (forall lat0 lon0 lat_scale lon_scale st,
              convert_vertex lat0 lon0 lat_scale lon_scale st (last coords [])
              = Error ValueError_unpack)).
Proof.
  intros Hall.
  destruct (mapM_total float_of_token (ring_tokens ring)) as [raw Hraw].
  { eapply Forall_impl; [| exact Hall]. intros t Ht. cbv beta in Ht.
    unfold float_of_token. destruct (PyFloat.of_string t); [eauto | congruence]. }
  pose proof (mapM_Ok_length _ _ _ Hraw) as Hlen.
  rewrite parse_linear_ring_tokens, Hraw. cbn [bind]. rewrite <- Hlen.
  destruct (Nat.eq_dec (List.length raw mod 3) 0) as [Hz | Hnz].
  - (* a multiple of three: every chunk is full, closing vertex or not *)
    assert (Hfull : Forall (fun v => List.length v = 3%nat) (chunks3 raw))
      by (apply chunks3_full_iff; assumption).
    exists (drop_closing (chunks3 raw)). split; [reflexivity |]. split; [| tauto].
    split; [intros _; assumption |]. intros _. unfold drop_closing.
    destruct (_ && _); [| assumption].
    apply Forall_forall. intros v Hv. rewrite Forall_forall in Hfull.
    apply Hfull. clear - Hv. induction (chunks3 raw) as [| c l IH]; [destruct Hv |].
    destruct l; [destruct Hv |]. destruct Hv as [-> | Hv]; [left | right]; auto.
  - assert (Hne : raw <> []) by (intros ->; apply Hnz; reflexivity).
    assert (Hlast : List.length (last (chunks3 raw) []) = (List.length raw mod 3)%nat).
    { rewrite chunks3_last_length by assumption.
      destruct (Nat.eqb_spec (List.length raw mod 3) 0); [contradiction | reflexivity]. }
    assert (Hlt : (List.length raw mod 3 < 3)%nat) by (apply Nat.mod_upper_bound; lia).
    assert (Hkeep : drop_closing (chunks3 raw) = chunks3 raw).
    { unfold drop_closing.
      destruct (Nat.ltb_spec 1 (List.length (chunks3 raw))) as [H1 | H1];
        [| reflexivity].
      destruct (tuple_eqb _ _) eqn:Heq; [| reflexivity].
      apply tuple_eqb_length in Heq.
      rewrite chunks3_head_length in Heq by assumption. lia. }
    exists (chunks3 raw). rewrite Hkeep. split; [reflexivity |].
    split; [rewrite chunks3_full_iff; tauto |]. intros _.
    split; [intros E; apply chunks3_nil_inv in E; contradiction |].
    split; [rewrite concat_chunks3; reflexivity |].
    split; [assumption |]. split; [lia |].
    split; [apply chunks3_init_full |].
    assert (Hshape : forall v : Vertex, (List.length v < 3)%nat ->
              match v with [_; _; _] => False | _ => True end).
    { intros [| a [| b [| c [| d v]]]]; simpl; intros; auto; lia. }
    specialize (Hshape (last (chunks3 raw) [])). rewrite Hlast in Hshape.
    specialize (Hshape Hlt).
    split.
    + intros [lats lons]. unfold collect_vertex.
      destruct (last (chunks3 raw) []) as [| a [| b [| c [| d v]]]];
        try reflexivity; contradiction.
    + intros lat0 lon0 ls lo [flat b]. unfold convert_vertex.
      destruct (last (chunks3 raw) []) as [| a [| b' [| c [| d v]]]];
        try reflexivity; contradiction.
Qed.

(** ** The closing vertex *)

Lemma chunks3_removelast {A : Type} (l : list A) :
  (List.length l mod 3 = 0)%nat ->
  removelast (chunks3 l) = chunks3 (firstn (List.length l - 3) l).
Proof.
  induction l as [| a | a b | a b c rest IH] using list_ind3;
    try reflexivity; try (simpl; discriminate).
  cbn [List.length]. replace (S (S (S (List.length rest))))%nat
    with (List.length rest + 1 * 3)%nat by lia.
  rewrite Nat.Div0.mod_add. intros Hmod.
  replace (List.length rest + 1 * 3 - 3)%nat with (List.length rest) by lia.
  destruct rest as [| r0 [| r1 [| r2 rest']]]; try reflexivity;
    try (simpl in Hmod; discriminate).
  specialize (IH Hmod).
  cbn [List.length] in *.
  replace (S (S (S (List.length rest'))) - 3)%nat with (List.length rest') in IH by lia.
  change (firstn (S (S (S (List.length rest')))) (a :: b :: c :: r0 :: r1 :: r2 :: rest'))
    with (a :: b :: c :: firstn (List.length rest') (r0 :: r1 :: r2 :: rest')).
  cbn [chunks3]. rewrite <- IH. cbn [chunks3].
  reflexivity.
Qed.

Lemma drop_closing_closed (raw : list float) :
  (1 < List.length (chunks3 raw))%nat ->
  tuple_eqb (nth 0 (chunks3 raw) []) (last (chunks3 raw) []) = true ->
  drop_closing (chunks3 raw) = removelast (chunks3 raw)
  /\ (List.length raw mod 3 = 0)%nat.
Proof.
  intros Hlen Heq. split.
  - unfold drop_closing. rewrite Heq.
    destruct (Nat.ltb_spec 1 (List.length (chunks3 raw))); [reflexivity | lia].
  - apply tuple_eqb_length in Heq. rewrite chunks3_head_length in Heq by assumption.
    assert (Hne : raw <> []) by (intros ->; simpl in Hlen; lia).
    rewrite chunks3_last_length in Heq by assumption.
    destruct (Nat.eqb_spec (List.length raw mod 3) 0) as [E | E]; [assumption |].
    pose proof (Nat.mod_upper_bound (List.length raw) 3). lia.
Qed.

(** C3, as the code has it.  When the decoded ring has at least two
    triples and its first and last triples are equal component by
    component, the extractor returns the ring without its last triple,
    which is the decoding of the value list without its last three
    values; exactly one triple is dropped.  A ring of a single triple is
    returned as it is, and so is a ring whose first and last triples
    differ. *)
Theorem C3_closing_vertex_dropped (ring : Element) (raw : list float)
        (coords : list Vertex) :
  mapM float_of_token (ring_tokens ring) = Ok raw ->
  chunked raw 3 = Ok coords ->
  ((1 < List.length coords)%nat ->
   tuple_eqb (nth 0 coords []) (last coords []) = true ->
   parse_linear_ring ring = Ok (removelast coords)
   /\ chunked (firstn (List.length raw - 3) raw) 3 = Ok (removelast coords)
   /\ List.length (removelast coords) = (List.length coords - 1)%nat)
  /\ (List.length coords = 1%nat -> parse_linear_ring ring = Ok coords)
  /\ (tuple_eqb (nth 0 coords []) (last coords []) = false ->
      parse_linear_ring ring = Ok coords).
Proof.
  intros Hraw Hchunk. rewrite chunked_3 in Hchunk. inversion Hchunk; subst coords.
  rewrite parse_linear_ring_tokens, Hraw. cbn [bind].
  split; [| split].
  - intros Hlen Heq. destruct (drop_closing_closed raw Hlen Heq) as [Hd Hmod].
    rewrite Hd. split; [reflexivity |]. split.
    + rewrite chunked_3. f_equal. symmetry. apply chunks3_removelast. assumption.
    + rewrite removelast_firstn_len, length_firstn. lia.
  - intros Hlen. unfold drop_closing. rewrite Hlen. reflexivity.
  - intros Hneq. unfold drop_closing. rewrite Hneq, andb_false_r. reflexivity.
Qed.

(** ** Solid extraction *)

Lemma foldM_extend_with_ring (rings : list Element) (acc : list Triangle) :
  foldM extend_with_ring rings acc
  = (ts <- rings_to_triangles rings ;; Ok (acc ++ ts)).
Proof.
  unfold rings_to_triangles.
  revert acc; induction rings as [| r rings IH]; intros acc; simpl.
  - rewrite app_nil_r. reflexivity.
  - unfold extend_with_ring at 1.
    destruct (parse_linear_ring r) as [coords | e]; simpl; [| reflexivity].
    rewrite IH. destruct (mapM parse_linear_ring rings) as [ringss | e]; simpl;
      [| reflexivity].
    rewrite app_assoc. reflexivity.
Qed.

Lemma solid_triangles_eq (root : Element) :
  solid_triangles root = rings_to_triangles (solid_rings root).
Proof.
  unfold solid_triangles, solid_rings.
  rewrite (foldM_flat_map extend_with_ring
             (ET.findall_descendants tag_LinearRing)).
  rewrite foldM_extend_with_ring.
  destruct (rings_to_triangles _); reflexivity.
Qed.

Lemma extract_triangles_eq (root : Element) :
  extract_triangles root
  = (ts <- rings_to_triangles (solid_rings root) ;;
     match ts with
     | [] => rings_to_triangles (all_rings root)
     | _ :: _ => Ok ts
     end).
Proof.
  unfold extract_triangles. rewrite solid_triangles_eq.
  destruct (rings_to_triangles (solid_rings root)) as [[| t ts] | e]; simpl;
    try reflexivity.
  unfold any_ring_triangles. rewrite foldM_extend_with_ring.
  fold (all_rings root). destruct (rings_to_triangles (all_rings root)); reflexivity.
Qed.

(** C9.  The restricted search is ring extraction and triangulation over
    the rings below the target solids, the fallback the same over every
    linear ring of the document.  When the restricted search yields no
    triangle for the whole document, the extractor returns what the
    fallback yields; when it yields at least one triangle, those
    triangles are returned and the fallback is not taken. *)
Theorem C9_fallback_search (root : Element) :
  solid_triangles root = rings_to_triangles (solid_rings root)
  /\ any_ring_triangles root [] = rings_to_triangles (all_rings root)
  /\ (solid_triangles root = Ok [] ->
      extract_triangles root = any_ring_triangles root [])
  /\ (forall t ts,
        solid_triangles root = Ok (t :: ts) ->
        extract_triangles root = Ok (t :: ts)).
Proof.
  split; [apply solid_triangles_eq |]. split.
  - unfold any_ring_triangles, all_rings. rewrite foldM_extend_with_ring.
    destruct (rings_to_triangles _); reflexivity.
  - split.
    + intros H. unfold extract_triangles. rewrite H. reflexivity.
    + intros t ts H. unfold extract_triangles. rewrite H. reflexivity.
Qed.

Lemma rings_to_triangles_Error_inv (rings : list Element) (e : PyError) :
  rings_to_triangles rings = Error e ->
  exists ring, In ring rings /\ parse_linear_ring ring = Error e.
Proof.
  unfold rings_to_triangles.
  destruct (mapM parse_linear_ring rings) as [r | e'] eqn:Hm; simpl; [discriminate |].
  intros H; inversion H; subst. apply mapM_Error_inv. assumption.
Qed.

Lemma extract_triangles_Error_inv (root : Element) (e : PyError) :
  extract_triangles root = Error e ->
  exists bad, e = ValueError_float bad /\ PyFloat.of_string bad = None.
Proof.
  rewrite extract_triangles_eq.
  destruct (rings_to_triangles (solid_rings root)) as [[| t ts] | e'] eqn:Hs; simpl;
    try discriminate; intros H.
  - apply rings_to_triangles_Error_inv in H. destruct H as [ring [_ H]].
    apply parse_linear_ring_Error_inv in H. destruct H as [bad [? [_ ?]]]; eauto.
  - inversion H; subst. apply rings_to_triangles_Error_inv in Hs.
    destruct Hs as [ring [_ Hr]].
    apply parse_linear_ring_Error_inv in Hr. destruct Hr as [bad [? [_ ?]]]; eauto.
Qed.

Lemma extract_triangles_bad_ring (root ring : Element) (tok : string) :
  visited root ring ->
  In tok (ring_tokens ring) -> PyFloat.of_string tok = None ->
  exists e, extract_triangles root = Error e.
Proof.
  intros Hvis Htok Hbad.
  destruct (parse_linear_ring_bad_token ring tok Htok Hbad) as [bad [Hp _]].
  rewrite extract_triangles_eq. unfold rings_to_triangles.
  destruct Hvis as [Hin | [Hempty Hin]].
  - destruct (mapM_Error_of_In parse_linear_ring (solid_rings root) ring Hin)
      as [e He]; [eauto |].
    exists e. rewrite He. reflexivity.
  - rewrite solid_triangles_eq in Hempty. unfold rings_to_triangles in Hempty.
    rewrite Hempty. cbn [bind].
    destruct (mapM_Error_of_In parse_linear_ring (all_rings root) ring Hin)
      as [e He]; [eauto |].
    exists e. rewrite He. reflexivity.
Qed.

(** ** The sample loop *)

Lemma collect_vertex_Ok (v : Vertex) (lats lons lats' lons' : list float) :
  collect_vertex (lats, lons) v = Ok (lats', lons') ->
  lats' = lats ++ [vertex_lat v] /\ lons' = lons ++ [vertex_lon v].
Proof.
  unfold collect_vertex. destruct v as [| a [| b [| c [| d v]]]]; try discriminate.
  intros H; inversion H; subst. split; reflexivity.
Qed.

Lemma collect_vertices_Ok (tri : Triangle) (lats lons lats' lons' : list float) :
  foldM collect_vertex tri (lats, lons) = Ok (lats', lons') ->
  lats' = lats ++ map vertex_lat tri /\ lons' = lons ++ map vertex_lon tri.
Proof.
  revert lats lons; induction tri as [| v tri IH]; intros lats lons; cbn [foldM map].
  - intros H; inversion H; subst. rewrite !app_nil_r. split; reflexivity.
  - destruct (collect_vertex (lats, lons) v) as [[l1 l2] | e] eqn:Hv; cbn [bind];
      [| discriminate].
    apply collect_vertex_Ok in Hv. destruct Hv as [-> ->].
    intros H. apply IH in H. destruct H as [-> ->].
    rewrite <- !app_assoc. split; reflexivity.
Qed.

Lemma collect_samples_Ok (tris : list Triangle) (lats lons lats' lons' : list float) :
  collect_samples tris (lats, lons) = Ok (lats', lons') ->
  lats' = lats ++ map vertex_lat (List.concat tris)
  /\ lons' = lons ++ map vertex_lon (List.concat tris).
Proof.
  unfold collect_samples.
  revert lats lons; induction tris as [| tri tris IH]; intros lats lons;
    cbn [foldM List.concat].
  - intros H; inversion H; subst. rewrite !app_nil_r. split; reflexivity.
  - destruct (foldM collect_vertex tri (lats, lons)) as [[l1 l2] | e] eqn:Hv;
      cbn [bind]; [| discriminate].
    apply collect_vertices_Ok in Hv. destruct Hv as [-> ->].
    intros H. apply IH in H. destruct H as [-> ->].
    rewrite !map_app, <- !app_assoc. split; reflexivity.
Qed.

Lemma collect_samples_Error_inv (tris : list Triangle) (st : list float * list float)
      (e : PyError) :
  collect_samples tris st = Error e -> e = ValueError_unpack.
Proof.
  unfold collect_samples. intros H.
  apply foldM_Error_inv in H. destruct H as [tri [st1 [_ H]]].
  apply foldM_Error_inv in H. destruct H as [v [[lats lons] [_ H]]].
  unfold collect_vertex in H.
  destruct v as [| a [| b [| c [| d v]]]]; inversion H; reflexivity.
Qed.

Lemma collect_files_Ok (files : list (string * Element)) :
  forall all lats lons all' lats' lons',
    foldM collect_file files (all, lats, lons) = Ok (all', lats', lons') ->
    exists per_file,
      extract_each files = Ok per_file
      /\ all' = all ++ List.concat per_file
      /\ lats' = lats ++ map vertex_lat (List.concat (List.concat per_file))
      /\ lons' = lons ++ map vertex_lon (List.concat (List.concat per_file)).
Proof.
  unfold extract_each.
  induction files as [| f files IH]; intros all lats lons all' lats' lons';
    cbn [foldM mapM].
  - intros H; inversion H; subst. exists []. rewrite !app_nil_r. auto.
  - unfold collect_file at 1.
    destruct (extract_triangles (snd f)) as [[| t ts] | e] eqn:Hx; cbn [bind];
      try discriminate.
    + intros H. apply IH in H. destruct H as [per_file [-> [-> [-> ->]]]].
      exists ([] :: per_file). cbn [bind List.concat app]. auto.
    + destruct (collect_samples (t :: ts) (lats, lons)) as [[l1 l2] | e] eqn:Hs;
        cbn [bind]; [| discriminate].
      apply collect_samples_Ok in Hs. destruct Hs as [-> ->].
      intros H. apply IH in H. destruct H as [per_file [-> [-> [-> ->]]]].
      exists ((t :: ts) :: per_file). cbn [bind].
      change (List.concat ((t :: ts) :: per_file))
        with ((t :: ts) ++ List.concat per_file).
      rewrite !concat_app, !map_app, <- !app_assoc. auto.
Qed.

Lemma collect_files_Error_inv (files : list (string * Element))
      (st : list Triangle * list float * list float) (e : PyError) :
  foldM collect_file files st = Error e -> is_ValueError e = true.
Proof.
  intros H. apply foldM_Error_inv in H.
  destruct H as [f [[[all lats] lons] [_ H]]]. unfold collect_file in H.
  destruct (extract_triangles (snd f)) as [[| t ts] | e'] eqn:Hx; simpl in H;
    try discriminate.
  - destruct (collect_samples (t :: ts) (lats, lons)) as [[l1 l2] | e''] eqn:Hs;
      simpl in H; [discriminate |].
    inversion H; subst. apply collect_samples_Error_inv in Hs. subst. reflexivity.
  - inversion H; subst. apply extract_triangles_Error_inv in Hx.
    destruct Hx as [bad [-> _]]. reflexivity.
Qed.

Lemma collect_files_empty (files : list (string * Element))
      (st : list Triangle * list float * list float) :
  (forall f, In f files -> extract_triangles (snd f) = Ok []) ->
  foldM collect_file files st = Ok st.
Proof.
  induction files as [| f files IH]; intros H; simpl; [reflexivity |].
  unfold collect_file at 1. destruct st as [[all lats] lons].
  rewrite (H f) by (left; reflexivity). simpl.
  apply IH. intros g Hg. apply H. right; assumption.
Qed.

(** ** The orchestration *)

Section Main.

Variable libm_cos : float -> float.
Variable summation : Summation.
Variables (gml_files : list (string * Element)) (dest : string) (limit : Z).

Lemma main_collect_Error (e : PyError) :
  foldM collect_file (considered gml_files limit) ([], [], []) = Error e ->
  run (main libm_cos summation gml_files dest limit) = (Raised e, []).
Proof.
  intros H. unfold run, main, bindIO, lift. rewrite H. reflexivity.
Qed.

Lemma main_collect_nothing (lats lons : list float) :
  foldM collect_file (considered gml_files limit) ([], [], []) = Ok ([], lats, lons) ->
  run (main libm_cos summation gml_files dest limit)
  = (Raised (SystemExit no_triangles_message), []).
Proof.
  intros H. unfold run, main, bindIO, lift. rewrite H. reflexivity.
Qed.

Lemma main_dump_inv (d : string) (doc : MeshDocument) :
  In (Json_dump d doc) (snd (run (main libm_cos summation gml_files dest limit))) ->
  exists all lats lons converted bnds scales,
    foldM collect_file (considered gml_files limit) ([], [], []) = Ok (all, lats, lons)
    /\ all <> []
    /\ mean summation lats = Ok (origin_lat doc)
    /\ mean summation lons = Ok (origin_lon doc)
    /\ convert_coordinates libm_cos all (origin_lat doc) (origin_lon doc)
       = Ok (converted, bnds)
    /\ degrees_to_meters_converter libm_cos (origin_lat doc) = Ok scales
    /\ d = dest
    /\ doc = mkMeshDocument (origin_lat doc) (origin_lon doc) converted bnds
                            (map fst (considered gml_files limit))
                            (fst scales) (snd scales)
    /\ run (main libm_cos summation gml_files dest limit)
       = (Returned, [Mkdir_parent dest; Open_write dest; Json_dump dest doc]).
Proof.
  unfold run, main, bindIO, lift, emit.
  destruct (foldM collect_file (considered gml_files limit) ([], [], []))
    as [[[all lats] lons] | e]; [| simpl; tauto].
  destruct all as [| t all]; [simpl; tauto |].
  destruct (mean summation lats) as [lat0 | e] eqn:Hlat; [| simpl; tauto].
  destruct (mean summation lons) as [lon0 | e] eqn:Hlon; [| simpl; tauto].
  destruct (convert_coordinates libm_cos (t :: all) lat0 lon0)
    as [[converted bnds] | e] eqn:Hc; [| simpl; tauto].
  destruct (degrees_to_meters_converter libm_cos lat0) as [scales | e] eqn:Hd.
  - cbn [snd app In]. intros [H | [H | [H | []]]]; try discriminate.
    inversion H; subst. cbn [origin_lat origin_lon].
    exists (t :: all), lats, lons, converted, bnds, scales.
    repeat split; try assumption; try reflexivity; discriminate.
  - cbn [snd app In]. intros [H | [H | []]]; discriminate.
Qed.

End Main.

(** ** Failures and what reaches the output *)

(** The token [NaN] is a float literal for the builtin: a ring whose
    heights are all [NaN] parses, and the run that reads it writes its
    document. *)
Lemma C1_nan_token_is_accepted :
  In "NaN"%string (ring_tokens (ring_of_text "0 0 NaN 0 1 NaN 0 2 NaN"))
  /\ parse_linear_ring (ring_of_text "0 0 NaN 0 1 NaN 0 2 NaN")
     = Ok [[pos_zero; pos_zero; nan];
           [pos_zero; of_Z 1; nan];
           [pos_zero; of_Z 2; nan]]
  /\ fst (run (main cos_at_zero Plain [file_with_nan_heights] "mesh.json" 12)) = Returned
  /\ List.length
       (dumped (snd (run (main cos_at_zero Plain [file_with_nan_heights] "mesh.json" 12))))
     = 1%nat.
Proof.
  split; [vm_compute; tauto |]. repeat split; vm_compute; reflexivity.
Qed.

Lemma to_lower_inv (c d : ascii) :
  to_lower c = d ->
  c = d
  \/ (c = ascii_of_nat (code d - 32)
      /\ ((97 <=? code d)%nat && (code d <=? 122)%nat) = true).
Proof.
  unfold to_lower.
  destruct ((65 <=? code c)%nat && (code c <=? 90)%nat) eqn:Hup; [| auto].
  apply andb_prop in Hup. destruct Hup as [H1 H2].
  apply Nat.leb_le in H1. apply Nat.leb_le in H2.
  intros <-. right. unfold code in *.
  rewrite nat_ascii_embedding by lia.
  replace (nat_of_ascii c + 32 - 32)%nat with (nat_of_ascii c) by lia.
  rewrite ascii_nat_embedding. split; [reflexivity |].
  apply andb_true_intro. split; apply Nat.leb_le; lia.
Qed.

Ltac spelled_out H :=
  repeat match type of H with
         | map to_lower ?l = _ :: _ =>
             let c := fresh "c" in
             let Hc := fresh "Hc" in
             destruct l as [| c l]; [discriminate H |];
             cbn [map] in H; injection H as Hc H;
             apply to_lower_inv in Hc;
             destruct Hc as [-> | [-> Hc]];
             [| first [discriminate Hc | clear Hc]]
         | map to_lower ?l = [] =>
             destruct l; [clear H | discriminate H]
         end.

Lemma special_literals_accepted (token spelling : string) (value : float) :
  In (spelling, value) special_literals ->
  lower_case token = list_ascii_of_string spelling ->
  PyFloat.of_string token = Some value.
Proof.
  unfold lower_case, PyFloat.of_string.
  generalize (list_ascii_of_string token). intros l Hin Hl.
  cbn [special_literals In] in Hin.
  repeat (destruct Hin as [Hin | Hin];
          [injection Hin as <- <-; cbn [list_ascii_of_string] in Hl;
           spelled_out Hl; vm_compute; reflexivity |]).
  destruct Hin.
Qed.

Lemma mapM_float_first_error (tokens : list string) (e : PyError) :
  mapM float_of_token tokens = Error e ->
  exists pre bad post,
    tokens = pre ++ bad :: post
    /\ Forall accepted pre
    /\ PyFloat.of_string bad = None
    /\ e = ValueError_float bad.
Proof.
  induction tokens as [| t tokens IH]; cbn [mapM]; [discriminate |].
  unfold float_of_token at 1. destruct (PyFloat.of_string t) as [x |] eqn:Ht;
    cbn [bind].
  - destruct (mapM float_of_token tokens) as [xs | e'] eqn:Hm; cbn [bind];
      [discriminate |].
    intros H; inversion H; subst.
    destruct (IH eq_refl) as (pre & bad & post & -> & Hpre & Hbad & ->).
    exists (t :: pre), bad, post. repeat split; auto.
    constructor; [unfold accepted; congruence | exact Hpre].
  - intros H; inversion H; subst. exists [], t, tokens. repeat split; auto.
Qed.

Lemma parse_linear_ring_first_bad_token (ring : Element) (tok : string) :
  In tok (ring_tokens ring) -> PyFloat.of_string tok = None ->
  exists pre bad post,
    ring_tokens ring = pre ++ bad :: post
    /\ Forall accepted pre
    /\ PyFloat.of_string bad = None
    /\ parse_linear_ring ring = Error (ValueError_float bad).
Proof.
  intros Hin Hbad. rewrite parse_linear_ring_tokens.
  destruct (mapM_Error_of_In float_of_token (ring_tokens ring) tok Hin) as [e He].
  { unfold float_of_token. rewrite Hbad. eauto. }
  destruct (mapM_float_first_error _ _ He) as (pre & bad & post & Ht & Hpre & Hb & ->).
  exists pre, bad, post. rewrite He. auto.
Qed.

(** C1, as the code has it.  The tokens that spell [nan], [inf] or
    [infinity] in any letter case, with or without a sign, are float
    literals: they decode to a [NaN] or to an infinity.  A ring whose
    coordinate list contains a token the builtin [float] rejects makes
    ring parsing fail with the [ValueError] of the first such token of the
    list.  When extraction visits the ring in a processed file, the run
    raises a [ValueError] and nothing has been written. *)
Theorem C1_rejected_token_aborts (libm_cos : float -> float) (summation : Summation)
        (gml_files : list (string * Element)) (dest : string) (limit : Z) :
  (forall token spelling value,
      In (spelling, value) special_literals ->
      lower_case token = list_ascii_of_string spelling ->
      float_of_token token = Ok value)
  /\ (forall ring tok,
        In tok (ring_tokens ring) ->
        PyFloat.of_string tok = None ->
        (exists pre bad post,
            ring_tokens ring = pre ++ bad :: post
            /\ Forall accepted pre
            /\ PyFloat.of_string bad = None
            /\ parse_linear_ring ring = Error (ValueError_float bad))
        /\ (forall name root,
              In (name, root) (considered gml_files limit) ->
              visited root ring ->
              exists e,
                is_ValueError e = true
                /\ run (main libm_cos summation gml_files dest limit)
                   = (Raised e, []))).
Proof.
  split.
  - intros token spelling value Hin Hl. unfold float_of_token.
    rewrite (special_literals_accepted token spelling value Hin Hl). reflexivity.
  - intros ring tok Htok Hbad. split.
    + apply parse_linear_ring_first_bad_token with (tok := tok); assumption.
    + intros name root Hfile Hvis.
      destruct (extract_triangles_bad_ring root ring tok Hvis Htok Hbad) as [e0 He0].
      destruct (foldM_Error_of_In collect_file (considered gml_files limit)
                  (name, root) Hfile) with (s := ([] : list Triangle,
                                                 [] : list float,
                                                 [] : list float)) as [e He].
      * intros [[all lats] lons]. exists e0. unfold collect_file.
        cbn [snd]. rewrite He0. reflexivity.
      * exists e. split.
        -- eapply collect_files_Error_inv; eassumption.
        -- apply main_collect_Error. assumption.
Qed.

Lemma C1_rejected_token_aborts_witness :
  float_of_token "-InFiNiTy" = Ok neg_inf
  /\ (exists pre bad post,
        ring_tokens (ring_of_text "0 0 NaN 0 1 y 0 2 x5") = pre ++ bad :: post
        /\ Forall accepted pre
        /\ PyFloat.of_string bad = None
        /\ parse_linear_ring (ring_of_text "0 0 NaN 0 1 y 0 2 x5")
           = Error (ValueError_float bad))
  /\ (exists e, is_ValueError e = true
                /\ run (main cos_at_zero Plain
                             [file_with_triangle;
                              ("e.gml"%string,
                               document_of
                                 [solid_of [ring_of_text "0 0 NaN 0 1 y 0 2 x5"]])]
                             "mesh.json" 12)
                   = (Raised e, [])).
Proof.
  pose proof (C1_rejected_token_aborts cos_at_zero Plain
                [file_with_triangle;
                 ("e.gml"%string,
                  document_of [solid_of [ring_of_text "0 0 NaN 0 1 y 0 2 x5"]])]
                "mesh.json" 12) as [Hlit Hbad].
  split.
  - apply (Hlit "-InFiNiTy"%string "-infinity"%string neg_inf).
    + vm_compute. tauto.
    + vm_compute. reflexivity.
  - destruct (Hbad (ring_of_text "0 0 NaN 0 1 y 0 2 x5") "x5"%string) as [H1 H2].
    + vm_compute. tauto.
    + vm_compute. reflexivity.
    + split; [exact H1 |].
      apply (H2 "e.gml"%string
                (document_of [solid_of [ring_of_text "0 0 NaN 0 1 y 0 2 x5"]])).
      * vm_compute. right; left; reflexivity.
      * left. vm_compute. left; reflexivity.
Defined.

(** C5.  When every processed file yields no triangle, the run raises
    [SystemExit] with its explicit message, and no step that changes the
    file system has been reached. *)
Theorem C5_empty_input_is_fatal (libm_cos : float -> float) (summation : Summation)
        (gml_files : list (string * Element)) (dest : string) (limit : Z) :
  (forall f, In f (considered gml_files limit) ->
             extract_triangles (snd f) = Ok []) ->
  run (main libm_cos summation gml_files dest limit)
  = (Raised (SystemExit no_triangles_message), []).
Proof.
  intros H. apply main_collect_nothing with (lats := []) (lons := []).
  apply collect_files_empty. assumption.
Qed.

Lemma C5_empty_input_is_fatal_witness :
  run (main cos_at_zero Plain
            [file_without_rings; ("f.gml"%string, document_of [ring_of_text "1 2 3 4 5 6"])]
            "mesh.json" 0)
  = (Raised (SystemExit no_triangles_message), []).
Proof.
  apply C5_empty_input_is_fatal.
  intros f Hf. vm_compute in Hf.
  destruct Hf as [<- | [<- | []]]; vm_compute; reflexivity.
Defined.

(** The file list of the metadata names a file that yields no triangle. *)
Lemma C2_empty_file_is_listed :
  map source_files
      (dumped (snd (run (main cos_at_zero Plain [file_without_rings; file_with_triangle]
                              "mesh.json" 12))))
  = [["a.gml"; "b.gml"]]%string
  /\ extract_triangles (snd file_without_rings) = Ok []
  /\ map fst (filter yields_triangles [file_without_rings; file_with_triangle])
     = ["b.gml"]%string.
Proof.
  repeat split; vm_compute; reflexivity.
Qed.

(** C2, as the code has it.  In every run that produces output, the
    [source_files] list holds the names of all the files the run
    processed (the listing, cut at the limit), in processing order,
    whether or not a file yielded triangles. *)
Theorem C2_source_files_are_the_processed_files (libm_cos : float -> float) (summation : Summation)
        (gml_files : list (string * Element)) (dest : string) (limit : Z)
        (d : string) (doc : MeshDocument) :
  In (Json_dump d doc) (snd (run (main libm_cos summation gml_files dest limit))) ->
  source_files doc = map fst (considered gml_files limit).
Proof.
  intros H. apply main_dump_inv in H.
  destruct H as (all & lats & lons & converted & bnds & scales & H).
  destruct H as (_ & _ & _ & _ & _ & _ & _ & Hdoc & _).
  rewrite Hdoc. reflexivity.
Qed.

Lemma C2_source_files_witness :
  exists doc,
    In (Json_dump "mesh.json" doc)
       (snd (run (main cos_at_zero Plain
                       [file_without_rings; file_with_triangle; file_with_stray_ring]
                       "mesh.json" 2)))
    /\ source_files doc = ["a.gml"; "b.gml"]%string.
Proof.
  eexists. split.
  - vm_compute. right; right; left. reflexivity.
  - apply (C2_source_files_are_the_processed_files cos_at_zero Plain
             [file_without_rings; file_with_triangle; file_with_stray_ring]
             "mesh.json" 2 "mesh.json").
    vm_compute. right; right; left. reflexivity.
Defined.


(** ** The order of floats *)

Lemma compare_defined (x y : float) :
  is_nan x = false -> is_nan y = false -> exists c, SFcompare x y = Some c.
Proof.
  destruct x, y; simpl; intros; try discriminate; eauto.
Qed.

Lemma compare_antisym (x y : float) :
  SFcompare y x = option_map CompOpp (SFcompare x y).
Proof.
  destruct x as [sx | sx | | sx mx ex], y as [sy | sy | | sy my ey]; simpl;
    try reflexivity;
    try (destruct sx; reflexivity); try (destruct sy; reflexivity);
    try (destruct sx, sy; reflexivity).
  f_equal. destruct sx, sy; try reflexivity;
    rewrite (Z.compare_antisym ex ey);
    destruct (ex ?= ey); simpl; try reflexivity;
    rewrite (Pos.compare_cont_antisym mx my Eq); simpl;
    try rewrite CompOpp_involutive; reflexivity.
Qed.

Lemma leb_refl (x : float) : is_nan x = false -> leb x x = true.
Proof.
  unfold leb, SFleb. destruct x as [s | s | | s m e]; simpl; intros H;
    try discriminate; try reflexivity.
  - destruct s; reflexivity.
  - change (Pos.compare_cont Eq m m) with (Pos.compare m m).
    destruct s; rewrite Z.compare_refl, Pos.compare_refl; reflexivity.
Qed.

Lemma ltb_leb (x y : float) : ltb x y = true -> leb x y = true.
Proof.
  unfold ltb, leb, SFltb, SFleb. destruct (SFcompare x y) as [[| |] |];
    intros H; try discriminate; reflexivity.
Qed.

Lemma not_ltb_leb (x y : float) :
  is_nan x = false -> is_nan y = false -> ltb y x = false -> leb x y = true.
Proof.
  intros Hx Hy. unfold ltb, leb, SFltb, SFleb. rewrite (compare_antisym x y).
  destruct (compare_defined x y Hx Hy) as [c ->]. destruct c; simpl;
    intros H; try discriminate; reflexivity.
Qed.

Lemma gtb_leb (x y : float) : gtb y x = true -> leb x y = true.
Proof.
  unfold gtb, leb, SFleb. rewrite (compare_antisym x y).
  destruct (SFcompare x y) as [[| |] |]; simpl; intros H;
    try discriminate; reflexivity.
Qed.

Lemma not_gtb_leb (x y : float) :
  is_nan x = false -> is_nan y = false -> gtb y x = false -> leb y x = true.
Proof.
  intros Hx Hy. unfold gtb, leb, SFleb.
  destruct (compare_defined y x Hy Hx) as [c ->]. destruct c; simpl;
    intros H; try discriminate; reflexivity.
Qed.

Lemma leb_not_nan (x y : float) :
  leb x y = true -> is_nan x = false /\ is_nan y = false.
Proof.
  unfold leb, SFleb. destruct x, y; simpl; intros H; try discriminate; auto.
Qed.

Ltac order_cases :=
  repeat match goal with
         | |- context [(?a ?= ?b)%Z] => destruct (Z.compare_spec a b); subst
         | |- context [(?a ?= ?b)%positive] => destruct (Pos.compare_spec a b); subst
         end;
  simpl; intros; try reflexivity; try discriminate; try lia.

Lemma leb_trans (x y z : float) :
  leb x y = true -> leb y z = true -> leb x z = true.
Proof.
  unfold leb, SFleb.
  destruct x as [sx | sx | | sx mx ex], y as [sy | sy | | sy my ey],
           z as [sz | sz | | sz mz ez]; simpl;
    try discriminate; try reflexivity;
    try (destruct sx; simpl; intros; (reflexivity || discriminate));
    try (destruct sx, sy; simpl; intros; (reflexivity || discriminate));
    try (destruct sx, sz; simpl; intros; (reflexivity || discriminate));
    try (destruct sy, sz; simpl; intros; (reflexivity || discriminate));
    try (destruct sx, sy, sz; simpl; intros; (reflexivity || discriminate)).
  all: change (Pos.compare_cont Eq) with Pos.compare.
  all: destruct sx, sy, sz; simpl; try discriminate; try reflexivity;
    try (intros; discriminate).
  all: order_cases.
Qed.

Lemma leb_pos_inf (x : float) : is_nan x = false -> leb x pos_inf = true.
Proof. destruct x as [s | [|] | | [|] m e]; simpl; intros; reflexivity || discriminate. Qed.

Lemma leb_neg_inf (x : float) : is_nan x = false -> leb neg_inf x = true.
Proof. destruct x as [s | [|] | | [|] m e]; simpl; intros; reflexivity || discriminate. Qed.

Lemma pos_inf_leb_inv (x : float) : leb pos_inf x = true -> x = pos_inf.
Proof. destruct x as [s | [|] | | [|] m e]; simpl; intros; reflexivity || discriminate. Qed.

Lemma leb_neg_inf_inv (x : float) : leb x neg_inf = true -> x = neg_inf.
Proof. destruct x as [s | [|] | | [|] m e]; simpl; intros; reflexivity || discriminate. Qed.

(** ** Running minimum and maximum *)

Lemma py_min_spec (a b : float) :
  is_nan a = false -> is_nan b = false ->
  (py_min a b = a \/ py_min a b = b)
  /\ leb (py_min a b) a = true /\ leb (py_min a b) b = true.
Proof.
  intros Ha Hb. unfold py_min. destruct (ltb b a) eqn:E.
  - repeat split; auto using ltb_leb, leb_refl.
  - repeat split; auto using not_ltb_leb, leb_refl.
Qed.

Lemma py_max_spec (a b : float) :
  is_nan a = false -> is_nan b = false ->
  (py_max a b = a \/ py_max a b = b)
  /\ leb a (py_max a b) = true /\ leb b (py_max a b) = true.
Proof.
  intros Ha Hb. unfold py_max. destruct (gtb b a) eqn:E.
  - repeat split; auto using gtb_leb, leb_refl.
  - repeat split; auto using not_gtb_leb, leb_refl.
Qed.

Lemma running_min_spec (xs : list float) :
  forall a, is_nan a = false -> Forall (fun x => is_nan x = false) xs ->
  let m := fold_left py_min xs a in
  leb m a = true /\ Forall (fun x => leb m x = true) xs /\ (m = a \/ In m xs).
Proof.
  induction xs as [| x xs IH]; intros a Ha Hxs; cbn [fold_left].
  - repeat split; auto using leb_refl.
  - inversion Hxs as [| ? ? Hx Hxs']; subst.
    destruct (py_min_spec a x Ha Hx) as (Hsel & Hma & Hmx).
    assert (Hn : is_nan (py_min a x) = false) by (destruct Hsel as [-> | ->]; assumption).
    destruct (IH (py_min a x) Hn Hxs') as (H1 & H2 & H3).
    repeat split.
    + eapply leb_trans; eassumption.
    + constructor; [eapply leb_trans; eassumption | assumption].
    + destruct H3 as [-> | H3]; [| right; right; assumption].
      destruct Hsel as [-> | ->]; [left | right; left]; reflexivity.
Qed.

Lemma running_max_spec (xs : list float) :
  forall a, is_nan a = false -> Forall (fun x => is_nan x = false) xs ->
  let m := fold_left py_max xs a in
  leb a m = true /\ Forall (fun x => leb x m = true) xs /\ (m = a \/ In m xs).
Proof.
  induction xs as [| x xs IH]; intros a Ha Hxs; cbn [fold_left].
  - repeat split; auto using leb_refl.
  - inversion Hxs as [| ? ? Hx Hxs']; subst.
    destruct (py_max_spec a x Ha Hx) as (Hsel & Hma & Hmx).
    assert (Hn : is_nan (py_max a x) = false) by (destruct Hsel as [-> | ->]; assumption).
    destruct (IH (py_max a x) Hn Hxs') as (H1 & H2 & H3).
    repeat split.
    + eapply leb_trans; eassumption.
    + constructor; [eapply leb_trans; eassumption | assumption].
    + destruct H3 as [-> | H3]; [| right; right; assumption].
      destruct Hsel as [-> | ->]; [left | right; left]; reflexivity.
Qed.

(** From the sentinels, over at least one value: the extremum bounds
    every value and is one of them. *)
Lemma running_min_from_inf (xs : list float) :
  xs <> [] -> Forall (fun x => is_nan x = false) xs ->
  Forall (fun x => leb (fold_left py_min xs pos_inf) x = true) xs
  /\ In (fold_left py_min xs pos_inf) xs.
Proof.
  intros Hne Hxs.
  destruct (running_min_spec xs pos_inf eq_refl Hxs) as (_ & H2 & H3).
  split; [assumption |]. destruct H3 as [E | H3]; [| assumption].
  destruct xs as [| x xs]; [contradiction |].
  inversion H2 as [| ? ? Hx _]; subst. rewrite E in Hx.
  apply pos_inf_leb_inv in Hx. rewrite E, Hx. left; reflexivity.
Qed.

Lemma running_max_from_inf (xs : list float) :
  xs <> [] -> Forall (fun x => is_nan x = false) xs ->
  Forall (fun x => leb x (fold_left py_max xs neg_inf) = true) xs
  /\ In (fold_left py_max xs neg_inf) xs.
Proof.
  intros Hne Hxs.
  destruct (running_max_spec xs neg_inf eq_refl Hxs) as (_ & H2 & H3).
  split; [assumption |]. destruct H3 as [E | H3]; [| assumption].
  destruct xs as [| x xs]; [contradiction |].
  inversion H2 as [| ? ? Hx _]; subst. rewrite E in Hx.
  apply leb_neg_inf_inv in Hx. rewrite E, Hx. left; reflexivity.
Qed.

(** ** Projection and the bounding box *)

Lemma triples_flatten (pts : list (float * float * float)) :
  triples (flatten pts) = pts.
Proof.
  induction pts as [| [[x y] z] pts IH]; simpl; [reflexivity |].
  f_equal. exact IH.
Qed.

Lemma flatten_app (p q : list (float * float * float)) :
  flatten (p ++ q) = flatten p ++ flatten q.
Proof. unfold flatten. apply flat_map_app. Qed.

Lemma convert_vertices_Ok (lat0 lon0 ls lo : float) (tri : Triangle) :
  forall flat b flat' b',
    foldM (convert_vertex lat0 lon0 ls lo) tri (flat, b) = Ok (flat', b') ->
    exists pts,
      flat' = flat ++ flatten pts
      /\ b' = fold_left update_extrema pts b
      /\ List.length pts = List.length tri.
Proof.
  induction tri as [| v tri IH]; intros flat b flat' b'; cbn [foldM].
  - intros H; inversion H; subst. exists []. rewrite app_nil_r. auto.
  - unfold convert_vertex at 1.
    destruct v as [| lat [| lon [| height [| extra v]]]]; cbn [bind];
      try discriminate.
    intros H. apply IH in H. destruct H as (pts & -> & -> & Hlen).
    exists (project lat0 lon0 ls lo lat lon height :: pts).
    cbn [fold_left List.length]. rewrite <- app_assoc.
    repeat split; auto.
Qed.

Lemma convert_triangles_Ok (lat0 lon0 ls lo : float) (tris : list Triangle) :
  forall conv b conv' b',
    foldM (convert_triangle lat0 lon0 ls lo) tris (conv, b) = Ok (conv', b') ->
    exists ptss,
      conv' = conv ++ map flatten ptss
      /\ b' = fold_left update_extrema (List.concat ptss) b
      /\ Forall2 (fun pts tri => List.length pts = List.length tri) ptss tris.
Proof.
  induction tris as [| tri tris IH]; intros conv b conv' b'; cbn [foldM].
  - intros H; inversion H; subst. exists []. rewrite app_nil_r. auto.
  - unfold convert_triangle at 1.
    destruct (foldM (convert_vertex lat0 lon0 ls lo) tri ([], b))
      as [[flat b1] | e] eqn:Hv; cbn [bind]; [| discriminate].
    apply convert_vertices_Ok in Hv. destruct Hv as (pts & -> & -> & Hlen).
    intros H. apply IH in H. destruct H as (ptss & -> & -> & Hall).
    exists (pts :: ptss). cbn [map List.concat app].
    rewrite fold_left_app, <- app_assoc. repeat split; auto.
Qed.

Lemma projected_points_flatten (ptss : list (list (float * float * float))) :
  projected_points (map flatten ptss) = List.concat ptss.
Proof.
  unfold projected_points. induction ptss as [| pts ptss IH]; simpl; [reflexivity |].
  rewrite triples_flatten, IH. reflexivity.
Qed.

Lemma concat_map_flatten (ptss : list (list (float * float * float))) :
  List.concat (map flatten ptss) = flatten (List.concat ptss).
Proof.
  induction ptss as [| pts ptss IH]; simpl; [reflexivity |].
  rewrite flatten_app, IH. reflexivity.
Qed.

Lemma extrema_components (pts : list (float * float * float)) :
  forall b,
    let b' := fold_left update_extrema pts b in
    min_x b' = fold_left py_min (map px pts) (min_x b)
    /\ min_y b' = fold_left py_min (map py pts) (min_y b)
    /\ min_z b' = fold_left py_min (map pz pts) (min_z b)
    /\ max_x b' = fold_left py_max (map px pts) (max_x b)
    /\ max_y b' = fold_left py_max (map py pts) (max_y b)
    /\ max_z b' = fold_left py_max (map pz pts) (max_z b).
Proof.
  induction pts as [| [[x y] z] pts IH]; intros b; cbn [fold_left map].
  - repeat split.
  - specialize (IH (update_extrema b (x, y, z))). exact IH.
Qed.

Lemma flatten_no_nan (pts : list (float * float * float)) :
  Forall (fun c => is_nan c = false) (flatten pts) ->
  Forall (fun c => is_nan c = false) (map px pts)
  /\ Forall (fun c => is_nan c = false) (map py pts)
  /\ Forall (fun c => is_nan c = false) (map pz pts).
Proof.
  induction pts as [| [[x y] z] pts IH]; simpl; intros H.
  - repeat split; constructor.
  - inversion H as [| ? ? Hx H1]; subst. inversion H1 as [| ? ? Hy H2]; subst.
    inversion H2 as [| ? ? Hz H3]; subst. destruct (IH H3) as (? & ? & ?).
    repeat split; constructor; assumption.
Qed.

Lemma convert_with_scales_Ok (ls lo : float) (tris : list Triangle)
      (lat0 lon0 : float) (converted : list (list float)) (bnds : Bounds) :
  convert_with_scales ls lo tris lat0 lon0 = Ok (converted, bnds) ->
  exists ptss,
    converted = map flatten ptss
    /\ Forall2 (fun pts tri => List.length pts = List.length tri) ptss tris
    /\ let b := fold_left update_extrema (List.concat ptss) initial_extrema in
       bnds = mkBounds [min_x b; min_y b; min_z b] [max_x b; max_y b; max_z b].
Proof.
  unfold convert_with_scales.
  destruct (foldM (convert_triangle lat0 lon0 ls lo) tris ([], initial_extrema))
    as [[conv b] | e] eqn:Hf; cbn [bind]; [| discriminate].
  apply convert_triangles_Ok in Hf. destruct Hf as (ptss & -> & -> & Hall).
  intros H; inversion H; subst. exists ptss. auto.
Qed.

Lemma in_map_component {A : Type} (f : A -> float) (l : list A) (m : float) :
  In m (map f l) -> exists p, In p l /\ f p = m.
Proof.
  rewrite in_map_iff. intros [p [E Hin]]. eauto.
Qed.

(** A [NaN] coordinate never moves a running extremum: with one [NaN]
    height the box leaves that height outside, and with only [NaN]
    heights the two sentinels are what the document reports. *)
Lemma C8_nan_escapes_the_box :
  map (fun doc => (nth 1 (bounds_min (bounds doc)) nan,
                   map py (projected_points (triangles doc)),
                   nth 1 (bounds_max (bounds doc)) nan))
      (dumped (snd (run (main cos_at_zero Plain [file_with_one_nan_height]
                              "mesh.json" 12))))
  = [(of_Z 1, [nan; of_Z 1; of_Z 2], of_Z 2)]
  /\ leb (of_Z 1) nan = false
  /\ leb nan (of_Z 2) = false
  /\ map (fun doc => (nth 1 (bounds_min (bounds doc)) nan,
                      map py (projected_points (triangles doc)),
                      nth 1 (bounds_max (bounds doc)) nan))
         (dumped (snd (run (main cos_at_zero Plain [file_with_nan_heights]
                                 "mesh.json" 12))))
     = [(pos_inf, [nan; nan; nan], neg_inf)].
Proof.
  repeat split; vm_compute; reflexivity.
Qed.

(** C8, as the code has it.  For a non-empty list of triangles none of
    whose projected coordinates is [NaN], the bounding box returned with
    the projection bounds every projected vertex component by component,
    and each of its six components is the coordinate of some projected
    vertex. *)
Theorem C8_bounding_box (libm_cos : float -> float) (tris : list Triangle)
        (lat0 lon0 : float) (converted : list (list float)) (bnds : Bounds) :
  convert_coordinates libm_cos tris lat0 lon0 = Ok (converted, bnds) ->
  tris <> [] ->
  Forall (fun tri => List.length tri = 3%nat) tris ->
  Forall (fun c => is_nan c = false) (List.concat converted) ->
  exists lo_x lo_y lo_z hi_x hi_y hi_z,
    bnds = mkBounds [lo_x; lo_y; lo_z] [hi_x; hi_y; hi_z]
    /\ (forall p, In p (projected_points converted) ->
          leb lo_x (px p) = true /\ leb (px p) hi_x = true
          /\ leb lo_y (py p) = true /\ leb (py p) hi_y = true
          /\ leb lo_z (pz p) = true /\ leb (pz p) hi_z = true)
    /\ (exists p, In p (projected_points converted) /\ px p = lo_x)
    /\ (exists p, In p (projected_points converted) /\ py p = lo_y)
    /\ (exists p, In p (projected_points converted) /\ pz p = lo_z)
    /\ (exists p, In p (projected_points converted) /\ px p = hi_x)
    /\ (exists p, In p (projected_points converted) /\ py p = hi_y)
    /\ (exists p, In p (projected_points converted) /\ pz p = hi_z).
Proof.
  intros Hconv Hne Htri Hnan. unfold convert_coordinates in Hconv.
  apply bind_Ok_inv in Hconv. destruct Hconv as ([ls lo] & _ & Hconv).
  apply convert_with_scales_Ok in Hconv.
  destruct Hconv as (ptss & -> & Hall & ->).
  rewrite projected_points_flatten. rewrite concat_map_flatten in Hnan.
  set (pts := List.concat ptss) in *.
  assert (Hpts : pts <> []).
  { subst pts. destruct Hall as [| pts0 tri ptss' tris' Hlen _]; [congruence |].
    inversion Htri as [| ? ? H3 _]; subst. rewrite H3 in Hlen.
    destruct pts0; [discriminate |]. discriminate. }
  destruct (flatten_no_nan pts Hnan) as (Hx & Hy & Hz).
  assert (Hmap : forall f : float * float * float -> float, map f pts <> []).
  { intros f E. apply map_eq_nil in E. contradiction. }
  destruct (extrema_components pts initial_extrema) as (E1 & E2 & E3 & E4 & E5 & E6).
  cbn [initial_extrema min_x min_y min_z max_x max_y max_z] in E1, E2, E3, E4, E5, E6.
  destruct (running_min_from_inf _ (Hmap px) Hx) as (Bx & Ax).
  destruct (running_min_from_inf _ (Hmap py) Hy) as (By & Ay).
  destruct (running_min_from_inf _ (Hmap pz) Hz) as (Bz & Az).
  destruct (running_max_from_inf _ (Hmap px) Hx) as (Cx & Dx).
  destruct (running_max_from_inf _ (Hmap py) Hy) as (Cy & Dy).
  destruct (running_max_from_inf _ (Hmap pz) Hz) as (Cz & Dz).
  rewrite <- E1 in Bx, Ax. rewrite <- E2 in By, Ay. rewrite <- E3 in Bz, Az.
  rewrite <- E4 in Cx, Dx. rewrite <- E5 in Cy, Dy. rewrite <- E6 in Cz, Dz.
  do 6 eexists. split; [reflexivity |].
  rewrite Forall_forall in Bx, By, Bz, Cx, Cy, Cz.
  split.
  - intros p Hp. repeat split;
      first [apply Bx | apply By | apply Bz | apply Cx | apply Cy | apply Cz];
      apply in_map; assumption.
  - repeat split; apply in_map_component; assumption.
Qed.

Lemma C8_bounding_box_witness :
  exists converted lo_x lo_y lo_z hi_x hi_y hi_z,
    convert_coordinates cos_at_zero
      [[[pos_zero; pos_zero; pos_zero];
        [pos_zero; of_Z 1; pos_zero];
        [pos_zero; of_Z 2; of_Z 5]]] pos_zero (of_Z 1)
    = Ok (converted, mkBounds [lo_x; lo_y; lo_z] [hi_x; hi_y; hi_z])
    /\ (forall p, In p (projected_points converted) ->
          leb lo_x (px p) = true /\ leb (px p) hi_x = true
          /\ leb lo_y (py p) = true /\ leb (py p) hi_y = true
          /\ leb lo_z (pz p) = true /\ leb (pz p) hi_z = true)
    /\ (exists p, In p (projected_points converted) /\ px p = lo_x)
    /\ (exists p, In p (projected_points converted) /\ py p = lo_y)
    /\ (exists p, In p (projected_points converted) /\ pz p = lo_z)
    /\ (exists p, In p (projected_points converted) /\ px p = hi_x)
    /\ (exists p, In p (projected_points converted) /\ py p = hi_y)
    /\ (exists p, In p (projected_points converted) /\ pz p = hi_z).
Proof.
  set (tris := [[[pos_zero; pos_zero; pos_zero];
                 [pos_zero; of_Z 1; pos_zero];
                 [pos_zero; of_Z 2; of_Z 5]]]).
  destruct (convert_coordinates cos_at_zero tris pos_zero (of_Z 1))
    as [[converted bnds] | e] eqn:Hrun; [| vm_compute in Hrun; discriminate].
  assert (Hne : tris <> []) by discriminate.
  assert (Htri : Forall (fun tri => List.length tri = 3%nat) tris)
    by (repeat constructor).
  assert (Hnan : Forall (fun c => is_nan c = false) (List.concat converted)).
  { vm_compute in Hrun. inversion Hrun; subst. repeat constructor. }
  destruct (C8_bounding_box cos_at_zero tris pos_zero (of_Z 1) converted bnds
              Hrun Hne Htri Hnan)
    as (lo_x & lo_y & lo_z & hi_x & hi_y & hi_z & -> & H).
  exists converted, lo_x, lo_y, lo_z, hi_x, hi_y, hi_z.
  split; [reflexivity | exact H].
Defined.

Lemma sub_self (x : float) : is_finite x = true -> sub x x = pos_zero.
Proof.
  destruct x as [s | s | | s m e]; simpl; intros H; try discriminate.
  - destruct s; reflexivity.
  - unfold sub, SFsub. rewrite Z.sub_diag. reflexivity.
Qed.

Lemma mul_zero_finite (s : bool) (y : float) :
  is_finite y = true -> is_zero (mul (S754_zero s) y) = true.
Proof.
  destruct y; simpl; intros H; try discriminate; reflexivity.
Qed.

(** With an infinite longitude in the input the origin longitude is
    infinite, and the vertices at the origin get a [NaN] abscissa. *)
Lemma C7_infinite_origin :
  parse_linear_ring (ring_of_text "0 inf 5 0 inf 6 0 inf 7")
  = Ok [[pos_zero; pos_inf; of_Z 5];
        [pos_zero; pos_inf; of_Z 6];
        [pos_zero; pos_inf; of_Z 7]]
  /\ map (fun doc => (origin_lat doc, origin_lon doc,
                      projected_points (triangles doc)))
         (dumped (snd (run (main cos_at_zero Plain [file_with_infinite_longitude]
                                 "mesh.json" 12))))
     = [(pos_zero, pos_inf,
         [(nan, of_Z 5, S754_zero true);
          (nan, of_Z 6, S754_zero true);
          (nan, of_Z 7, S754_zero true)])]
  /\ PyFloat.eqb nan pos_zero = false.
Proof.
  repeat split; vm_compute; reflexivity.
Qed.

(** ** Witnesses on sample rings and documents *)

Lemma C4_fan_triangulation_witness :
  polygon_to_triangles [[pos_zero; pos_zero; pos_zero]; [of_Z 1; of_Z 1; of_Z 1]] = []
  /\ List.length
       (polygon_to_triangles
          [[pos_zero]; [of_Z 1]; [of_Z 2]; [of_Z 3]; [of_Z 4]]) = 3%nat
  /\ forall i, (1 <= i <= 3)%nat ->
       exists v0 vi vi1,
         nth_error [[pos_zero]; [of_Z 1]; [of_Z 2]; [of_Z 3]; [of_Z 4]] 0 = Some v0
         /\ nth_error [[pos_zero]; [of_Z 1]; [of_Z 2]; [of_Z 3]; [of_Z 4]] i = Some vi
         /\ nth_error [[pos_zero]; [of_Z 1]; [of_Z 2]; [of_Z 3]; [of_Z 4]] (i + 1)
            = Some vi1
         /\ nth_error
              (polygon_to_triangles
                 [[pos_zero]; [of_Z 1]; [of_Z 2]; [of_Z 3]; [of_Z 4]]) (i - 1)
            = Some [v0; vi; vi1].
Proof.
  split.
  - apply (proj1 (C4_fan_triangulation
                    [[pos_zero; pos_zero; pos_zero]; [of_Z 1; of_Z 1; of_Z 1]])).
    simpl. lia.
  - apply (proj2 (C4_fan_triangulation
                    [[pos_zero]; [of_Z 1]; [of_Z 2]; [of_Z 3]; [of_Z 4]])).
    simpl. lia.
Defined.

(** A ring of one triple has equal first and last triples, and is not
    the ring without its last triple. *)
Lemma C3_single_vertex_ring_is_kept :
  parse_linear_ring single_vertex_ring = Ok [[of_Z 1; of_Z 2; of_Z 3]]
  /\ tuple_eqb [of_Z 1; of_Z 2; of_Z 3] [of_Z 1; of_Z 2; of_Z 3] = true
  /\ parse_linear_ring (ring_of_text "") = Ok []
  /\ polygon_to_triangles [[of_Z 1; of_Z 2; of_Z 3]] = [].
Proof.
  repeat split; vm_compute; reflexivity.
Qed.

Lemma C3_closing_vertex_dropped_witness :
  exists raw coords,
    mapM float_of_token (ring_tokens square_ring) = Ok raw
    /\ chunked raw 3 = Ok coords
    /\ List.length coords = 5%nat
    /\ parse_linear_ring square_ring = Ok (removelast coords)
    /\ chunked (firstn (List.length raw - 3) raw) 3 = Ok (removelast coords)
    /\ List.length (removelast coords) = (List.length coords - 1)%nat.
Proof.
  destruct (mapM float_of_token (ring_tokens square_ring)) as [raw | e] eqn:Hraw;
    [| vm_compute in Hraw; discriminate].
  destruct (chunked raw 3) as [coords | e] eqn:Hchunk;
    [| vm_compute in Hchunk; discriminate].
  exists raw, coords.
  assert (Hlen : List.length coords = 5%nat).
  { vm_compute in Hraw. inversion Hraw; subst. vm_compute in Hchunk.
    inversion Hchunk; subst. reflexivity. }
  assert (Hclosed : tuple_eqb (nth 0 coords []) (last coords []) = true).
  { vm_compute in Hraw. inversion Hraw; subst. vm_compute in Hchunk.
    inversion Hchunk; subst. reflexivity. }
  split; [reflexivity |]. split; [exact Hchunk |]. split; [exact Hlen |].
  apply (proj1 (C3_closing_vertex_dropped square_ring raw coords Hraw Hchunk)).
  - rewrite Hlen. lia.
  - exact Hclosed.
Defined.

Lemma C9_fallback_search_witness :
  (extract_triangles (snd file_with_stray_ring)
   = any_ring_triangles (snd file_with_stray_ring) []
   /\ List.length (all_rings (snd file_with_stray_ring)) = 1%nat)
  /\ (exists t ts,
        solid_triangles (document_of [solid_of [equator_ring]; square_ring])
        = Ok (t :: ts)
        /\ extract_triangles (document_of [solid_of [equator_ring]; square_ring])
           = Ok (t :: ts)
        /\ List.length (t :: ts) = 1%nat
        /\ List.length
             (all_rings (document_of [solid_of [equator_ring]; square_ring]))
           = 2%nat).
Proof.
  split.
  - split; [| reflexivity].
    apply (proj1 (proj2 (proj2 (C9_fallback_search (snd file_with_stray_ring))))).
    vm_compute. reflexivity.
  - destruct (solid_triangles (document_of [solid_of [equator_ring]; square_ring]))
      as [[| t ts] | e] eqn:Hs; try (vm_compute in Hs; discriminate).
    exists t, ts. split; [reflexivity |]. split.
    + apply (proj2 (proj2 (proj2 (C9_fallback_search
                (document_of [solid_of [equator_ring]; square_ring])))) t ts Hs).
    + vm_compute in Hs. inversion Hs; subst. split; reflexivity.
Defined.

Lemma C10_partial_trailing_tuple_witness :
  exists coords,
    parse_linear_ring (ring_of_text "1 2 3 4 5 6 7 8") = Ok coords
    /\ (Forall (fun v => List.length v = 3%nat) coords
        <-> (List.length (ring_tokens (ring_of_text "1 2 3 4 5 6 7 8")) mod 3
             = 0)%nat)
    /\ ((List.length (ring_tokens (ring_of_text "1 2 3 4 5 6 7 8")) mod 3 <> 0)%nat ->
        coords <> []
        /\ mapM float_of_token (ring_tokens (ring_of_text "1 2 3 4 5 6 7 8"))
           = Ok (List.concat coords)
        /\ List.length (last coords [])
           = (List.length (ring_tokens (ring_of_text "1 2 3 4 5 6 7 8")) mod 3)%nat
        /\ (List.length (last coords []) < 3)%nat
        /\ Forall (fun v => List.length v = 3%nat) (removelast coords)
        /\ (forall st, collect_vertex st (last coords []) = Error ValueError_unpack)
        /\ (forall lat0 lon0 lat_scale lon_scale st,
              convert_vertex lat0 lon0 lat_scale lon_scale st (last coords [])
              = Error ValueError_unpack)).
Proof.
  apply (C10_partial_trailing_tuple (ring_of_text "1 2 3 4 5 6 7 8")).
  apply Forall_forall. intros t Ht. vm_compute in Ht.
  repeat (destruct Ht as [<- | Ht]; [vm_compute; discriminate |]).
  destruct Ht.
Defined.

(** * Further properties of the converter *)

(** ** [chunked] for any chunk size *)

Lemma slice_shift {A : Type} (l : list A) (size k : nat) :
  slice l (S k * size) (S k * size + size)
  = slice (skipn size l) (k * size) (k * size + size).
Proof.
  unfold slice. rewrite skipn_skipn.
  replace (S k * size + size - S k * size)%nat with size by lia.
  replace (k * size + size - k * size)%nat with size by lia.
  replace (k * size + size)%nat with (S k * size)%nat by lia. reflexivity.
Qed.

Lemma chunks_concat {A : Type} (size : nat) :
  forall (n : nat) (l : list A),
    (List.length l <= n * size)%nat ->
    List.concat (map (fun idx => slice l idx (idx + size))
                     (map (fun k => (k * size)%nat) (seq 0 n))) = l.
Proof.
  induction n as [| n IH]; intros l Hlen.
  - destruct l; [reflexivity | simpl in Hlen; lia].
  - cbn [seq map List.concat]. rewrite <- seq_shift, !map_map.
    rewrite (map_ext _ (fun k => slice (skipn size l) (k * size) (k * size + size)))
      by (intros k; apply slice_shift).
    rewrite <- (map_map (fun k => (k * size)%nat)
                        (fun idx => slice (skipn size l) idx (idx + size))).
    rewrite IH by (rewrite length_skipn; lia).
    unfold slice. cbn [skipn Nat.mul Nat.add].
    replace (size - 0)%nat with size by lia. apply firstn_skipn.
Qed.

Lemma ceil_div_bounds (n size : nat) :
  (0 < size)%nat ->
  (n <= (n + size - 1) / size * size)%nat
  /\ (forall k, k < (n + size - 1) / size -> k * size < n)%nat
  /\ (forall k, k < (n + size - 1) / size - 1 -> k * size + size <= n)%nat.
Proof.
  intros Hs.
  pose proof (Nat.div_mod_eq (n + size - 1) size) as E.
  pose proof (Nat.mod_upper_bound (n + size - 1) size ltac:(lia)) as Hm.
  rewrite (Nat.mul_comm size) in E.
  set (q := ((n + size - 1) / size)%nat) in *.
  set (r := ((n + size - 1) mod size)%nat) in *.
  split; [lia |]. split; intros k Hk.
  - assert (k * size + size <= q * size)%nat.
    { replace (k * size + size)%nat with (S k * size)%nat by lia.
      apply Nat.mul_le_mono_r. lia. }
    lia.
  - assert (k * size + size + size <= q * size)%nat.
    { replace (k * size + size + size)%nat with (S (S k) * size)%nat by lia.
      apply Nat.mul_le_mono_r. lia. }
    lia.
Qed.

Lemma removelast_map_seq {B : Type} (f : nat -> B) (n : nat) :
  removelast (map f (seq 0 n)) = map f (seq 0 (n - 1)).
Proof.
  destruct n as [| n]; [reflexivity |].
  replace (S n - 1)%nat with n by lia. replace (S n) with (n + 1)%nat by lia.
  rewrite seq_app, map_app. cbn [seq map Nat.add]. apply removelast_last.
Qed.

Lemma slice_chunk_length {A : Type} (l : list A) (size k : nat) :
  List.length (slice l (k * size) (k * size + size))
  = Nat.min size (List.length l - k * size).
Proof.
  unfold slice. rewrite length_firstn, length_skipn.
  replace (k * size + size - k * size)%nat with size by lia. reflexivity.
Qed.

(** X1.  [chunked] with a chunk size of zero raises the [ValueError] of
    [range]; with a positive size it cuts the sequence into
    [ceil(len / size)] consecutive chunks that concatenate back to the
    sequence, none empty, all of the given size except possibly the
    last. *)
Theorem chunked_partitions {A : Type} (seq : list A) (size : nat) :
  (size = 0%nat -> chunked seq size = Error ValueError_range)
  /\ ((0 < size)%nat ->
      exists chunks,
        chunked seq size = Ok chunks
        /\ List.concat chunks = seq
        /\ List.length chunks = ((List.length seq + size - 1) / size)%nat
        /\ Forall (fun c => c <> [] /\ (List.length c <= size)%nat) chunks
        /\ Forall (fun c => List.length c = size) (removelast chunks)).
Proof.
  split; [intros ->; reflexivity |].
  intros Hs. destruct size as [| s]; [lia |]. set (size := S s) in *.
  destruct (ceil_div_bounds (List.length seq) size Hs) as (Hup & Hin & Hfull).
  eexists. split; [reflexivity |]. unfold range_step.
  set (n := ((List.length seq + size - 1) / size)%nat) in *.
  split; [apply chunks_concat; exact Hup |].
  split; [rewrite !length_map, length_seq; reflexivity |].
  split.
  - apply Forall_forall. intros c Hc.
    apply in_map_iff in Hc. destruct Hc as [idx [<- Hidx]].
    apply in_map_iff in Hidx. destruct Hidx as [k [<- Hk]].
    apply in_seq in Hk.
    assert (Hlen := slice_chunk_length seq size k).
    assert (k * size < List.length seq)%nat by (apply Hin; lia).
    split; [| lia]. intros E. rewrite E in Hlen. cbn [List.length] in Hlen. lia.
  - rewrite map_map, removelast_map_seq.
    apply Forall_forall. intros c Hc.
    apply in_map_iff in Hc. destruct Hc as [k [<- Hk]].
    apply in_seq in Hk. rewrite slice_chunk_length.
    assert (k * size + size <= List.length seq)%nat by (apply Hfull; lia).
    lia.
Qed.

Lemma chunked_partitions_witness :
  exists chunks,
    chunked [1; 2; 3; 4; 5; 6; 7]%nat 2 = Ok chunks
    /\ List.concat chunks = [1; 2; 3; 4; 5; 6; 7]%nat
    /\ List.length chunks = 4%nat
    /\ Forall (fun c => c <> [] /\ (List.length c <= 2)%nat) chunks
    /\ Forall (fun c => List.length c = 2%nat) (removelast chunks).
Proof.
  apply (proj2 (chunked_partitions [1; 2; 3; 4; 5; 6; 7]%nat 2)). lia.
Defined.

(** ** More on ring parsing *)

Lemma chunks3_sizes {A : Type} (l : list A) :
  Forall (fun v => v <> [] /\ (List.length v <= 3)%nat) (chunks3 l).
Proof.
  induction l as [| a | a b | a b c rest IH] using list_ind3; cbn [chunks3];
    repeat constructor; try discriminate; try assumption; simpl; lia.
Qed.

Lemma In_removelast {A : Type} (l : list A) (x : A) :
  In x (removelast l) -> In x l.
Proof.
  induction l as [| a l IH]; [intros [] |].
  destruct l as [| b l]; [intros [] |].
  change (removelast (a :: b :: l)) with (a :: removelast (b :: l)).
  intros [-> | H]; [left; reflexivity | right; apply IH; exact H].
Qed.

Lemma drop_closing_cases (coords : list Vertex) :
  (drop_closing coords = coords
   /\ ((List.length coords <= 1)%nat
       \/ tuple_eqb (nth 0 coords []) (last coords []) = false))
  \/ (drop_closing coords = removelast coords
      /\ (1 < List.length coords)%nat
      /\ tuple_eqb (nth 0 coords []) (last coords []) = true).
Proof.
  unfold drop_closing.
  destruct (Nat.ltb_spec 1 (List.length coords)) as [H | H]; cbn [andb].
  - destruct (tuple_eqb (nth 0 coords []) (last coords [])) eqn:E; auto.
  - left. split; [reflexivity | left; assumption].
Qed.

Lemma tuple_eqb_no_nan (t1 t2 : Vertex) :
  tuple_eqb t1 t2 = true -> Forall (fun c => is_nan c = false) t1.
Proof.
  revert t2; induction t1 as [| x t1 IH]; intros [| y t2]; simpl;
    try discriminate; [constructor |].
  intros H. apply andb_prop in H. destruct H as [Hxy Ht]. constructor.
  - destruct x; try reflexivity. discriminate.
  - eapply IH; eassumption.
Qed.

(** X2.  Ring parsing returns the empty ring exactly when the ring has no
    token to decode: no coordinate list, a coordinate list without text,
    or a text of spaces only.  These are not errors. *)
Theorem parse_linear_ring_empty_iff (ring : Element) :
  parse_linear_ring ring = Ok [] <-> ring_tokens ring = [].
Proof.
  rewrite parse_linear_ring_tokens. split.
  - destruct (mapM float_of_token (ring_tokens ring)) as [raw | e] eqn:Hraw;
      cbn [bind]; [| discriminate].
    intros H. inversion H as [Hd]. clear H.
    assert (Hchunks : chunks3 raw = []).
    { destruct (drop_closing_cases (chunks3 raw)) as [[E _] | (E & Hlen & _)].
      - rewrite <- E. exact Hd.
      - rewrite E in Hd. rewrite removelast_firstn_len in Hd.
        destruct (chunks3 raw) as [| c [| c' cs]]; simpl in *;
          try reflexivity; try lia; discriminate. }
    apply chunks3_nil_inv in Hchunks. subst raw.
    apply mapM_Ok_length in Hraw. destruct (ring_tokens ring);
      [reflexivity | discriminate].
  - intros ->. reflexivity.
Qed.

(** X3.  A parsed ring holds the decoded values in document order: its
    vertices concatenate to the decoded list, short of nothing or of one
    final triple that equals the first vertex.  No vertex is empty or has
    more than three components. *)
Theorem parse_linear_ring_keeps_values (ring : Element) (coords : list Vertex) :
  parse_linear_ring ring = Ok coords ->
  exists raw closing,
    mapM float_of_token (ring_tokens ring) = Ok raw
    /\ raw = List.concat coords ++ closing
    /\ (closing = [] \/ tuple_eqb (nth 0 coords []) closing = true)
    /\ Forall (fun v => v <> [] /\ (List.length v <= 3)%nat) coords.
Proof.
  rewrite parse_linear_ring_tokens.
  destruct (mapM float_of_token (ring_tokens ring)) as [raw | e] eqn:Hraw;
    cbn [bind]; [| discriminate].
  intros H. inversion H; subst coords. clear H.
  destruct (drop_closing_cases (chunks3 raw)) as [[E _] | (E & Hlen & Heq)];
    rewrite E.
  - exists raw, []. rewrite app_nil_r, concat_chunks3.
    repeat split; auto. apply chunks3_sizes.
  - exists raw, (last (chunks3 raw) []).
    assert (Hne : chunks3 raw <> []) by (intros E0; rewrite E0 in Hlen; simpl in Hlen; lia).
    split; [reflexivity |]. split; [| split].
    + rewrite <- (concat_chunks3 raw) at 1.
      rewrite (app_removelast_last [] Hne) at 1.
      rewrite concat_app. cbn [List.concat]. rewrite app_nil_r. reflexivity.
    + right. rewrite <- Heq. f_equal.
      destruct (chunks3 raw) as [| c [| c' cs]]; simpl in Hlen; try lia.
      reflexivity.
    + apply Forall_forall. intros v Hv. apply In_removelast in Hv.
      pose proof (chunks3_sizes raw) as Hs. rewrite Forall_forall in Hs. auto.
Qed.

Lemma parse_linear_ring_keeps_values_witness :
  exists raw closing,
    mapM float_of_token (ring_tokens square_ring) = Ok raw
    /\ raw = List.concat
               [[pos_zero; pos_zero; pos_zero];
                [pos_zero; lit "0.001"; pos_zero];
                [lit "0.001"; lit "0.001"; of_Z 10];
                [lit "0.001"; pos_zero; of_Z 10]] ++ closing
    /\ (closing = [] \/ tuple_eqb [pos_zero; pos_zero; pos_zero] closing = true)
    /\ Forall (fun v => v <> [] /\ (List.length v <= 3)%nat)
              [[pos_zero; pos_zero; pos_zero];
               [pos_zero; lit "0.001"; pos_zero];
               [lit "0.001"; lit "0.001"; of_Z 10];
               [lit "0.001"; pos_zero; of_Z 10]].
Proof.
  apply (parse_linear_ring_keeps_values square_ring).
  vm_compute. reflexivity.
Defined.

(** X4.  Ring closure compares with [==]: a ring whose first triple has a
    [NaN] component is never taken as closed, so every decoded triple is
    returned, even when the last triple repeats the first token for
    token. *)
Theorem nan_ring_is_never_closed (ring : Element) (raw : list float)
        (coords : list Vertex) :
  mapM float_of_token (ring_tokens ring) = Ok raw ->
  chunked raw 3 = Ok coords ->
  Exists (fun c => is_nan c = true) (nth 0 coords []) ->
  parse_linear_ring ring = Ok coords.
Proof.
  intros Hraw Hchunk Hnan. rewrite chunked_3 in Hchunk. inversion Hchunk; subst.
  rewrite parse_linear_ring_tokens, Hraw. cbn [bind]. f_equal.
  destruct (drop_closing_cases (chunks3 raw)) as [[E _] | (_ & _ & Heq)];
    [exact E |].
  exfalso. apply tuple_eqb_no_nan in Heq. apply Exists_exists in Hnan.
  destruct Hnan as [c [Hin Hc]]. rewrite Forall_forall in Heq.
  rewrite (Heq c Hin) in Hc. discriminate.
Qed.

Lemma nan_ring_is_never_closed_witness :
  parse_linear_ring nan_corner_ring
  = Ok [[nan; pos_zero; pos_zero];
        [pos_zero; of_Z 1; pos_zero];
        [pos_zero; of_Z 2; of_Z 5];
        [nan; pos_zero; pos_zero]].
Proof.
  apply (nan_ring_is_never_closed nan_corner_ring
           [nan; pos_zero; pos_zero; pos_zero; of_Z 1; pos_zero;
            pos_zero; of_Z 2; of_Z 5; nan; pos_zero; pos_zero]).
  - vm_compute. reflexivity.
  - vm_compute. reflexivity.
  - left. reflexivity.
Defined.

(** ** More on solid extraction *)

Lemma Element_nested_ind (P : Element -> Prop) :
  (forall t x cs, Forall P cs -> P (Elem t x cs)) -> forall e, P e.
Proof.
  intros H. fix IH 1. intros [t x cs]. apply H.
  induction cs as [| c cs IHcs]; constructor; [apply IH | exact IHcs].
Qed.

Lemma iter_descendants (e : Element) : ET.iter e = e :: descendants e.
Proof. destruct e; reflexivity. Qed.

Lemma iter_trans (e : Element) :
  forall x y, In x (ET.iter e) -> In y (ET.iter x) -> In y (ET.iter e).
Proof.
  induction e as [t tx cs IH] using Element_nested_ind. intros x y Hx Hy.
  cbn [ET.iter] in Hx. destruct Hx as [<- | Hx]; [exact Hy |].
  cbn [ET.iter]. right. apply in_flat_map in Hx. destruct Hx as [c [Hc Hx]].
  apply in_flat_map. exists c. split; [exact Hc |].
  rewrite Forall_forall in IH. eapply IH; eassumption.
Qed.

Lemma descendants_trans (root s r : Element) :
  In s (descendants root) -> In r (descendants s) -> In r (descendants root).
Proof.
  unfold descendants at 1 3. intros Hs Hr.
  apply in_flat_map in Hs. destruct Hs as [c [Hc Hs]].
  apply in_flat_map. exists c. split; [exact Hc |].
  apply (iter_trans c s r Hs). rewrite iter_descendants. right. exact Hr.
Qed.

Lemma solid_rings_incl (root : Element) : incl (solid_rings root) (all_rings root).
Proof.
  intros r Hr. unfold solid_rings in Hr. apply in_flat_map in Hr.
  destruct Hr as [s [Hs Hr]].
  unfold ET.findall_descendants in Hs, Hr. unfold all_rings, ET.findall_descendants.
  apply filter_In in Hs. apply filter_In in Hr. apply filter_In.
  destruct Hs as [Hs _]. destruct Hr as [Hr Htag]. split; [| exact Htag].
  exact (descendants_trans root s r Hs Hr).
Qed.

Lemma mapM_Ok_In {A B : Type} (f : A -> result B) (l : list A) (bs : list B) :
  mapM f l = Ok bs -> forall b, In b bs -> exists a, In a l /\ f a = Ok b.
Proof.
  revert bs; induction l as [| a l IH]; intros bs; cbn [mapM].
  - intros H; inversion H; subst. intros b [].
  - destruct (f a) as [b0 |] eqn:Ha; cbn [bind]; [| discriminate].
    destruct (mapM f l) as [bs0 |]; cbn [bind]; [| discriminate].
    intros H; inversion H; subst. intros b [<- | Hb].
    + exists a. split; [left; reflexivity | exact Ha].
    + destruct (IH bs0 eq_refl b Hb) as [a' [Hin Ha']].
      exists a'. split; [right; exact Hin | exact Ha'].
Qed.

Lemma polygon_to_triangles_In (coords : list Vertex) (tri : list Vertex) :
  In tri (polygon_to_triangles coords) ->
  List.length tri = 3%nat
  /\ nth_error tri 0 = nth_error coords 0
  /\ forall v, In v tri -> In v coords.
Proof.
  unfold polygon_to_triangles.
  destruct (Nat.ltb_spec (List.length coords) 3) as [H | H]; [intros [] |].
  intros Hin. apply in_map_iff in Hin. destruct Hin as [i [<- Hi]].
  apply in_seq in Hi. split; [reflexivity |]. split.
  - transitivity (Some (nth 0 coords ([] : list float))); [reflexivity |].
    symmetry. apply nth_error_nth'. lia.
  - intros v [<- | [<- | [<- | []]]]; apply nth_In; lia.
Qed.

Lemma rings_to_triangles_In (rings : list Element) (ts : list Triangle) :
  rings_to_triangles rings = Ok ts ->
  forall tri, In tri ts ->
    exists ring coords,
      In ring rings /\ parse_linear_ring ring = Ok coords
      /\ In tri (polygon_to_triangles coords).
Proof.
  unfold rings_to_triangles.
  destruct (mapM parse_linear_ring rings) as [ringss | e] eqn:Hm; cbn [bind];
    [| discriminate].
  intros H; inversion H; subst. intros tri Htri.
  apply in_flat_map in Htri. destruct Htri as [coords [Hc Htri]].
  destruct (mapM_Ok_In _ _ _ Hm coords Hc) as [ring [Hr Hp]]. eauto.
Qed.

Lemma extract_triangles_In (root : Element) (ts : list Triangle) :
  extract_triangles root = Ok ts ->
  forall tri, In tri ts ->
    exists ring coords,
      In ring (all_rings root) /\ parse_linear_ring ring = Ok coords
      /\ In tri (polygon_to_triangles coords).
Proof.
  rewrite extract_triangles_eq.
  destruct (rings_to_triangles (solid_rings root)) as [[| t ts0] | e] eqn:Hs;
    cbn [bind]; try discriminate.
  - apply rings_to_triangles_In.
  - intros H; inversion H; subst. intros tri Htri.
    destruct (rings_to_triangles_In _ _ Hs tri Htri) as (ring & coords & Hr & Hp & Ht).
    exists ring, coords. split; [apply solid_rings_incl; exact Hr | auto].
Qed.

(** X5.  Every triangle [extract_triangles] returns comes from a linear
    ring of the document: it has exactly three vertices, all of them
    vertices of that parsed ring, and its first vertex is the first vertex
    of the ring. *)
Theorem extracted_triangles_come_from_rings (root : Element) (ts : list Triangle)
        (tri : list Vertex) :
  extract_triangles root = Ok ts ->
  In tri ts ->
  exists ring coords,
    In ring (all_rings root)
    /\ parse_linear_ring ring = Ok coords
    /\ List.length tri = 3%nat
    /\ nth_error tri 0 = nth_error coords 0
    /\ forall v, In v tri -> In v coords.
Proof.
  intros Hx Htri.
  destruct (extract_triangles_In root ts Hx tri Htri) as (ring & coords & Hr & Hp & Ht).
  exists ring, coords. split; [exact Hr |]. split; [exact Hp |].
  apply polygon_to_triangles_In. exact Ht.
Qed.

Lemma extracted_triangles_come_from_rings_witness :
  exists ring coords,
    In ring (all_rings (snd file_with_stray_ring))
    /\ parse_linear_ring ring = Ok coords
    /\ List.length [[pos_zero; pos_zero; pos_zero];
                    [pos_zero; of_Z 1; pos_zero];
                    [pos_zero; of_Z 2; of_Z 5]] = 3%nat
    /\ nth_error [[pos_zero; pos_zero; pos_zero];
                  [pos_zero; of_Z 1; pos_zero];
                  [pos_zero; of_Z 2; of_Z 5]] 0 = nth_error coords 0
    /\ forall v, In v [[pos_zero; pos_zero; pos_zero];
                       [pos_zero; of_Z 1; pos_zero];
                       [pos_zero; of_Z 2; of_Z 5]] -> In v coords.
Proof.
  apply (extracted_triangles_come_from_rings (snd file_with_stray_ring)
           [[[pos_zero; pos_zero; pos_zero];
             [pos_zero; of_Z 1; pos_zero];
             [pos_zero; of_Z 2; of_Z 5]]]).
  - vm_compute. reflexivity.
  - left. reflexivity.
Defined.

(** X6.  Once the document is parsed, the two searches of
    [extract_triangles] raise nothing but the [ValueError] of a token that
    [float] rejects, and that token belongs to the coordinate list of a
    linear ring of the document. *)
Theorem extract_triangles_raises_only_on_bad_token (root : Element) (e : PyError) :
  extract_triangles root = Error e ->
  exists ring bad,
    In ring (all_rings root)
    /\ In bad (ring_tokens ring)
    /\ PyFloat.of_string bad = None
    /\ e = ValueError_float bad.
Proof.
  rewrite extract_triangles_eq.
  destruct (rings_to_triangles (solid_rings root)) as [[| t ts] | e'] eqn:Hs;
    cbn [bind]; try discriminate; intros H.
  - apply rings_to_triangles_Error_inv in H. destruct H as [ring [Hin H]].
    apply parse_linear_ring_Error_inv in H. destruct H as (bad & -> & Hb & Hn).
    exists ring, bad. auto.
  - inversion H; subst. apply rings_to_triangles_Error_inv in Hs.
    destruct Hs as [ring [Hin Hr]].
    apply parse_linear_ring_Error_inv in Hr. destruct Hr as (bad & -> & Hb & Hn).
    exists ring, bad. split; [apply solid_rings_incl; exact Hin | auto].
Qed.

Lemma extract_triangles_raises_only_on_bad_token_witness :
  exists ring bad,
    In ring (all_rings (snd file_with_bad_token))
    /\ In bad (ring_tokens ring)
    /\ PyFloat.of_string bad = None
    /\ ValueError_float "x5" = ValueError_float bad.
Proof.
  apply (extract_triangles_raises_only_on_bad_token (snd file_with_bad_token)).
  vm_compute. reflexivity.
Defined.

(** X7.  The document-wide search visits every ring the restricted search
    visits, so a fallback parses the rings below the target solids a
    second time; a document without any linear ring yields the empty
    list and no error. *)
Theorem fallback_search_covers_solid_rings (root : Element) :
  incl (solid_rings root) (all_rings root)
  /\ (all_rings root = [] -> extract_triangles root = Ok []).
Proof.
  split; [apply solid_rings_incl |].
  intros Hnone. pose proof (solid_rings_incl root) as Hincl.
  rewrite Hnone in Hincl. apply incl_l_nil in Hincl.
  rewrite extract_triangles_eq, Hincl, Hnone. reflexivity.
Qed.

Lemma fallback_search_covers_solid_rings_witness :
  extract_triangles ringless_document = Ok [].
Proof.
  apply (proj2 (fallback_search_covers_solid_rings ringless_document)).
  vm_compute. reflexivity.
Defined.

(** ** More on projection *)

Lemma convert_vertices_well_formed (lat0 lon0 ls lo : float) (tri : Triangle) :
  forall flat b,
    Forall (fun v => List.length v = 3%nat) tri ->
    exists b',
      foldM (convert_vertex lat0 lon0 ls lo) tri (flat, b)
      = Ok (flat ++ flat_map (project_vertex lat0 lon0 ls lo) tri, b').
Proof.
  induction tri as [| v tri IH]; intros flat b Hall; cbn [foldM flat_map].
  - exists b. rewrite app_nil_r. reflexivity.
  - inversion Hall as [| ? ? Hv Htri]; subst.
    destruct v as [| lat [| lon [| height [| extra v]]]]; try discriminate.
    unfold convert_vertex at 1. cbn [bind].
    destruct (IH (flat ++ [mul (sub lon lon0) lo; height; mul (neg (sub lat lat0)) ls])
                 (update_extrema b (project lat0 lon0 ls lo lat lon height)) Htri)
      as [b' Hb'].
    exists b'. unfold project in *. cbn [bind]. rewrite Hb'.
    rewrite <- app_assoc. reflexivity.
Qed.

Lemma convert_vertices_Ok_inv (lat0 lon0 ls lo : float) (tri : Triangle) :
  forall st st',
    foldM (convert_vertex lat0 lon0 ls lo) tri st = Ok st' ->
    Forall (fun v => List.length v = 3%nat) tri.
Proof.
  induction tri as [| v tri IH]; intros [flat b] st'; cbn [foldM]; [constructor |].
  unfold convert_vertex at 1.
  destruct v as [| lat [| lon [| height [| extra v]]]]; cbn [bind];
    try discriminate.
  intros H. constructor; [reflexivity | eapply IH; exact H].
Qed.

Lemma convert_triangles_well_formed (lat0 lon0 ls lo : float) (tris : list Triangle) :
  forall conv b,
    Forall (Forall (fun v => List.length v = 3%nat)) tris ->
    exists b',
      foldM (convert_triangle lat0 lon0 ls lo) tris (conv, b)
      = Ok (conv ++ map (flat_map (project_vertex lat0 lon0 ls lo)) tris, b').
Proof.
  induction tris as [| tri tris IH]; intros conv b Hall; cbn [foldM map].
  - exists b. rewrite app_nil_r. reflexivity.
  - inversion Hall as [| ? ? Htri Htris]; subst.
    unfold convert_triangle at 1.
    destruct (convert_vertices_well_formed lat0 lon0 ls lo tri [] b Htri) as [b1 ->].
    cbn [bind app].
    destruct (IH (conv ++ [flat_map (project_vertex lat0 lon0 ls lo) tri]) b1 Htris)
      as [b' ->].
    exists b'. rewrite <- app_assoc. reflexivity.
Qed.

Lemma convert_triangles_Ok_inv (lat0 lon0 ls lo : float) (tris : list Triangle) :
  forall st st',
    foldM (convert_triangle lat0 lon0 ls lo) tris st = Ok st' ->
    Forall (Forall (fun v => List.length v = 3%nat)) tris.
Proof.
  induction tris as [| tri tris IH]; intros [conv b] st'; cbn [foldM]; [constructor |].
  unfold convert_triangle at 1.
  destruct (foldM (convert_vertex lat0 lon0 ls lo) tri ([], b)) as [[flat b1] | e] eqn:Hv;
    cbn [bind]; [| discriminate].
  intros H. constructor.
  - eapply convert_vertices_Ok_inv; exact Hv.
  - eapply IH; exact H.
Qed.

Lemma convert_with_scales_exact (ls lo : float) (tris : list Triangle)
      (lat0 lon0 : float) (converted : list (list float)) (bnds : Bounds) :
  convert_with_scales ls lo tris lat0 lon0 = Ok (converted, bnds) ->
  Forall (Forall (fun v => List.length v = 3%nat)) tris
  /\ converted = map (flat_map (project_vertex lat0 lon0 ls lo)) tris.
Proof.
  unfold convert_with_scales.
  destruct (foldM (convert_triangle lat0 lon0 ls lo) tris ([], initial_extrema))
    as [[conv b] | e] eqn:Hf; cbn [bind]; [| discriminate].
  intros H; inversion H; subst.
  pose proof (convert_triangles_Ok_inv _ _ _ _ _ _ _ Hf) as Hall.
  split; [exact Hall |].
  destruct (convert_triangles_well_formed lat0 lon0 ls lo tris [] initial_extrema Hall)
    as [b' Hb']. rewrite Hb' in Hf. inversion Hf; reflexivity.
Qed.

Lemma convert_with_scales_Error_inv (ls lo : float) (tris : list Triangle)
      (lat0 lon0 : float) (e : PyError) :
  convert_with_scales ls lo tris lat0 lon0 = Error e -> e = ValueError_unpack.
Proof.
  unfold convert_with_scales.
  destruct (foldM (convert_triangle lat0 lon0 ls lo) tris ([], initial_extrema))
    as [[conv b] | e0] eqn:Hf; cbn [bind]; [discriminate |].
  intros H; inversion H; subst.
  apply foldM_Error_inv in Hf. destruct Hf as (tri & [conv b] & _ & Hf).
  unfold convert_triangle in Hf.
  destruct (foldM (convert_vertex lat0 lon0 ls lo) tri ([], b)) as [[flat b1] | e0] eqn:Hv;
    cbn [bind] in Hf; [discriminate |].
  inversion Hf; subst. apply foldM_Error_inv in Hv.
  destruct Hv as (v & [flat b1] & _ & Hv). unfold convert_vertex in Hv.
  destruct v as [| lat [| lon [| height [| extra v]]]]; inversion Hv; reflexivity.
Qed.

Lemma project_vertex_length (lat0 lon0 ls lo : float) (v : Vertex) :
  List.length (project_vertex lat0 lon0 ls lo v) = 3%nat.
Proof. reflexivity. Qed.

Lemma flat_map_project_length (lat0 lon0 ls lo : float) (tri : Triangle) :
  List.length (flat_map (project_vertex lat0 lon0 ls lo) tri)
  = (3 * List.length tri)%nat.
Proof.
  induction tri as [| v tri IH]; [reflexivity |].
  cbn [flat_map List.length]. rewrite length_app, IH, project_vertex_length. lia.
Qed.

(** X8.  A successful [convert_coordinates] returns one record per
    triangle, in the order of the triangles: the concatenation, vertex by
    vertex, of [(lon - lon0) * lon_scale], the height as it is, and
    [-(lat - lat0) * lat_scale], with the scale factors of the converter
    at [lat0].  Every vertex then has exactly three components. *)
Theorem convert_coordinates_records (libm_cos : float -> float)
        (tris : list Triangle) (lat0 lon0 : float)
        (converted : list (list float)) (bnds : Bounds) :
  convert_coordinates libm_cos tris lat0 lon0 = Ok (converted, bnds) ->
  exists lat_scale lon_scale,
    degrees_to_meters_converter libm_cos lat0 = Ok (lat_scale, lon_scale)
    /\ Forall (Forall (fun v => List.length v = 3%nat)) tris
    /\ converted = map (flat_map (project_vertex lat0 lon0 lat_scale lon_scale)) tris
    /\ forall lat lon height,
         project_vertex lat0 lon0 lat_scale lon_scale [lat; lon; height]
         = [mul (sub lon lon0) lon_scale; height;
            mul (neg (sub lat lat0)) lat_scale].
Proof.
  unfold convert_coordinates. intros H. apply bind_Ok_inv in H.
  destruct H as ([ls lo] & Hd & Hc). apply convert_with_scales_exact in Hc.
  destruct Hc as [Hall ->]. exists ls, lo. repeat split; auto.
Qed.

Lemma convert_coordinates_records_witness :
  exists lat_scale lon_scale,
    degrees_to_meters_converter cos_at_zero pos_zero = Ok (lat_scale, lon_scale)
    /\ Forall (Forall (fun v => List.length v = 3%nat))
              [[[pos_zero; pos_zero; nan]; [pos_zero; of_Z 1; of_Z 1];
                [pos_zero; of_Z 2; of_Z 2]]]
    /\ [[lit "-111319.34"; nan; S754_zero true;
         pos_zero; of_Z 1; S754_zero true;
         lit "111319.34"; of_Z 2; S754_zero true]]
       = map (flat_map (project_vertex pos_zero (of_Z 1) lat_scale lon_scale))
             [[[pos_zero; pos_zero; nan]; [pos_zero; of_Z 1; of_Z 1];
               [pos_zero; of_Z 2; of_Z 2]]]
    /\ forall lat lon height,
         project_vertex pos_zero (of_Z 1) lat_scale lon_scale [lat; lon; height]
         = [mul (sub lon (of_Z 1)) lon_scale; height;
            mul (neg (sub lat pos_zero)) lat_scale].
Proof.
  eapply (convert_coordinates_records cos_at_zero
            [[[pos_zero; pos_zero; nan]; [pos_zero; of_Z 1; of_Z 1];
              [pos_zero; of_Z 2; of_Z 2]]] pos_zero (of_Z 1)).
  vm_compute. reflexivity.
Defined.

(** X9.  [convert_coordinates] succeeds exactly when the converter
    succeeds at [lat0] and every vertex of every triangle has three
    components.  When it raises, the error is the converter's, raised
    before any vertex is looked at, or else the [ValueError] of an
    unpacking. *)
Theorem convert_coordinates_failures (libm_cos : float -> float)
        (tris : list Triangle) (lat0 lon0 : float) :
  ((exists r, convert_coordinates libm_cos tris lat0 lon0 = Ok r)
   <-> (exists s, degrees_to_meters_converter libm_cos lat0 = Ok s)
       /\ Forall (Forall (fun v => List.length v = 3%nat)) tris)
  /\ (forall e, degrees_to_meters_converter libm_cos lat0 = Error e ->
                convert_coordinates libm_cos tris lat0 lon0 = Error e)
  /\ (forall e, convert_coordinates libm_cos tris lat0 lon0 = Error e ->
                degrees_to_meters_converter libm_cos lat0 = Error e
                \/ e = ValueError_unpack).
Proof.
  unfold convert_coordinates. split; [split |].
  - intros [[converted bnds] H]. apply bind_Ok_inv in H.
    destruct H as ([ls lo] & Hd & Hc). split; [eauto |].
    apply convert_with_scales_exact in Hc. tauto.
  - intros [[[ls lo] Hd] Hall]. rewrite Hd. cbn [bind].
    unfold convert_with_scales.
    destruct (convert_triangles_well_formed lat0 lon0 ls lo tris [] initial_extrema Hall)
      as [b' ->]. cbn [bind]. eauto.
  - split.
    + intros e ->. reflexivity.
    + intros e.
      destruct (degrees_to_meters_converter libm_cos lat0) as [[ls lo] | e0];
        cbn [bind].
      * intros H. right. eapply convert_with_scales_Error_inv; exact H.
      * intros H; inversion H; subst. left; reflexivity.
Qed.

Lemma fold_py_min_not_nan (xs : list float) :
  forall a, is_nan a = false -> is_nan (fold_left py_min xs a) = false.
Proof.
  induction xs as [| x xs IH]; intros a Ha; cbn [fold_left]; [exact Ha |].
  apply IH. unfold py_min. destruct (ltb x a) eqn:E; [| exact Ha].
  destruct x; try reflexivity. discriminate.
Qed.

Lemma fold_py_max_not_nan (xs : list float) :
  forall a, is_nan a = false -> is_nan (fold_left py_max xs a) = false.
Proof.
  induction xs as [| x xs IH]; intros a Ha; cbn [fold_left]; [exact Ha |].
  apply IH. unfold py_max. destruct (gtb x a) eqn:E; [| exact Ha].
  destruct x; try reflexivity. discriminate.
Qed.

(** X10.  Whatever the coordinates, the bounding box [convert_coordinates]
    returns has three minima and three maxima, none of which is [NaN]: a
    [NaN] coordinate never replaces a running extremum. *)
Theorem bounds_are_never_nan (libm_cos : float -> float)
        (tris : list Triangle) (lat0 lon0 : float)
        (converted : list (list float)) (bnds : Bounds) :
  convert_coordinates libm_cos tris lat0 lon0 = Ok (converted, bnds) ->
  List.length (bounds_min bnds) = 3%nat
  /\ List.length (bounds_max bnds) = 3%nat
  /\ Forall (fun c => is_nan c = false) (bounds_min bnds ++ bounds_max bnds).
Proof.
  unfold convert_coordinates. intros H. apply bind_Ok_inv in H.
  destruct H as ([ls lo] & _ & Hc). apply convert_with_scales_Ok in Hc.
  destruct Hc as (ptss & _ & _ & ->). cbn [bounds_min bounds_max List.length app].
  destruct (extrema_components (List.concat ptss) initial_extrema)
    as (E1 & E2 & E3 & E4 & E5 & E6).
  rewrite E1, E2, E3, E4, E5, E6.
  repeat split; repeat constructor;
    first [apply fold_py_min_not_nan | apply fold_py_max_not_nan]; reflexivity.
Qed.

Lemma bounds_are_never_nan_witness :
  exists converted bnds,
    convert_coordinates cos_at_zero
      [[[pos_zero; pos_zero; nan]; [pos_zero; of_Z 1; nan]; [pos_zero; nan; nan]]]
      pos_zero (of_Z 1) = Ok (converted, bnds)
    /\ List.length (bounds_min bnds) = 3%nat
    /\ List.length (bounds_max bnds) = 3%nat
    /\ Forall (fun c => is_nan c = false) (bounds_min bnds ++ bounds_max bnds).
Proof.
  destruct (convert_coordinates cos_at_zero
              [[[pos_zero; pos_zero; nan]; [pos_zero; of_Z 1; nan];
                [pos_zero; nan; nan]]] pos_zero (of_Z 1))
    as [[converted bnds] | e] eqn:Hrun; [| vm_compute in Hrun; discriminate].
  exists converted, bnds. split; [reflexivity |].
  exact (bounds_are_never_nan cos_at_zero _ _ _ converted bnds Hrun).
Defined.

(** ** More on the orchestration *)

Section MainCases.

Variable libm_cos : float -> float.
Variable summation : Summation.
Variables (gml_files : list (string * Element)) (dest : string) (limit : Z).

(** The run, read off the result of the loop over the files. *)
Lemma run_main_cases :
  run (main libm_cos summation gml_files dest limit)
  = match foldM collect_file (considered gml_files limit) ([], [], []) with
    | Error e => (Raised e, [])
    | Ok ([], _, _) => (Raised (SystemExit no_triangles_message), [])
    | Ok (t :: all, lats, lons) =>
        match mean summation lats with
        | Error e => (Raised e, [])
        | Ok lat0 =>
            match mean summation lons with
            | Error e => (Raised e, [])
            | Ok lon0 =>
                match convert_coordinates libm_cos (t :: all) lat0 lon0 with
                | Error e => (Raised e, [])
                | Ok (converted, bnds) =>
                    match degrees_to_meters_converter libm_cos lat0 with
                    | Error e => (Raised e, [Mkdir_parent dest; Open_write dest])
                    | Ok s =>
                        (Returned,
                         [Mkdir_parent dest; Open_write dest;
                          Json_dump dest
                            (mkMeshDocument lat0 lon0 converted bnds
                               (map fst (considered gml_files limit))
                               (fst s) (snd s))])
                    end
                end
            end
        end
    end.
Proof.
  unfold run, main, bindIO, lift, emit.
  destruct (foldM collect_file (considered gml_files limit) ([], [], []))
    as [[[all lats] lons] | e]; [| reflexivity].
  destruct all as [| t all]; [reflexivity |].
  destruct (mean summation lats) as [lat0 | e]; [| reflexivity].
  destruct (mean summation lons) as [lon0 | e]; [| reflexivity].
  destruct (convert_coordinates libm_cos (t :: all) lat0 lon0)
    as [[converted bnds] | e]; [| reflexivity].
  destruct (degrees_to_meters_converter libm_cos lat0) as [s | e]; reflexivity.
Qed.

End MainCases.

Lemma convert_coordinates_Ok_scales (libm_cos : float -> float)
      (tris : list Triangle) (lat0 lon0 : float) (r : list (list float) * Bounds) :
  convert_coordinates libm_cos tris lat0 lon0 = Ok r ->
  exists s, degrees_to_meters_converter libm_cos lat0 = Ok s.
Proof.
  unfold convert_coordinates. intros H. apply bind_Ok_inv in H.
  destruct H as (s & Hs & _). eauto.
Qed.

(** *** No division by zero *)

Lemma shr_1_m (r : shr_record) :
  0 <= shr_m r -> shr_m (shr_1 r) = shr_m r / 2 /\ 0 <= shr_m (shr_1 r).
Proof.
  destruct r as [m rb sb]. cbn [shr_m]. intros Hm.
  destruct m as [| p | p]; [| | lia].
  - cbn. split; [reflexivity | lia].
  - destruct p as [p | p |]; cbn [shr_1 shr_m].
    + split; [| lia]. rewrite Pos2Z.inj_xI.
      apply Z.div_unique with (r := 1); lia.
    + split; [| lia]. rewrite Pos2Z.inj_xO.
      apply Z.div_unique with (r := 0); lia.
    + split; [reflexivity | lia].
Qed.

Lemma iter_shr_1_m (n : positive) :
  forall r, 0 <= shr_m r ->
    shr_m (iter_pos shr_1 n r) = shr_m r / 2 ^ Zpos n
    /\ 0 <= shr_m (iter_pos shr_1 n r).
Proof.
  induction n as [n IH | n IH |]; intros r Hr; cbn [iter_pos].
  - destruct (shr_1_m r Hr) as [E1 H1].
    destruct (IH _ H1) as [E2 H2]. destruct (IH _ H2) as [E3 H3].
    split; [| exact H3]. rewrite E3, E2, E1.
    rewrite !Z.div_div by (try apply Z.pow_pos_nonneg; lia).
    f_equal. rewrite (Pos2Z.inj_xI n), Z.add_1_r, Z.pow_succ_r, Z.pow_twice_r by lia.
    lia.
  - destruct (IH _ Hr) as [E2 H2]. destruct (IH _ H2) as [E3 H3].
    split; [| exact H3]. rewrite E3, E2.
    rewrite !Z.div_div by (try apply Z.pow_pos_nonneg; lia).
    f_equal. rewrite (Pos2Z.inj_xO n), Z.pow_twice_r. reflexivity.
  - destruct (shr_1_m r Hr) as [E1 H1]. split; [| exact H1].
    rewrite E1. reflexivity.
Qed.

Lemma digits2_pos_lower (p : positive) :
  2 ^ (Zpos (digits2_pos p) - 1) <= Zpos p.
Proof.
  induction p as [p IH | p IH |]; cbn [digits2_pos].
  - rewrite Pos2Z.inj_succ. replace (Z.succ (Zpos (digits2_pos p)) - 1)
      with (1 + (Zpos (digits2_pos p) - 1)) by lia.
    rewrite Z.pow_add_r by lia. lia.
  - rewrite Pos2Z.inj_succ. replace (Z.succ (Zpos (digits2_pos p)) - 1)
      with (1 + (Zpos (digits2_pos p) - 1)) by lia.
    rewrite Z.pow_add_r by lia. lia.
  - reflexivity.
Qed.

Lemma shr_record_of_loc_m (m : Z) (l : location) : shr_m (shr_record_of_loc m l) = m.
Proof. destruct l as [| []]; reflexivity. Qed.

Lemma shr_fexp_positive (m e : Z) (l : location) :
  0 < m -> emin prec emax <= e ->
  0 < shr_m (fst (shr_fexp prec emax m e l))
  /\ emin prec emax <= snd (shr_fexp prec emax m e l).
Proof.
  intros Hm He. unfold shr_fexp, shr.
  destruct m as [| p | p]; try lia. cbn [Zdigits2].
  pose proof (digits2_pos_lower p) as Hd.
  set (d := Zpos (digits2_pos p)) in *.
  assert (Hdpos : 0 < d) by (subst d; lia).
  destruct (fexp prec emax (d + e) - e) as [| n | n] eqn:En;
    cbn [fst snd]; rewrite ?shr_record_of_loc_m; try (split; lia).
  assert (Hn : Zpos n <= d - 1).
  { unfold fexp, emin, prec, emax in *. lia. }
  destruct (iter_shr_1_m n (shr_record_of_loc (Zpos p) l)) as [E _];
    [rewrite shr_record_of_loc_m; lia |].
  rewrite E, shr_record_of_loc_m. split; [| lia].
  apply Z.div_str_pos. split; [apply Z.pow_pos_nonneg; lia |].
  eapply Z.le_trans; [| exact Hd]. apply Z.pow_le_mono_r; lia.
Qed.

Lemma round_nearest_even_ge (m : Z) (l : location) : m <= round_nearest_even m l.
Proof.
  unfold round_nearest_even. destruct l as [| []]; try lia.
  destruct (Z.even m); lia.
Qed.

Lemma binary_round_aux_not_zero (s : bool) (m e : Z) (l : location) :
  0 < m -> emin prec emax <= e ->
  is_zero (binary_round_aux prec emax s m e l) = false.
Proof.
  intros Hm He. unfold binary_round_aux.
  destruct (shr_fexp_positive m e l Hm He) as [H1 H1e].
  destruct (shr_fexp prec emax m e l) as [mrs' e']. cbn [fst snd] in H1, H1e.
  pose proof (round_nearest_even_ge (shr_m mrs') (loc_of_shr_record mrs')) as Hr.
  destruct (shr_fexp_positive (round_nearest_even (shr_m mrs') (loc_of_shr_record mrs'))
              e' loc_Exact ltac:(lia) H1e) as [H2 _].
  destruct (shr_fexp prec emax _ e' loc_Exact) as [mrs'' e''].
  cbn [fst] in H2. destruct (shr_m mrs''); try lia.
  destruct (e'' <=? emax - prec); reflexivity.
Qed.

Lemma of_Z_positive_not_zero (n : Z) : 0 < n -> is_zero (of_Z n) = false.
Proof.
  intros Hn. destruct n as [| p | p]; try lia.
  unfold of_Z, binary_normalize, binary_round.
  destruct (shl_align p 0 (fexp prec emax (Zpos (digits2_pos p) + 0))) as [mz ez] eqn:Es.
  apply binary_round_aux_not_zero; [lia |].
  unfold shl_align in Es.
  destruct (fexp prec emax (Zpos (digits2_pos p) + 0) - 0) eqn:Ed;
    inversion Es; subst; unfold fexp, emin, prec, emax in *; lia.
Qed.

Lemma mean_nonempty (summation : Summation) (xs : list float) :
  xs <> [] -> exists m, mean summation xs = Ok m.
Proof.
  intros Hne. unfold mean, truediv.
  rewrite of_Z_positive_not_zero; [eauto |].
  destruct xs; [contradiction | cbn [List.length]; lia].
Qed.

Lemma concat_nil_inv {A : Type} (ls : list (list A)) :
  List.concat ls = [] -> Forall (fun l => l = []) ls.
Proof.
  induction ls as [| l ls IH]; cbn [List.concat]; intros H; constructor.
  - apply app_eq_nil in H. tauto.
  - apply IH. apply app_eq_nil in H. tauto.
Qed.

Lemma mapM_Ok_Forall2 {A B : Type} (f : A -> result B) (l : list A) (bs : list B) :
  mapM f l = Ok bs -> Forall2 (fun a b => f a = Ok b) l bs.
Proof.
  revert bs; induction l as [| a l IH]; intros bs; cbn [mapM].
  - intros H; inversion H; constructor.
  - destruct (f a) as [b0 |] eqn:Ha; cbn [bind]; [| discriminate].
    destruct (mapM f l) as [bs0 |]; cbn [bind]; [| discriminate].
    intros H; inversion H; subst. constructor; auto.
Qed.

Lemma mean_Error_inv (summation : Summation) (xs : list float) (e : PyError) :
  mean summation xs = Error e -> e = ZeroDivisionError.
Proof.
  unfold mean, truediv.
  destruct (is_zero (of_Z (Z.of_nat (List.length xs)))); intros H; inversion H.
  reflexivity.
Qed.

Lemma math_cos_Error_inv (libm_cos : float -> float) (x : float) (e : PyError) :
  math_cos libm_cos x = Error e -> e = ValueError_math.
Proof.
  unfold math_cos.
  destruct (is_nan (libm_cos x) && negb (is_nan x));
    [intros H; inversion H; reflexivity |].
  destruct (is_inf (libm_cos x) && is_finite x); intros H; inversion H; reflexivity.
Qed.

Lemma degrees_to_meters_converter_Error_inv (libm_cos : float -> float)
      (lat : float) (e : PyError) :
  degrees_to_meters_converter libm_cos lat = Error e -> e = ValueError_math.
Proof.
  unfold degrees_to_meters_converter.
  repeat match goal with
         | |- bind (math_cos libm_cos ?x) _ = _ -> _ =>
             let E := fresh "E" in
             destruct (math_cos libm_cos x) eqn:E; cbn [bind];
             [| intros H; inversion H; subst;
                eapply math_cos_Error_inv; eassumption]
         end.
  discriminate.
Qed.

Lemma convert_coordinates_Error_inv (libm_cos : float -> float)
      (tris : list Triangle) (lat0 lon0 : float) (e : PyError) :
  convert_coordinates libm_cos tris lat0 lon0 = Error e ->
  e = ValueError_math \/ e = ValueError_unpack.
Proof.
  unfold convert_coordinates.
  destruct (degrees_to_meters_converter libm_cos lat0) as [[ls lo] | e0] eqn:Hd;
    cbn [bind]; intros H.
  - right. eapply convert_with_scales_Error_inv; exact H.
  - inversion H; subst. left.
    eapply degrees_to_meters_converter_Error_inv; exact Hd.
Qed.

Lemma main_SystemExit_inv (libm_cos : float -> float) (summation : Summation)
      (gml_files : list (string * Element)) (dest : string) (limit : Z)
      (msg : string) (tr : list Effect) :
  run (main libm_cos summation gml_files dest limit) = (Raised (SystemExit msg), tr) ->
  forall f, In f (considered gml_files limit) -> extract_triangles (snd f) = Ok [].
Proof.
  intros Hrun. rewrite run_main_cases in Hrun.
  destruct (foldM collect_file (considered gml_files limit) ([], [], []))
    as [[[all lats] lons] | e] eqn:Hfold.
  - destruct all as [| t all].
    + apply collect_files_Ok in Hfold.
      destruct Hfold as (per_file & Hx & Hall & _).
      cbn [app] in Hall. symmetry in Hall. apply concat_nil_inv in Hall.
      apply mapM_Ok_Forall2 in Hx. intros f Hf.
      clear - Hx Hall Hf. induction Hx as [| a b l bs Hab _ IH]; [destruct Hf |].
      inversion Hall; subst. destruct Hf as [<- | Hf]; auto.
    + exfalso.
      destruct (mean summation lats) as [lat0 | e] eqn:Hlat;
        [| apply mean_Error_inv in Hlat; subst; discriminate].
      destruct (mean summation lons) as [lon0 | e] eqn:Hlon;
        [| apply mean_Error_inv in Hlon; subst; discriminate].
      destruct (convert_coordinates libm_cos (t :: all) lat0 lon0)
        as [[converted bnds] | e] eqn:Hc.
      * apply convert_coordinates_Ok_scales in Hc. destruct Hc as [s Hs].
        rewrite Hs in Hrun. discriminate.
      * apply convert_coordinates_Error_inv in Hc.
        destruct Hc; subst; discriminate.
  - inversion Hrun; subst. apply collect_files_Error_inv in Hfold. discriminate.
Qed.

(** X12.  [main] raises [SystemExit] exactly when extraction succeeds on
    every processed file and yields no triangle for any of them; the
    message is always the one about the provided GML files, and nothing
    has been written. *)
Theorem main_exits_iff_no_triangles (libm_cos : float -> float) (summation : Summation)
        (gml_files : list (string * Element)) (dest : string) (limit : Z) :
  (run (main libm_cos summation gml_files dest limit)
   = (Raised (SystemExit no_triangles_message), [])
   <-> (forall f, In f (considered gml_files limit) ->
                  extract_triangles (snd f) = Ok []))
  /\ (forall msg tr,
        run (main libm_cos summation gml_files dest limit) = (Raised (SystemExit msg), tr) ->
        msg = no_triangles_message /\ tr = []).
Proof.
  assert (Hback : (forall f, In f (considered gml_files limit) ->
                             extract_triangles (snd f) = Ok []) ->
                  run (main libm_cos summation gml_files dest limit)
                  = (Raised (SystemExit no_triangles_message), [])).
  { intros H. apply main_collect_nothing with (lats := []) (lons := []).
    apply collect_files_empty. exact H. }
  split; [split; [apply main_SystemExit_inv | exact Hback] |].
  intros msg tr Hrun. pose proof (main_SystemExit_inv _ _ _ _ _ _ _ Hrun) as Hall.
  rewrite (Hback Hall) in Hrun. inversion Hrun; auto.
Qed.




Lemma extracted_triangles_have_three_vertices (root : Element) (ts : list Triangle) :
  extract_triangles root = Ok ts ->
  Forall (fun tri => List.length tri = 3%nat) ts.
Proof.
  intros Hx. apply Forall_forall. intros tri Htri.
  destruct (extract_triangles_In root ts Hx tri Htri) as (ring & coords & _ & _ & Ht).
  apply polygon_to_triangles_In in Ht. tauto.
Qed.

(** *** The origin *)

Lemma extract_each_three_vertices (files : list (string * Element))
      (per_file : list (list Triangle)) :
  extract_each files = Ok per_file ->
  Forall (fun tri : list (list float) => List.length tri = 3%nat)
         (List.concat per_file).
Proof.
  unfold extract_each. intros Hx.
  apply Forall_forall. intros tri Htri. apply in_concat in Htri.
  destruct Htri as [ts [Hts Htri]].
  destruct (mapM_Ok_In _ _ _ Hx ts Hts) as [f [_ Hf]].
  apply extracted_triangles_have_three_vertices in Hf.
  rewrite Forall_forall in Hf. auto.
Qed.

Lemma three_samples_per_triangle (tris : list Triangle) :
  Forall (fun tri : list (list float) => List.length tri = 3%nat) tris ->
  List.length (List.concat tris) = (3 * List.length tris)%nat.
Proof.
  induction 1 as [| tri tris Htri _ IH]; [reflexivity |].
  cbn [List.concat List.length]. rewrite length_app, IH, Htri. lia.
Qed.

Lemma total_from_left_fold (xs : list float) (acc : float) :
  fold_left add xs acc = total_from_left acc xs.
Proof.
  revert acc; induction xs as [| x xs IH]; intros acc; [reflexivity |].
  cbn [fold_left total_from_left]. apply IH.
Qed.

Lemma total_with_error_fold (xs : list float) (acc err : float) :
  (let '(total, c) := fold_left compensated_step xs (acc, err) in
   if negb (is_zero c) && is_finite c then add total c else total)
  = total_with_error acc err xs.
Proof.
  revert acc err; induction xs as [| x xs IH]; intros acc err.
  - cbn [fold_left total_with_error]. destruct err; reflexivity.
  - cbn [fold_left total_with_error]. unfold compensated_step at 2.
    destruct (leb (abs x) (abs acc)); apply IH.
Qed.

Lemma py_sum_float_total (summation : Summation) (xs : list float) :
  py_sum summation xs = float_total summation xs.
Proof.
  destruct summation; cbn [py_sum float_total].
  - apply total_from_left_fold.
  - destruct xs as [| x xs]; [reflexivity |].
    unfold compensated_total. apply total_with_error_fold.
Qed.

Lemma mean_Ok_inv (summation : Summation) (xs : list float) (m : float) :
  mean summation xs = Ok m -> m = arithmetic_mean summation xs.
Proof.
  unfold mean, truediv, arithmetic_mean.
  destruct (is_zero (of_Z (Z.of_nat (List.length xs)))); intros H; inversion H.
  rewrite py_sum_float_total. reflexivity.
Qed.



(** X14.  In every run that produces output, the document holds one
    record per extracted triangle, in file order and then in extraction
    order; each record has nine numbers, the projections of the
    triangle's three vertices about the reported origin with the scale
    factors the metadata reports; there is at least one record. *)
Theorem written_triangles (libm_cos : float -> float) (summation : Summation)
        (gml_files : list (string * Element)) (dest : string) (limit : Z)
        (d : string) (doc : MeshDocument) :
  In (Json_dump d doc) (snd (run (main libm_cos summation gml_files dest limit))) ->
  exists per_file,
    extract_each (considered gml_files limit) = Ok per_file
    /\ triangles doc
       = map (flat_map (project_vertex (origin_lat doc) (origin_lon doc)
                                       (lat_scale_m_per_deg doc)
                                       (lon_scale_m_per_deg doc)))
             (List.concat per_file)
    /\ Forall (fun flat => List.length flat = 9%nat) (triangles doc)
    /\ triangles doc <> [].
Proof.
  intros H. apply main_dump_inv in H.
  destruct H as (all & lats & lons & converted & bnds & scales & H).
  destruct H as (Hfold & Hne & _ & _ & Hconv & Hscales & _ & Hdoc & _).
  apply collect_files_Ok in Hfold.
  destruct Hfold as (per_file & Hx & Hall & _). cbn [app] in Hall. subst all.
  exists per_file. split; [exact Hx |].
  unfold convert_coordinates in Hconv. rewrite Hscales in Hconv. cbn [bind] in Hconv.
  destruct scales as [ls lo]. apply convert_with_scales_exact in Hconv.
  destruct Hconv as [_ Hconv].
  assert (Htri : triangles doc = converted) by (rewrite Hdoc; reflexivity).
  assert (Hls : lat_scale_m_per_deg doc = ls) by (rewrite Hdoc; reflexivity).
  assert (Hlo : lon_scale_m_per_deg doc = lo) by (rewrite Hdoc; reflexivity).
  rewrite Htri, Hls, Hlo, Hconv. split; [reflexivity |]. split.
  - apply Forall_forall. intros flat Hflat. apply in_map_iff in Hflat.
    destruct Hflat as [tri [<- Htri']]. rewrite flat_map_project_length.
    apply in_concat in Htri'. destruct Htri' as [ts [Hts Htri']].
    unfold extract_each in Hx.
    destruct (mapM_Ok_In _ _ _ Hx ts Hts) as [f [_ Hf]].
    apply extracted_triangles_have_three_vertices in Hf.
    rewrite Forall_forall in Hf. rewrite (Hf tri Htri'). reflexivity.
  - destruct (List.concat per_file); [contradiction | discriminate].
Qed.

Lemma written_triangles_witness :
  exists doc per_file,
    In (Json_dump "mesh.json" doc)
       (snd (run (main cos_at_zero Plain [file_with_triangle; file_with_stray_ring]
                       "mesh.json" 12)))
    /\ extract_each [file_with_triangle; file_with_stray_ring] = Ok per_file
    /\ triangles doc
       = map (flat_map (project_vertex (origin_lat doc) (origin_lon doc)
                                       (lat_scale_m_per_deg doc)
                                       (lon_scale_m_per_deg doc)))
             (List.concat per_file)
    /\ Forall (fun flat => List.length flat = 9%nat) (triangles doc)
    /\ triangles doc <> [].
Proof.
  eexists.
  assert (Hrun : In (Json_dump "mesh.json" _)
                    (snd (run (main cos_at_zero Plain
                                    [file_with_triangle; file_with_stray_ring]
                                    "mesh.json" 12))))
    by (vm_compute; right; right; left; reflexivity).
  destruct (written_triangles _ _ _ _ _ _ _ Hrun) as [per_file H].
  exists per_file. split; [exact Hrun | exact H].
Defined.

(** X15.  The files [main] processes are a prefix of the sorted listing:
    all of it for a limit of zero, its first [limit] files for a positive
    limit, and all but its last [-limit] files for a negative one. *)
Theorem considered_is_a_prefix {A : Type} (gml_files : list A) (limit : Z) :
  exists rest,
    gml_files = considered gml_files limit ++ rest
    /\ Z.of_nat (List.length (considered gml_files limit))
       = if limit =? 0 then Z.of_nat (List.length gml_files)
         else if 0 <? limit then Z.min limit (Z.of_nat (List.length gml_files))
              else Z.max 0 (Z.of_nat (List.length gml_files) + limit).
Proof.
  unfold considered, slice_to.
  destruct (Z.eqb_spec limit 0) as [-> | Hnz].
  - exists []. rewrite app_nil_r. auto.
  - destruct (Z.leb_spec 0 limit) as [Hpos | Hneg].
    + exists (skipn (Z.to_nat limit) gml_files). split.
      * symmetry. apply firstn_skipn.
      * rewrite length_firstn. destruct (Z.ltb_spec 0 limit); lia.
    + exists (skipn (Z.to_nat (Z.of_nat (List.length gml_files) + limit)) gml_files).
      split.
      * symmetry. apply firstn_skipn.
      * rewrite length_firstn. destruct (Z.ltb_spec 0 limit); lia.
Qed.

(** ** More on the geodesic scale factors *)

Lemma radians_infinity (s : bool) : radians (S754_infinity s) = S754_infinity s.
Proof. destruct s; reflexivity. Qed.

Lemma double_infinity (s : bool) :
  mul (of_Z 2) (S754_infinity s) = S754_infinity s.
Proof. destruct s; reflexivity. Qed.

(** ** The projection of the origin *)

Lemma sub_self_not_finite (x : float) : is_finite x = false -> sub x x = nan.
Proof.
  destruct x as [s | s | | s m e]; simpl; intros H; try discriminate.
  - destruct s; reflexivity.
  - reflexivity.
Qed.

Lemma mul_nan_l (y : float) : mul nan y = nan.
Proof. destruct y; reflexivity. Qed.

Lemma converter_infinite_latitude (libm_cos : float -> float) (s : bool) :
  is_nan (libm_cos (S754_infinity s)) = true ->
  degrees_to_meters_converter libm_cos (S754_infinity s) = Error ValueError_math.
Proof.
  intros Hnan. unfold degrees_to_meters_converter.
  rewrite radians_infinity, double_infinity.
  unfold math_cos at 1. rewrite Hnan. reflexivity.
Qed.

Lemma converter_nan_latitude (libm_cos : float -> float) :
  exists scales, degrees_to_meters_converter libm_cos nan = Ok scales.
Proof.
  unfold degrees_to_meters_converter, math_cos.
  change (radians nan) with nan.
  change (mul (of_Z 2) nan) with nan. change (mul (of_Z 4) nan) with nan.
  change (mul (of_Z 3) nan) with nan.
  change (is_nan nan) with true. change (is_finite nan) with false.
  cbn [negb]. rewrite !andb_false_r. cbn [bind]. eauto.
Qed.

(** C7, as the code has it.  For a finite origin and finite scale
    factors, the vertex [(lat0, lon0, h)] projects to [(x, h, z)] where
    [x] and [z] are zeros (of either sign) and the height is [h] itself,
    for every [h].  For an origin longitude that is infinite or [NaN]
    the abscissa of that vertex is [NaN], whatever the scale factors; for
    an origin latitude that is infinite or [NaN] its third component is
    [NaN]; the height is [h] in both cases.  A [NaN] origin latitude
    still gets its scale factors.  An infinite origin latitude does not:
    where the cosine of the C library answers [NaN] at an infinity, the
    projection raises the [ValueError] of a math domain error whatever
    the triangles, and a run whose mean latitude is infinite raises it
    with nothing written. *)
Theorem C7_origin_projects_to_zero (libm_cos : float -> float) (summation : Summation)
        (lat0 lon0 lat_scale lon_scale h : float) :
  (is_finite lat0 = true -> is_finite lon0 = true ->
   is_finite lat_scale = true -> is_finite lon_scale = true ->
   exists x z,
     project lat0 lon0 lat_scale lon_scale lat0 lon0 h = (x, h, z)
     /\ is_zero x = true /\ is_zero z = true
     /\ forall flat b,
          convert_vertex lat0 lon0 lat_scale lon_scale (flat, b) [lat0; lon0; h]
          = Ok (flat ++ [x; h; z], update_extrema b (x, h, z)))
  /\ (is_finite lon0 = false ->
      exists z,
        project lat0 lon0 lat_scale lon_scale lat0 lon0 h = (nan, h, z)
        /\ forall flat b,
             convert_vertex lat0 lon0 lat_scale lon_scale (flat, b) [lat0; lon0; h]
             = Ok (flat ++ [nan; h; z], update_extrema b (nan, h, z)))
  /\ (is_finite lat0 = false ->
      exists x,
        project lat0 lon0 lat_scale lon_scale lat0 lon0 h = (x, h, nan)
        /\ forall flat b,
             convert_vertex lat0 lon0 lat_scale lon_scale (flat, b) [lat0; lon0; h]
             = Ok (flat ++ [x; h; nan], update_extrema b (x, h, nan)))
  /\ (is_nan lat0 = true ->
      exists scales, degrees_to_meters_converter libm_cos lat0 = Ok scales)
  /\ (is_inf lat0 = true -> is_nan (libm_cos lat0) = true ->
      (forall tris,
          convert_coordinates libm_cos tris lat0 lon0 = Error ValueError_math)
      /\ (forall gml_files dest limit all lats lons,
            foldM collect_file (considered gml_files limit) ([], [], [])
            = Ok (all, lats, lons) ->
            all <> [] ->
            mean summation lats = Ok lat0 ->
            mean summation lons = Ok lon0 ->
            run (main libm_cos summation gml_files dest limit)
            = (Raised ValueError_math, []))).
Proof.
  split; [| split; [| split; [| split]]].
  - intros Hlat Hlon Hls Hlo. unfold convert_vertex, project.
    rewrite (sub_self lat0 Hlat), (sub_self lon0 Hlon).
    do 2 eexists. split; [reflexivity |].
    split; [apply mul_zero_finite; assumption |].
    split; [apply (mul_zero_finite true); assumption |].
    intros flat b. reflexivity.
  - intros Hlon. unfold convert_vertex, project.
    rewrite (sub_self_not_finite lon0 Hlon), mul_nan_l.
    eexists. split; [reflexivity |]. intros flat b. reflexivity.
  - intros Hlat. unfold convert_vertex, project.
    rewrite (sub_self_not_finite lat0 Hlat).
    change (neg nan) with nan. rewrite mul_nan_l.
    eexists. split; [reflexivity |]. intros flat b. reflexivity.
  - intros Hnan. destruct lat0; try discriminate Hnan.
    apply converter_nan_latitude.
  - intros Hinf Hcos. destruct lat0 as [s | s | | s m e]; try discriminate Hinf.
    assert (Hconv : forall tris,
               convert_coordinates libm_cos tris (S754_infinity s) lon0
               = Error ValueError_math).
    { intros tris. unfold convert_coordinates.
      rewrite (converter_infinite_latitude libm_cos s Hcos). reflexivity. }
    split; [exact Hconv |].
    intros gml_files dest limit all lats lons Hfold Hall Hlats Hlons.
    rewrite run_main_cases, Hfold.
    destruct all as [| t all]; [contradiction Hall; reflexivity |].
    rewrite Hlats, Hlons, Hconv. reflexivity.
Qed.

Lemma C7_origin_projects_to_zero_witness :
  (exists x z,
      project (lit "35.0116") (lit "135.7681") (lit "110950.5") (lit "91287.8")
              (lit "35.0116") (lit "135.7681") (lit "12.5")
      = (x, lit "12.5", z)
      /\ is_zero x = true /\ is_zero z = true
      /\ forall flat b,
           convert_vertex (lit "35.0116") (lit "135.7681")
                          (lit "110950.5") (lit "91287.8") (flat, b)
                          [lit "35.0116"; lit "135.7681"; lit "12.5"]
           = Ok (flat ++ [x; lit "12.5"; z], update_extrema b (x, lit "12.5", z)))
  /\ (exists z,
        project pos_zero neg_inf (lit "110950.5") pos_inf pos_zero neg_inf (lit "12.5")
        = (nan, lit "12.5", z))
  /\ (exists x,
        project nan pos_zero pos_zero (lit "91287.8") nan pos_zero (lit "12.5")
        = (x, lit "12.5", nan))
  /\ (exists scales, degrees_to_meters_converter cos_at_zero nan = Ok scales)
  /\ run (main cos_at_zero Compensated [file_with_infinite_latitude] "mesh.json" 12)
     = (Raised ValueError_math, []).
Proof.
  split; [| split; [| split; [| split]]].
  - apply (proj1 (C7_origin_projects_to_zero cos_at_zero Plain
                    (lit "35.0116") (lit "135.7681")
                    (lit "110950.5") (lit "91287.8") (lit "12.5")));
      vm_compute; reflexivity.
  - destruct (proj1 (proj2 (C7_origin_projects_to_zero cos_at_zero Plain
                              pos_zero neg_inf (lit "110950.5") pos_inf
                              (lit "12.5"))) eq_refl) as (z & Hz & _).
    exists z. exact Hz.
  - destruct (proj1 (proj2 (proj2 (C7_origin_projects_to_zero cos_at_zero Plain
                              nan pos_zero pos_zero (lit "91287.8")
                              (lit "12.5")))) eq_refl) as (x & Hx & _).
    exists x. exact Hx.
  - apply (proj1 (proj2 (proj2 (proj2 (C7_origin_projects_to_zero cos_at_zero Plain
                              nan pos_zero pos_zero pos_zero pos_zero)))) eq_refl).
  - destruct (foldM collect_file (considered [file_with_infinite_latitude] 12)
                ([], [], []))
      as [[[all lats] lons] | e] eqn:Hfold; [| vm_compute in Hfold; discriminate].
    apply (proj2 (proj2 (proj2 (proj2 (proj2
             (C7_origin_projects_to_zero cos_at_zero Compensated
                pos_inf (of_Z 1) pos_zero pos_zero pos_zero))))
             eq_refl eq_refl)
             [file_with_infinite_latitude] "mesh.json"%string 12 all lats lons Hfold);
      vm_compute in Hfold; inversion Hfold; subst;
      [discriminate | vm_compute; reflexivity | vm_compute; reflexivity].
Defined.

(** X16.  The converter is not total.  When the cosine of the C library
    answers [NaN] at an infinity, as the C standard has it, an infinite
    latitude raises the [ValueError] of a math domain error, and so does
    the projection about an origin of infinite latitude, whatever the
    triangles.  A [NaN] latitude raises nothing. *)
Theorem converter_at_non_finite_latitudes (libm_cos : float -> float) :
  (forall s,
      is_nan (libm_cos (S754_infinity s)) = true ->
      degrees_to_meters_converter libm_cos (S754_infinity s)
      = Error ValueError_math
      /\ forall tris lon0,
           convert_coordinates libm_cos tris (S754_infinity s) lon0
           = Error ValueError_math)
  /\ (exists scales, degrees_to_meters_converter libm_cos nan = Ok scales).
Proof.
  split.
  - intros s Hnan.
    assert (Hd : degrees_to_meters_converter libm_cos (S754_infinity s)
                 = Error ValueError_math).
    { unfold degrees_to_meters_converter.
      rewrite radians_infinity, double_infinity.
      unfold math_cos at 1. rewrite Hnan. reflexivity. }
    split; [exact Hd |]. intros tris lon0. unfold convert_coordinates.
    rewrite Hd. reflexivity.
  - unfold degrees_to_meters_converter, math_cos.
    change (radians nan) with nan.
    change (mul (of_Z 2) nan) with nan. change (mul (of_Z 4) nan) with nan.
    change (mul (of_Z 3) nan) with nan.
    change (is_nan nan) with true. change (is_finite nan) with false.
    cbn [negb]. rewrite !andb_false_r. cbn [bind]. eauto.
Qed.

Lemma converter_at_non_finite_latitudes_witness :
  degrees_to_meters_converter cos_at_zero pos_inf = Error ValueError_math
  /\ forall tris lon0,
       convert_coordinates cos_at_zero tris pos_inf lon0 = Error ValueError_math.
Proof.
  apply (proj1 (converter_at_non_finite_latitudes cos_at_zero) false).
  reflexivity.
Defined.

Lemma binary_round_aux_negb (s : bool) (m e : Z) (l : location) :
  binary_round_aux prec emax (negb s) m e l
  = neg (binary_round_aux prec emax s m e l).
Proof.
  unfold binary_round_aux.
  destruct (shr_fexp prec emax m e l) as [mrs' e'].
  destruct (shr_fexp prec emax _ e' loc_Exact) as [mrs'' e''].
  destruct (shr_m mrs''); [reflexivity | | reflexivity].
  destruct (e'' <=? emax - prec); reflexivity.
Qed.

Lemma mul_neg_l (x y : float) : mul (neg x) y = neg (mul x y).
Proof.
  destruct x as [sx | sx | | sx mx ex], y as [sy | sy | | sy my ey]; cbn;
    try reflexivity; try (destruct sx, sy; reflexivity).
  rewrite <- binary_round_aux_negb. destruct sx, sy; reflexivity.
Qed.

Lemma mul_neg_r (x y : float) : mul x (neg y) = neg (mul x y).
Proof.
  destruct x as [sx | sx | | sx mx ex], y as [sy | sy | | sy my ey]; cbn;
    try reflexivity; try (destruct sx, sy; reflexivity).
  rewrite <- binary_round_aux_negb. destruct sx, sy; reflexivity.
Qed.

Lemma math_cos_even (libm_cos : float -> float) :
  (forall x, libm_cos (neg x) = libm_cos x) ->
  forall x, math_cos libm_cos (neg x) = math_cos libm_cos x.
Proof.
  intros Heven x. unfold math_cos. rewrite Heven.
  destruct x; reflexivity.
Qed.

(** X17.  With an even cosine, the scale factors depend on the latitude
    only up to its sign: the two hemispheres get the same factors, and
    the same error when there is one. *)
Theorem converter_ignores_the_hemisphere (libm_cos : float -> float) (lat : float) :
  (forall x, libm_cos (neg x) = libm_cos x) ->
  degrees_to_meters_converter libm_cos (neg lat)
  = degrees_to_meters_converter libm_cos lat.
Proof.
  intros Heven. unfold degrees_to_meters_converter, radians.
  rewrite mul_neg_l, !mul_neg_r, !(math_cos_even libm_cos Heven). reflexivity.
Qed.

Lemma converter_ignores_the_hemisphere_witness :
  degrees_to_meters_converter cos_at_zero (neg (S754_zero false))
  = degrees_to_meters_converter cos_at_zero (S754_zero false).
Proof.
  apply (converter_ignores_the_hemisphere cos_at_zero (S754_zero false)).
  intros x. destruct x; reflexivity.
Defined.

(** ** The divisions of the origin *)

Lemma collected_samples_count (files : list (string * Element))
      (all : list Triangle) (lats lons : list float) :
  foldM collect_file files ([], [], []) = Ok (all, lats, lons) ->
  List.length lats = (3 * List.length all)%nat
  /\ List.length lons = (3 * List.length all)%nat.
Proof.
  intros Hfold. apply collect_files_Ok in Hfold.
  destruct Hfold as (per_file & Hx & -> & -> & ->). cbn [app].
  rewrite !length_map.
  rewrite (three_samples_per_triangle _ (extract_each_three_vertices _ _ Hx)).
  auto.
Qed.

(** X11.  When the loop over the files ends, it has collected three
    latitudes and three longitudes for each triangle.  With at least one
    triangle, which is what lets [main] go on, neither division of the
    origin divides by zero: [main] never raises [ZeroDivisionError]. *)
Theorem origin_never_divides_by_zero (libm_cos : float -> float)
        (summation : Summation)
        (gml_files : list (string * Element)) (dest : string) (limit : Z) :
  (forall all lats lons,
      foldM collect_file (considered gml_files limit) ([], [], [])
      = Ok (all, lats, lons) ->
      List.length lats = (3 * List.length all)%nat
      /\ List.length lons = (3 * List.length all)%nat
      /\ (all <> [] ->
          mean summation lats = Ok (arithmetic_mean summation lats)
          /\ mean summation lons = Ok (arithmetic_mean summation lons)))
  /\ (forall e tr,
        run (main libm_cos summation gml_files dest limit) = (Raised e, tr) ->
        e <> ZeroDivisionError).
Proof.
  assert (Hmean : forall all lats lons,
             foldM collect_file (considered gml_files limit) ([], [], [])
             = Ok (all, lats, lons) ->
             all <> [] ->
             mean summation lats = Ok (arithmetic_mean summation lats)
             /\ mean summation lons = Ok (arithmetic_mean summation lons)).
  { intros all lats lons Hfold Hne.
    destruct (collected_samples_count _ _ _ _ Hfold) as [Hlats Hlons].
    assert (Hpos : (0 < List.length all)%nat)
      by (destruct all; [contradiction | cbn [List.length]; lia]).
    split.
    - destruct (mean_nonempty summation lats) as [m Hm];
        [intros E; rewrite E in Hlats; cbn [List.length] in Hlats; lia |].
      rewrite Hm. f_equal. apply mean_Ok_inv. exact Hm.
    - destruct (mean_nonempty summation lons) as [m Hm];
        [intros E; rewrite E in Hlons; cbn [List.length] in Hlons; lia |].
      rewrite Hm. f_equal. apply mean_Ok_inv. exact Hm. }
  split.
  - intros all lats lons Hfold.
    destruct (collected_samples_count _ _ _ _ Hfold) as [Hlats Hlons].
    split; [exact Hlats |]. split; [exact Hlons |]. apply Hmean. exact Hfold.
  - intros e tr Hrun ->. rewrite run_main_cases in Hrun.
    destruct (foldM collect_file (considered gml_files limit) ([], [], []))
      as [[[all lats] lons] | e] eqn:Hfold.
    + destruct all as [| t all]; [discriminate |].
      destruct (Hmean _ _ _ eq_refl ltac:(discriminate)) as [Hlat Hlon].
      rewrite Hlat, Hlon in Hrun.
      destruct (convert_coordinates libm_cos (t :: all)
                  (arithmetic_mean summation lats) (arithmetic_mean summation lons))
        as [[converted bnds] | e] eqn:Hc.
      * apply convert_coordinates_Ok_scales in Hc. destruct Hc as [s Hs].
        rewrite Hs in Hrun. discriminate.
      * apply convert_coordinates_Error_inv in Hc.
        inversion Hrun; subst. destruct Hc; discriminate.
    + inversion Hrun; subst. apply collect_files_Error_inv in Hfold. discriminate.
Qed.

Lemma origin_never_divides_by_zero_witness :
  exists all lats lons,
    foldM collect_file
          (considered [file_without_rings; file_with_triangle; file_with_stray_ring] 12)
          ([], [], [])
    = Ok (all, lats, lons)
    /\ List.length all = 2%nat
    /\ List.length lats = (3 * List.length all)%nat
    /\ List.length lons = (3 * List.length all)%nat
    /\ (all <> [] ->
        mean Compensated lats = Ok (arithmetic_mean Compensated lats)
        /\ mean Compensated lons = Ok (arithmetic_mean Compensated lons)).
Proof.
  destruct (foldM collect_file
              (considered [file_without_rings; file_with_triangle;
                           file_with_stray_ring] 12) ([], [], []))
    as [[[all lats] lons] | e] eqn:Hfold; [| vm_compute in Hfold; discriminate].
  exists all, lats, lons. split; [reflexivity |]. split.
  - vm_compute in Hfold. inversion Hfold; subst. reflexivity.
  - exact (proj1 (origin_never_divides_by_zero cos_at_zero Compensated
                    [file_without_rings; file_with_triangle; file_with_stray_ring]
                    "mesh.json" 12) all lats lons Hfold).
Defined.

(** ** The bounding box among [NaN] coordinates *)

Lemma fold_py_min_skips_nan (xs : list float) :
  forall a,
    fold_left py_min xs a
    = fold_left py_min (filter (fun x => negb (is_nan x)) xs) a.
Proof.
  induction xs as [| x xs IH]; intros a; [reflexivity |].
  cbn [fold_left filter]. destruct x; cbn [is_nan negb fold_left]; apply IH.
Qed.

Lemma fold_py_max_skips_nan (xs : list float) :
  forall a,
    fold_left py_max xs a
    = fold_left py_max (filter (fun x => negb (is_nan x)) xs) a.
Proof.
  induction xs as [| x xs IH]; intros a; [reflexivity |].
  cbn [fold_left filter]. destruct x; cbn [is_nan negb fold_left]; apply IH.
Qed.

Lemma filter_not_nan (xs : list float) :
  Forall (fun x => is_nan x = false) (filter (fun x => negb (is_nan x)) xs).
Proof.
  apply Forall_forall. intros x Hx. apply filter_In in Hx.
  destruct Hx as [_ Hx]. destruct (is_nan x); [discriminate | reflexivity].
Qed.

Lemma running_min_among_nan (xs : list float) :
  let m := fold_left py_min xs pos_inf in
  (forall x, In x xs -> is_nan x = false -> leb m x = true)
  /\ (m = pos_inf \/ In m xs).
Proof.
  intros m. subst m. rewrite fold_py_min_skips_nan.
  destruct (running_min_spec _ pos_inf eq_refl (filter_not_nan xs)) as (_ & H2 & H3).
  split.
  - intros x Hx Hn. rewrite Forall_forall in H2. apply H2.
    apply filter_In. split; [exact Hx | rewrite Hn; reflexivity].
  - destruct H3 as [H3 | H3]; [left; exact H3 |].
    right. apply filter_In in H3. tauto.
Qed.

Lemma running_max_among_nan (xs : list float) :
  let m := fold_left py_max xs neg_inf in
  (forall x, In x xs -> is_nan x = false -> leb x m = true)
  /\ (m = neg_inf \/ In m xs).
Proof.
  intros m. subst m. rewrite fold_py_max_skips_nan.
  destruct (running_max_spec _ neg_inf eq_refl (filter_not_nan xs)) as (_ & H2 & H3).
  split.
  - intros x Hx Hn. rewrite Forall_forall in H2. apply H2.
    apply filter_In. split; [exact Hx | rewrite Hn; reflexivity].
  - destruct H3 as [H3 | H3]; [left; exact H3 |].
    right. apply filter_In in H3. tauto.
Qed.

(** X18.  Among coordinates that may be [NaN], the bounding box still
    bounds every projected coordinate that is a number: on each axis the
    minimum is below and the maximum above every non-[NaN] coordinate of
    that axis, and each of the six components is the coordinate of some
    projected vertex or else the sentinel it started from. *)
Theorem bounds_cover_every_number (libm_cos : float -> float)
        (tris : list Triangle) (lat0 lon0 : float)
        (converted : list (list float)) (bnds : Bounds) :
  convert_coordinates libm_cos tris lat0 lon0 = Ok (converted, bnds) ->
  exists lo_x lo_y lo_z hi_x hi_y hi_z,
    bnds = mkBounds [lo_x; lo_y; lo_z] [hi_x; hi_y; hi_z]
    /\ (forall p, In p (projected_points converted) ->
          (is_nan (px p) = false -> leb lo_x (px p) = true /\ leb (px p) hi_x = true)
          /\ (is_nan (py p) = false -> leb lo_y (py p) = true /\ leb (py p) hi_y = true)
          /\ (is_nan (pz p) = false -> leb lo_z (pz p) = true /\ leb (pz p) hi_z = true))
    /\ (lo_x = pos_inf \/ exists p, In p (projected_points converted) /\ px p = lo_x)
    /\ (lo_y = pos_inf \/ exists p, In p (projected_points converted) /\ py p = lo_y)
    /\ (lo_z = pos_inf \/ exists p, In p (projected_points converted) /\ pz p = lo_z)
    /\ (hi_x = neg_inf \/ exists p, In p (projected_points converted) /\ px p = hi_x)
    /\ (hi_y = neg_inf \/ exists p, In p (projected_points converted) /\ py p = hi_y)
    /\ (hi_z = neg_inf \/ exists p, In p (projected_points converted) /\ pz p = hi_z).
Proof.
  intros Hconv. unfold convert_coordinates in Hconv.
  apply bind_Ok_inv in Hconv. destruct Hconv as ([ls lo] & _ & Hconv).
  apply convert_with_scales_Ok in Hconv.
  destruct Hconv as (ptss & -> & _ & ->).
  rewrite projected_points_flatten. set (pts := List.concat ptss).
  destruct (extrema_components pts initial_extrema) as (E1 & E2 & E3 & E4 & E5 & E6).
  cbn [initial_extrema min_x min_y min_z max_x max_y max_z] in E1, E2, E3, E4, E5, E6.
  destruct (running_min_among_nan (map px pts)) as (Bx & Ax).
  destruct (running_min_among_nan (map py pts)) as (By & Ay).
  destruct (running_min_among_nan (map pz pts)) as (Bz & Az).
  destruct (running_max_among_nan (map px pts)) as (Cx & Dx).
  destruct (running_max_among_nan (map py pts)) as (Cy & Dy).
  destruct (running_max_among_nan (map pz pts)) as (Cz & Dz).
  rewrite <- E1 in Bx, Ax. rewrite <- E2 in By, Ay. rewrite <- E3 in Bz, Az.
  rewrite <- E4 in Cx, Dx. rewrite <- E5 in Cy, Dy. rewrite <- E6 in Cz, Dz.
  do 6 eexists. split; [reflexivity |]. split.
  - intros p Hp. repeat split;
      first [apply Bx | apply By | apply Bz | apply Cx | apply Cy | apply Cz];
      try assumption; apply in_map; assumption.
  - repeat split;
      match goal with
      | H : ?m = _ \/ In ?m _ |- ?m = _ \/ _ =>
          destruct H as [H | H]; [left; exact H | right; apply in_map_component; exact H]
      end.
Qed.

Lemma bounds_cover_every_number_witness :
  exists converted lo_x lo_y lo_z hi_x hi_y hi_z,
    convert_coordinates cos_at_zero
      [[[pos_zero; pos_zero; nan]; [pos_zero; of_Z 1; of_Z 1];
        [pos_zero; of_Z 2; of_Z 2]]] pos_zero (of_Z 1)
    = Ok (converted, mkBounds [lo_x; lo_y; lo_z] [hi_x; hi_y; hi_z])
    /\ (forall p, In p (projected_points converted) ->
          (is_nan (px p) = false -> leb lo_x (px p) = true /\ leb (px p) hi_x = true)
          /\ (is_nan (py p) = false -> leb lo_y (py p) = true /\ leb (py p) hi_y = true)
          /\ (is_nan (pz p) = false -> leb lo_z (pz p) = true /\ leb (pz p) hi_z = true))
    /\ (lo_x = pos_inf \/ exists p, In p (projected_points converted) /\ px p = lo_x)
    /\ (lo_y = pos_inf \/ exists p, In p (projected_points converted) /\ py p = lo_y)
    /\ (lo_z = pos_inf \/ exists p, In p (projected_points converted) /\ pz p = lo_z)
    /\ (hi_x = neg_inf \/ exists p, In p (projected_points converted) /\ px p = hi_x)
    /\ (hi_y = neg_inf \/ exists p, In p (projected_points converted) /\ py p = hi_y)
    /\ (hi_z = neg_inf \/ exists p, In p (projected_points converted) /\ pz p = hi_z).
Proof.
  destruct (convert_coordinates cos_at_zero
              [[[pos_zero; pos_zero; nan]; [pos_zero; of_Z 1; of_Z 1];
                [pos_zero; of_Z 2; of_Z 2]]] pos_zero (of_Z 1))
    as [[converted bnds] | e] eqn:Hrun; [| vm_compute in Hrun; discriminate].
  destruct (bounds_cover_every_number cos_at_zero _ _ _ converted bnds Hrun)
    as (lo_x & lo_y & lo_z & hi_x & hi_y & hi_z & -> & H).
  exists converted, lo_x, lo_y, lo_z, hi_x, hi_y, hi_z.
  split; [reflexivity | exact H].
Defined.

(** ** The fan *)

(** X19.  The fan leaves no vertex out: in a ring of at least three
    vertices every vertex belongs to some triangle.  Consecutive
    triangles share an edge from vertex 0: the third vertex of a triangle
    is the second vertex of the next. *)
Theorem fan_covers_the_ring (coords : list Vertex) :
  (3 <= List.length coords)%nat ->
  (forall v, In v coords -> exists tri, In tri (polygon_to_triangles coords) /\ In v tri)
  /\ (forall k t1 t2,
        nth_error (polygon_to_triangles coords) k = Some t1 ->
        nth_error (polygon_to_triangles coords) (S k) = Some t2 ->
        nth_error t1 0 = nth_error t2 0 /\ nth_error t1 2 = nth_error t2 1).
Proof.
  intros Hlen. split.
  - intros v Hv. apply In_nth with (d := ([] : list float)) in Hv.
    destruct Hv as (j & Hj & <-).
    assert (Hcases : (j = 0 \/ (1 <= j <= List.length coords - 2)
                      \/ j = List.length coords - 1)%nat) by lia.
    destruct Hcases as [-> | [Hmid | ->]].
    + pose proof (polygon_to_triangles_nth coords 1 Hlen ltac:(lia)) as Ht.
      apply nth_error_In in Ht. eexists; split; [exact Ht | left; reflexivity].
    + pose proof (polygon_to_triangles_nth coords j Hlen Hmid) as Ht.
      apply nth_error_In in Ht.
      eexists; split; [exact Ht | right; left; reflexivity].
    + pose proof (polygon_to_triangles_nth coords (List.length coords - 2) Hlen
                    ltac:(lia)) as Ht.
      apply nth_error_In in Ht. eexists; split; [exact Ht |].
      right; right; left. f_equal. lia.
  - intros k t1 t2 H1 H2.
    assert (Hk : (S k < List.length (polygon_to_triangles coords))%nat)
      by (apply nth_error_Some; congruence).
    rewrite polygon_to_triangles_length in Hk by assumption.
    pose proof (polygon_to_triangles_nth coords (S k) Hlen ltac:(lia)) as E1.
    pose proof (polygon_to_triangles_nth coords (S (S k)) Hlen ltac:(lia)) as E2.
    replace (S k - 1)%nat with k in E1 by lia.
    replace (S (S k) - 1)%nat with (S k) in E2 by lia.
    rewrite E1 in H1. rewrite E2 in H2. inversion H1; inversion H2; subst.
    split; [reflexivity |]. cbn [nth_error]. f_equal. f_equal. lia.
Qed.

Lemma fan_covers_the_ring_witness :
  (forall v, In v [[pos_zero]; [of_Z 1]; [of_Z 2]; [of_Z 3]] ->
     exists tri,
       In tri (polygon_to_triangles [[pos_zero]; [of_Z 1]; [of_Z 2]; [of_Z 3]])
       /\ In v tri)
  /\ (forall k t1 t2,
        nth_error (polygon_to_triangles [[pos_zero]; [of_Z 1]; [of_Z 2]; [of_Z 3]]) k
        = Some t1 ->
        nth_error (polygon_to_triangles [[pos_zero]; [of_Z 1]; [of_Z 2]; [of_Z 3]]) (S k)
        = Some t2 ->
        nth_error t1 0 = nth_error t2 0 /\ nth_error t1 2 = nth_error t2 1).
Proof.
  apply (fan_covers_the_ring [[pos_zero]; [of_Z 1]; [of_Z 2]; [of_Z 3]]).
  simpl. lia.
Defined.
